(** * Smart Task Planner: the goal-to-plan decomposition engine

    A shallow embedding of [src/task_logic.py] and of the fragments of the
    Python runtime it calls ([str], [int], [re], [datetime], [list]),
    followed by the properties of the engine.

    Conventions of the embedding.
    - A Python [str] is a Rocq [string] whose characters are the code points
      U+0000..U+00FF (Latin-1).  The character classes ([str.lower], [\d],
      [\s], [str.strip]) are those of CPython on these code points.
    - A Python [int] is a [Z].
    - A [datetime] is the proleptic Gregorian ordinal of its date part
      ([date.toordinal()]) together with the time of day.  The calendar
      ends on 9999-12-31: arithmetic that leaves it raises.
    - Code that may raise returns a [result]; [Raise e] is an exception
      that propagates to the caller.
    - [datetime.utcnow()] is a parameter of the function that calls it:
      [now] for the call inside [parse_goal_duration], [start] for the
      call inside [mock_llm_reasoning].
    - [max_str_digits] is the limit of the interpreter on the digits of an
      integer literal ([sys.get_int_max_str_digits()]).
    - The service behind [call_openai] and [json.loads] are parameters of
      [generate_plan]. *)

From Stdlib Require Import ZArith List String Ascii Bool Lia.
Import ListNotations.

Local Open Scope string_scope.
Local Open Scope Z_scope.

(** ** Part I. The Python runtime used by the engine *)

Module Py.

(** *** Exceptions *)

Inductive exn : Set :=
| ValueError
| TypeError
| OverflowError
| ZeroDivisionError
| IndexError.

Inductive result (A : Type) : Type :=
| Ok (a : A)
| Raise (e : exn).

Arguments Ok {A} a.
Arguments Raise {A} e.

Definition bind {A B : Type} (c : result A) (k : A -> result B) : result B :=
  match c with
  | Ok a => k a
  | Raise e => Raise e
  end.

(** *** Characters and strings *)

Definition code (c : ascii) : N := N_of_ascii c.

(** [\d] and [str.isdigit] on Latin-1: the ten ASCII digits. *)
Definition isdigit (c : ascii) : bool :=
  ((48 <=? code c) && (code c <=? 57))%N.

(** [\s] and [str.isspace] on Latin-1 ([Py_UNICODE_ISSPACE]):
    U+0009..U+000D, U+001C..U+0020, U+0085 and U+00A0. *)
Definition isspace (c : ascii) : bool :=
  (((9 <=? code c) && (code c <=? 13))
   || ((28 <=? code c) && (code c <=? 32))
   || (code c =? 133) || (code c =? 160))%N.

(** [str.lower] on one Latin-1 character: A..Z and U+00C0..U+00DE except
    the multiplication sign U+00D7 move up by 32. *)
Definition lower_char (c : ascii) : ascii :=
  if (((65 <=? code c) && (code c <=? 90))
      || ((192 <=? code c) && (code c <=? 222) && negb (code c =? 215)))%N
  then ascii_of_N (code c + 32)
  else c.

Fixpoint lower (s : string) : string :=
  match s with
  | EmptyString => EmptyString
  | String c s' => String (lower_char c) (lower s')
  end.

(** [s] without the characters of the class [p] at its start, and at
    its end. *)
Fixpoint lstrip (p : ascii -> bool) (s : string) : string :=
  match s with
  | EmptyString => EmptyString
  | String c s' => if p c then lstrip p s' else s
  end.

Fixpoint rstrip (p : ascii -> bool) (s : string) : string :=
  match s with
  | EmptyString => EmptyString
  | String c s' =>
      match rstrip p s' with
      | EmptyString => if p c then EmptyString else String c EmptyString
      | r => String c r
      end
  end.

(** [s.strip()] *)
Definition strip (s : string) : string := rstrip isspace (lstrip isspace s).

Fixpoint startswith (s p : string) {struct p} : bool :=
  match p, s with
  | EmptyString, _ => true
  | String a p', String b s' => Ascii.eqb a b && startswith s' p'
  | String _ _, EmptyString => false
  end.

(** [sub in s] *)
Fixpoint contains (sub s : string) : bool :=
  startswith s sub
  || match s with
     | EmptyString => false
     | String _ s' => contains sub s'
     end.

(** [a <= b]: the order of strings, by code points. *)
Fixpoint str_le (a b : string) : bool :=
  match a, b with
  | EmptyString, _ => true
  | String _ _, EmptyString => false
  | String x a', String y b' =>
      if (code x <? code y)%N then true
      else if (code x =? code y)%N then str_le a' b'
      else false
  end.

(** [s[:n]] for [n >= 0] *)
Fixpoint slice_to (n : nat) (s : string) : string :=
  match n, s with
  | S n', String c s' => String c (slice_to n' s')
  | _, _ => EmptyString
  end.

(** [s[n:]] for [n >= 0] *)
Fixpoint slice_from (n : nat) (s : string) : string :=
  match n, s with
  | S n', String _ s' => slice_from n' s'
  | _, _ => s
  end.

Fixpoint all_chars (p : ascii -> bool) (s : string) : bool :=
  match s with
  | EmptyString => true
  | String c s' => p c && all_chars p s'
  end.

(** *** [int(str)]

    [int] skips white space around the literal (the white space of [\s]
    but U+001C..U+001F, which it refuses), reads an optional sign and then
    decimal digits that single underscores may separate.  CPython 3.11 and later
    refuse, with [ValueError], a literal of more than [max_str_digits]
    digits ([sys.set_int_max_str_digits]; the default is 4300, and 0, like
    the older interpreters, sets no limit).  The check applies to literals
    of more than 640 digits. *)

Definition int_space (c : ascii) : bool :=
  isspace c && negb ((28 <=? code c) && (code c <=? 31))%N.

Definition digit_value (c : ascii) : Z := Z.of_N (code c) - 48.

Fixpoint int_digits (acc : Z) (s : string) : Z :=
  match s with
  | EmptyString => acc
  | String c s' => int_digits (10 * acc + digit_value c) s'
  end.

(** Scans the digits of a literal; [sep] tells that a digit must come
    next (at the start and after an underscore).  Returns the value and
    the number of digits. *)
Fixpoint int_body (sep : bool) (acc : Z) (n : nat) (s : string)
  : option (Z * nat) :=
  match s with
  | EmptyString => if sep then None else Some (acc, n)
  | String c s' =>
      if isdigit c then int_body false (10 * acc + digit_value c) (S n) s'
      else if Ascii.eqb c "_"
           then if sep then None else int_body true acc n s'
           else None
  end.

Definition str_digits_check_threshold : nat := 640.

(** The literal has more digits than the interpreter converts. *)
Definition exceeds_max_str_digits (max_str_digits digits : nat) : bool :=
  Nat.ltb str_digits_check_threshold digits
  && Nat.ltb 0 max_str_digits
  && Nat.ltb max_str_digits digits.

Definition int (max_str_digits : nat) (s : string) : result Z :=
  let t := rstrip int_space (lstrip int_space s) in
  let '(sign, body) :=
    match t with
    | String "+" b => (1, b)
    | String "-" b => (-1, b)
    | _ => (1, t)
    end in
  match int_body true 0 0 body with
  | None => Raise ValueError
  | Some (v, digits) =>
      if exceeds_max_str_digits max_str_digits digits
      then Raise ValueError
      else Ok (sign * v)
  end.

(** *** Lists *)

(** [l[k]], with Python's negative indices. *)
Definition getitem {A : Type} (l : list A) (k : Z) : result A :=
  let n := Z.of_nat (List.length l) in
  let k' := if k <? 0 then k + n else k in
  if (0 <=? k') && (k' <? n)
  then match nth_error l (Z.to_nat k') with
       | Some x => Ok x
       | None => Raise IndexError
       end
  else Raise IndexError.

(** [l.insert(k, x)]: a negative [k] counts from the end, and the
    position is clipped to [0 .. len(l)]. *)
Definition insert {A : Type} (l : list A) (k : Z) (x : A) : list A :=
  let n := Z.of_nat (List.length l) in
  let k1 := if k <? 0 then Z.max 0 (k + n) else k in
  let k2 := Z.to_nat (Z.min k1 n) in
  firstn k2 l ++ x :: skipn k2 l.

(** *** [datetime] *)

Record datetime : Set := {
  ordinal : Z;        (* [.date().toordinal()] *)
  usec_of_day : Z     (* the time of day, in microseconds *)
}.

(** [date.max.toordinal()], the ordinal of 9999-12-31. *)
Definition MAXORDINAL : Z := 3652059.

Definition valid_ordinal (n : Z) : bool := (1 <=? n) && (n <=? MAXORDINAL).

(** [timedelta(days=d)], represented by its number of days. *)
Definition timedelta (days : Z) : result Z :=
  if Z.abs days <=? 999999999 then Ok days else Raise OverflowError.

(** [dt + delta] *)
Definition datetime_add (dt : datetime) (delta : Z) : result datetime :=
  let n := ordinal dt + delta in
  if valid_ordinal n
  then Ok {| ordinal := n; usec_of_day := usec_of_day dt |}
  else Raise OverflowError.

(** The calendar of [datetime]: [_is_leap], [_days_in_month],
    [_days_before_year], [_days_before_month], [_ymd2ord], [_ord2ymd]. *)

Definition is_leap (year : Z) : bool :=
  (year mod 4 =? 0) && (negb (year mod 100 =? 0) || (year mod 400 =? 0)).

Definition DAYS_IN_MONTH : list Z :=
  [-1; 31; 28; 31; 30; 31; 30; 31; 31; 30; 31; 30; 31].

Definition DAYS_BEFORE_MONTH : list Z :=
  [-1; 0; 31; 59; 90; 120; 151; 181; 212; 243; 273; 304; 334].

Definition days_in_month (year month : Z) : Z :=
  if (month =? 2) && is_leap year then 29
  else nth (Z.to_nat month) DAYS_IN_MONTH 0.

Definition days_before_year (year : Z) : Z :=
  let y := year - 1 in
  y * 365 + y / 4 - y / 100 + y / 400.

Definition days_before_month (year month : Z) : Z :=
  nth (Z.to_nat month) DAYS_BEFORE_MONTH 0
  + (if (2 <? month) && is_leap year then 1 else 0).

Definition ymd2ord (ymd : Z * Z * Z) : Z :=
  let '(year, month, day) := ymd in
  days_before_year year + days_before_month year month + day.

Definition DI400Y : Z := 146097.
Definition DI100Y : Z := 36524.
Definition DI4Y : Z := 1461.

Definition ord2ymd (n : Z) : Z * Z * Z :=
  let n := n - 1 in
  let n400 := n / DI400Y in
  let n := n mod DI400Y in
  let year := n400 * 400 + 1 in
  let n100 := n / DI100Y in
  let n := n mod DI100Y in
  let n4 := n / DI4Y in
  let n := n mod DI4Y in
  let n1 := n / 365 in
  let n := n mod 365 in
  let year := year + n100 * 100 + n4 * 4 + n1 in
  if (n1 =? 4) || (n100 =? 4) then (year - 1, 12, 31)
  else
    let leapyear := (n1 =? 3) && (negb (n4 =? 24) || (n100 =? 3)) in
    let month := Z.shiftr (n + 50) 5 in
    let preceding :=
      nth (Z.to_nat month) DAYS_BEFORE_MONTH 0
      + (if (2 <? month) && leapyear then 1 else 0) in
    let '(month, preceding) :=
      if n <? preceding
      then (month - 1,
            preceding
            - (nth (Z.to_nat (month - 1)) DAYS_IN_MONTH 0
               + (if (month - 1 =? 2) && leapyear then 1 else 0)))
      else (month, preceding) in
    (year, month, n - preceding + 1).

(** Decimal digits. *)
Definition digit_char (d : Z) : ascii := ascii_of_N (Z.to_N (48 + d)).

(** ["%02d" % n] for [0 <= n <= 99] and ["%04d" % n] for [0 <= n <= 9999]. *)
Definition fmt02 (n : Z) : string :=
  String (digit_char (n / 10 mod 10)) (String (digit_char (n mod 10)) "").

Definition fmt04 (n : Z) : string :=
  String (digit_char (n / 1000 mod 10))
    (String (digit_char (n / 100 mod 10)) (fmt02 n)).

(** [date.isoformat()]: ["%04d-%02d-%02d" % (year, month, day)]. *)
Definition isoformat_ymd (ymd : Z * Z * Z) : string :=
  let '(year, month, day) := ymd in
  fmt04 year ++ "-" ++ fmt02 month ++ "-" ++ fmt02 day.

(** [dt.date().isoformat()] *)
Definition date_isoformat (dt : datetime) : string :=
  isoformat_ymd (ord2ymd (ordinal dt)).

(** [date.fromisoformat] on the form YYYY-MM-DD: the calendar date that a
    string denotes, when it denotes one. *)
Definition valid_ymd (ymd : Z * Z * Z) : bool :=
  let '(year, month, day) := ymd in
  (1 <=? year) && (year <=? 9999) && (1 <=? month) && (month <=? 12)
  && (1 <=? day) && (day <=? days_in_month year month).

Definition fromisoformat (s : string) : option (Z * Z * Z) :=
  match s with
  | String y1 (String y2 (String y3 (String y4 (String "-"
      (String m1 (String m2 (String "-" (String d1 (String d2 "")))))))))
    =>
      if all_chars isdigit
           (String y1 (String y2 (String y3 (String y4
              (String m1 (String m2 (String d1 (String d2 ""))))))))
      then
        let ymd :=
          (int_digits 0 (String y1 (String y2 (String y3 (String y4 "")))),
           int_digits 0 (String m1 (String m2 "")),
           int_digits 0 (String d1 (String d2 ""))) in
        if valid_ymd ymd then Some ymd else None
      else None
  | _ => None
  end.

End Py.

Module PyNotations.
  Notation "x <- c ;; k" := (Py.bind c (fun x => k))
    (at level 61, c at next level, right associativity).
  Notation "' pat <- c ;; k" := (Py.bind c (fun x => match x with pat => k end))
    (at level 61, pat pattern, c at next level, right associativity).
End PyNotations.

(** ** Part II. The fragment of [re] that the engine uses

    A backtracking matcher in continuation-passing style: alternatives are
    tried from left to right, repetition is greedy, and [search] returns
    the match of the leftmost start position. *)

Module Re.

Inductive regex : Type :=
| Eps
| Chr (c : ascii)
| Cls (p : ascii -> bool)
| Cat (r1 r2 : regex)
| Alt (r1 r2 : regex)
| Star (p : ascii -> bool)    (* [c*] for a character class [c], greedy *)
| Group (n : nat) (r : regex).

(** The groups of a match, the most recently closed first. *)
Definition captures : Type := list (nat * string).

(** The part of [s] that was consumed when [rest] is what is left. *)
Definition consumed (s rest : string) : string :=
  substring 0 (String.length s - String.length rest) s.

Fixpoint star {R : Type} (p : ascii -> bool) (s : string)
  (k : string -> option R) : option R :=
  match s with
  | String c s' =>
      if p c
      then match star p s' k with
           | Some r => Some r
           | None => k s
           end
      else k s
  | EmptyString => k s
  end.

Fixpoint run {R : Type} (r : regex) (s : string) (caps : captures)
  (k : string -> captures -> option R) : option R :=
  match r with
  | Eps => k s caps
  | Chr c =>
      match s with
      | String c' s' => if Ascii.eqb c c' then k s' caps else None
      | EmptyString => None
      end
  | Cls p =>
      match s with
      | String c' s' => if p c' then k s' caps else None
      | EmptyString => None
      end
  | Cat r1 r2 => run r1 s caps (fun s1 caps1 => run r2 s1 caps1 k)
  | Alt r1 r2 =>
      match run r1 s caps k with
      | Some x => Some x
      | None => run r2 s caps k
      end
  | Star p => star p s (fun s' => k s' caps)
  | Group n r1 =>
      run r1 s caps (fun s' caps' => k s' ((n, consumed s s') :: caps'))
  end.

(** [re.match]: a match that starts at the beginning of [s]. *)
Definition match_here (r : regex) (s : string) : option captures :=
  run r s [] (fun _ caps => Some caps).

(** [re.search]: the first start position that has a match. *)
Fixpoint search (r : regex) (s : string) : option captures :=
  match match_here r s with
  | Some m => Some m
  | None =>
      match s with
      | String _ s' => search r s'
      | EmptyString => None
      end
  end.

(** [m.group(n)]; [None] is a group that took no part in the match. *)
Fixpoint group (m : captures) (n : nat) : option string :=
  match m with
  | [] => None
  | (i, g) :: m' => if Nat.eqb i n then Some g else group m' n
  end.

(** A literal word. *)
Fixpoint lit (w : string) : regex :=
  match w with
  | EmptyString => Eps
  | String c EmptyString => Chr c
  | String c w' => Cat (Chr c) (lit w')
  end.

(** [r+] for a character class. *)
Definition plus (p : ascii -> bool) : regex := Cat (Cls p) (Star p).

End Re.

(** ** Part III. [src/task_logic.py] *)

Module TaskLogic.

Import Py PyNotations.

(** The pattern of [parse_goal_duration]:
    [(\d+)\s*(day|days|week|weeks|month|months)]. *)
Definition duration_re : Re.regex :=
  Re.Cat (Re.Group 1 (Re.plus isdigit))
    (Re.Cat (Re.Star isspace)
       (Re.Group 2
          (Re.Alt (Re.lit "day")
             (Re.Alt (Re.lit "days")
                (Re.Alt (Re.lit "week")
                   (Re.Alt (Re.lit "weeks")
                      (Re.Alt (Re.lit "month") (Re.lit "months")))))))).

(** [m.group(n)] handed to code that needs a string: [None] is a type
    error there. *)
Definition group_str (m : Re.captures) (n : nat) : result string :=
  match Re.group m n with
  | Some g => Ok g
  | None => Raise TypeError
  end.

(** [parse_goal_duration(goal)].  [now] is the instant that
    [datetime.utcnow()] returns on line 25. *)
Definition parse_goal_duration (max_str_digits : nat) (now : datetime)
  (goal : string) : result (Z * datetime) :=
  let goal := lower goal in
  match Re.search duration_re goal with
  | Some m =>
      g1 <- group_str m 1 ;;
      num <- int max_str_digits g1 ;;
      unit <- group_str m 2 ;;
      let days :=
        if contains "week" unit then num * 7
        else if contains "month" unit then num * 30
        else num in
      delta <- timedelta days ;;
      deadline <- datetime_add now delta ;;
      Ok (days, deadline)
  | None =>
      let fallback :=
        if contains "launch" goal || contains "ship" goal
           || contains "release" goal
        then 14 else 30 in
      delta <- timedelta fallback ;;
      deadline <- datetime_add now delta ;;
      Ok (fallback, deadline)
  end.

(** A decoded JSON document: the value of [json.loads], and the value of
    [r.json()] in [call_openai]. *)
#[warnings="-register-all"]
Inductive json : Set :=
| JNull
| JBool (b : bool)
| JInt (n : Z)
| JFloat (literal : string)
| JString (s : string)
| JArray (items : list json)
| JObject (members : list (string * json)).

(** A task: the dict that [mock_llm_reasoning] builds, and the key
    [llm_note] that [generate_plan] may add to it.  The note is a slice
    of the reply of the service: a [str] ([JString]), or a list
    ([JArray]) when the reply is one. *)
Record Task : Set := {
  title : string;
  description : string;
  start_date : string;
  end_date : string;
  depends_on : string;
  llm_note : option json
}.

(** The template, lines 55 to 62. *)
Definition phases : list (string * string) :=
  [ ("Define scope & success metrics",
     "Clarify goal, success metrics, target audience, and constraints.");
    ("Design & plan",
     "Create designs, wireframes or implementation plans.");
    ("Implementation",
     "Develop core functionality and integrate components.");
    ("Testing & QA",
     "Test features, fix bugs, and verify performance.");
    ("Deployment & Launch",
     "Deploy to production and run launch checklist.");
    ("Post-launch monitoring",
     "Monitor usage, collect feedback, and iterate.") ].

(** Line 65: [phases if days >= 10 else phases[:4]]. *)
Definition choose_phases (days : Z) : list (string * string) :=
  if 10 <=? days then phases else firstn 4 phases.

(** Line 68: [max(1, days // len(chosen))]. *)
Definition per_task_days_of (days : Z) (chosen : list (string * string))
  : result Z :=
  let n := Z.of_nat (List.length chosen) in
  if n =? 0 then Raise ZeroDivisionError else Ok (Z.max 1 (days / n)).

(** [(start + timedelta(days=d)).date().isoformat()] *)
Definition date_after (start : datetime) (d : Z) : result string :=
  delta <- timedelta d ;;
  dt <- datetime_add start delta ;;
  Ok (date_isoformat dt).

(** The loop of lines 71 to 80, from index [i] on: [todo] is what is left
    of [enumerate(chosen, start=1)] and [tasks] the list built so far. *)
Fixpoint phase_loop (start : datetime) (chosen : list (string * string))
  (per_task_days : Z) (i : Z) (todo : list (string * string))
  (tasks : list Task) : result (list Task) :=
  match todo with
  | [] => Ok tasks
  | (t, desc) :: todo' =>
      s_date <- date_after start ((i - 1) * per_task_days) ;;
      e_date <- date_after start (i * per_task_days - 1) ;;
      dep <- (if i =? 1 then Ok ""
              else (ph <- getitem chosen (i - 2) ;; Ok (fst ph))) ;;
      phase_loop start chosen per_task_days (i + 1) todo'
        (tasks ++ [ {| title := t;
                       description := desc;
                       start_date := s_date;
                       end_date := e_date;
                       depends_on := dep;
                       llm_note := None |} ])
  end.

(** Lines 68 to 80: the width of a phase and the tasks of the chosen
    phases. *)
Definition allocate (start : datetime) (days : Z)
  (chosen : list (string * string)) : result (Z * list Task) :=
  per_task_days <- per_task_days_of days chosen ;;
  tasks <- phase_loop start chosen per_task_days 1 chosen [] ;;
  Ok (per_task_days, tasks).

(** Line 83: the test of the key words. *)
Definition marketing_trigger (goal_text : string) : bool :=
  contains "product" (lower goal_text)
  && contains "marketing" (lower goal_text).

(** Lines 84 to 90: the task that the key words add. *)
Definition marketing_task (start : datetime) (per_task_days : Z)
  (chosen : list (string * string)) : result Task :=
  s_date <- date_after start per_task_days ;;
  e_date <- date_after start (per_task_days * 2) ;;
  ph <- getitem chosen 0 ;;
  Ok {| title := "Marketing prep";
        description :=
          "Prepare assets, landing page, email sequences and socials.";
        start_date := s_date;
        end_date := e_date;
        depends_on := fst ph;
        llm_note := None |}.

(** [mock_llm_reasoning(goal_text)].  [now] is the instant read inside
    [parse_goal_duration] and [start] the one read on line 69.  The
    [title] of line 49 is never used, and [str.strip] and
    [str.capitalize] cannot raise: the line is left out. *)
Definition mock_llm_reasoning (max_str_digits : nat) (now start : datetime)
  (goal_text : string) : result (list Task) :=
  '(days, deadline) <- parse_goal_duration max_str_digits now goal_text ;;
  let chosen := choose_phases days in
  '(per_task_days, tasks) <- allocate start days chosen ;;
  if marketing_trigger goal_text
  then
    extra <- marketing_task start per_task_days chosen ;;
    Ok (insert tasks (Z.of_nat (List.length tasks) - 1) extra)
  else Ok tasks.

(** *** The external service *)

(** What awaiting [call_openai(prompt)] gives: an exception (no key,
    time-out, status, a body of another form), or the value of
    [data["choices"][0]["message"]["content"]], which line 115 returns
    unchecked: a text, an array, or another JSON value ([null], a
    number, a boolean or an object). *)
Inductive call_outcome : Set :=
| CallRaised
| CallReturned (reply : string)
| CallReturnedItems (items : list json)
| CallReturnedOther.

(** What [generate_plan] returns: the decoded reply, or a list of tasks. *)
Inductive plan : Set :=
| ParsedReply (parsed : json)
| TaskList (tasks : list Task).

Definition newline : string := String (ascii_of_nat 10) "".

Definition build_prompt (goal : string) : string :=
  "Break down this user goal into an actionable task list. "
  ++ "Include for each task: title, short description, estimated start date and end date (ISO YYYY-MM-DD), and dependencies (titles). "
  ++ "If the goal includes a duration (e.g., 'in 2 weeks'), use that to set deadlines. "
  ++ "Goal: " ++ goal ++ newline
  ++ "Return as JSON array of objects with keys: title, description, start_date, end_date, depends_on.".

(** [t.setdefault("llm_note", v)] *)
Definition setdefault_llm_note (v : json) (t : Task) : Task :=
  match llm_note t with
  | Some _ => t
  | None =>
      {| title := title t;
         description := description t;
         start_date := start_date t;
         end_date := end_date t;
         depends_on := depends_on t;
         llm_note := Some v |}
  end.

(** The truth value of [OPENAI_KEY]: set, and not the empty string. *)
Definition key_configured (key : option string) : bool :=
  match key with
  | Some (String _ _) => true
  | _ => false
  end.

Section GeneratePlan.

(** [json.loads]: [None] when it raises. *)
Variable json_loads : string -> option json.
(** [OPENAI_KEY], read when the module is loaded. *)
Variable OPENAI_KEY : option string.
(** The service: the outcome of [await call_openai(prompt)]. *)
Variable call_openai : string -> call_outcome.
Variable max_str_digits : nat.

(** [generate_plan(goal_text, use_openai)].  [now] and [start] are the
    instants read by a first run of [mock_llm_reasoning]; [now'] and
    [start'] are read by the run of line 152 when the handler of line
    143 itself raised.  [json.loads] raises [TypeError] on a reply that
    is not a text.  In the handler, [reply[:400]] is evaluated for each
    task of the plan: it is a text for a text, a list for an array, and
    it raises on any other value. *)
Definition generate_plan (now start now' start' : datetime)
  (goal_text : string) (use_openai : bool) : result plan :=
  let goal_text := strip goal_text in
  if use_openai && key_configured OPENAI_KEY
  then
    match call_openai (build_prompt goal_text) with
    | CallReturned reply =>
        match json_loads reply with
        | Some parsed => Ok (ParsedReply parsed)
        | None =>
            match mock_llm_reasoning max_str_digits now start goal_text with
            | Ok plan =>
                Ok (TaskList
                      (map (setdefault_llm_note
                              (JString (slice_to 400 reply))) plan))
            | Raise _ =>
                tasks <- mock_llm_reasoning max_str_digits now' start'
                           goal_text ;;
                Ok (TaskList tasks)
            end
        end
    | CallReturnedItems items =>
        match mock_llm_reasoning max_str_digits now start goal_text with
        | Ok plan =>
            Ok (TaskList
                  (map (setdefault_llm_note (JArray (firstn 400 items)))
                     plan))
        | Raise _ =>
            tasks <- mock_llm_reasoning max_str_digits now' start'
                       goal_text ;;
            Ok (TaskList tasks)
        end
    | CallReturnedOther =>
        match mock_llm_reasoning max_str_digits now start goal_text with
        | Ok [] => Ok (TaskList [])
        | Ok (_ :: _) | Raise _ =>
            tasks <- mock_llm_reasoning max_str_digits now' start'
                       goal_text ;;
            Ok (TaskList tasks)
        end
    | CallRaised =>
        tasks <- mock_llm_reasoning max_str_digits now start goal_text ;;
        Ok (TaskList tasks)
    end
  else
    tasks <- mock_llm_reasoning max_str_digits now start goal_text ;;
    Ok (TaskList tasks).

End GeneratePlan.

(** The form that the prompt asks for: an array of objects that have the
    five keys of a task. *)
Definition has_key (k : string) (members : list (string * json)) : bool :=
  existsb (fun kv => String.eqb (fst kv) k) members.

Definition is_task_object (v : json) : bool :=
  match v with
  | JObject members =>
      has_key "title" members && has_key "description" members
      && has_key "start_date" members && has_key "end_date" members
      && has_key "depends_on" members
  | _ => false
  end.

Definition is_task_array (v : json) : bool :=
  match v with
  | JArray items => forallb is_task_object items
  | _ => false
  end.

End TaskLogic.

(** ** Part IV. The engine as the specification words it

    Definitions that follow the text of the specification: the search for
    a duration (section 4.1), the timeline (section 4.3) and the
    augmentation (section 4.4), with dates as ordinals.  Part VI relates
    the code to them. *)

Module Spec.

Import Py TaskLogic.

Fixpoint take_while (p : ascii -> bool) (s : string) : string :=
  match s with
  | String c s' => if p c then String c (take_while p s') else EmptyString
  | EmptyString => EmptyString
  end.

Fixpoint drop_while (p : ascii -> bool) (s : string) : string :=
  match s with
  | String c s' => if p c then drop_while p s' else s
  | EmptyString => EmptyString
  end.

(** The units and the number of days of each. *)
Definition units : list (string * Z) :=
  [("day", 1); ("days", 1); ("week", 7); ("weeks", 7);
   ("month", 30); ("months", 30)].

Definition unit_at (s : string) : option (string * Z) :=
  find (fun u => startswith s (fst u)) units.

(** An integer, optional white space and a unit at the start of [s]: the
    digits of the integer, and the unit with its number of days. *)
Definition duration_at (s : string) : option (string * (string * Z)) :=
  match take_while isdigit s with
  | EmptyString => None
  | digits =>
      match unit_at (drop_while isspace (drop_while isdigit s)) with
      | Some u => Some (digits, u)
      | None => None
      end
  end.

(** The first place of [s] that has one. *)
Fixpoint first_duration (s : string) : option (string * (string * Z)) :=
  match duration_at s with
  | Some d => Some d
  | None =>
      match s with
      | String _ s' => first_duration s'
      | EmptyString => None
      end
  end.

(** 14 days when the text has "launch", "ship" or "release", else 30. *)
Definition fallback_days (goal : string) : Z :=
  if contains "launch" goal || contains "ship" goal || contains "release" goal
  then 14 else 30.

(** The duration of a goal: the integer of the first pattern times the
    days of its unit, else the fall-back. *)
Definition duration_days (goal_text : string) : Z :=
  match first_duration (lower goal_text) with
  | Some (digits, (_, factor)) => int_digits 0 digits * factor
  | None => fallback_days (lower goal_text)
  end.

(** The number of digits of the integer of the first pattern. *)
Definition duration_digits (goal_text : string) : nat :=
  match first_duration (lower goal_text) with
  | Some (digits, _) => String.length digits
  | None => 0
  end.

(** The ISO date of the day [d] days after [start]. *)
Definition iso_date (start : datetime) (d : Z) : string :=
  isoformat_ymd (ord2ymd (ordinal start + d)).

(** The day [d] days after [start] is a date of the calendar (and [d] a
    number of days that [timedelta] takes). *)
Definition date_ok (start : datetime) (d : Z) : bool :=
  (Z.abs d <=? 999999999) && valid_ordinal (ordinal start + d).

(** Section 4.3: the task of phase [i] (from 1) of the chosen list. *)
Definition phase_task (start : datetime) (chosen : list (string * string))
  (per_task_days : Z) (i : Z) (phase : string * string) : Task :=
  {| title := fst phase;
     description := snd phase;
     start_date := iso_date start ((i - 1) * per_task_days);
     end_date := iso_date start (i * per_task_days - 1);
     depends_on :=
       if i =? 1 then ""
       else fst (nth (Z.to_nat (i - 2)) chosen ("", ""));
     llm_note := None |}.

Fixpoint timeline (start : datetime) (chosen : list (string * string))
  (per_task_days : Z) (i : Z) (todo : list (string * string)) : list Task :=
  match todo with
  | [] => []
  | phase :: todo' =>
      phase_task start chosen per_task_days i phase
      :: timeline start chosen per_task_days (i + 1) todo'
  end.

(** All the dates of the timeline are dates of the calendar. *)
Fixpoint timeline_ok (start : datetime) (per_task_days : Z) (i : Z)
  (todo : list (string * string)) : bool :=
  match todo with
  | [] => true
  | _ :: todo' =>
      date_ok start ((i - 1) * per_task_days)
      && date_ok start (i * per_task_days - 1)
      && timeline_ok start per_task_days (i + 1) todo'
  end.

(** Section 4.4: the extra task. *)
Definition marketing_prep (start : datetime) (chosen : list (string * string))
  (per_task_days : Z) : Task :=
  {| title := "Marketing prep";
     description :=
       "Prepare assets, landing page, email sequences and socials.";
     start_date := iso_date start per_task_days;
     end_date := iso_date start (per_task_days * 2);
     depends_on := fst (nth 0 chosen ("", ""));
     llm_note := None |}.

Definition width (days : Z) (chosen : list (string * string)) : Z :=
  Z.max 1 (days / Z.of_nat (List.length chosen)).

(** The plan of a duration: the timeline of the chosen phases, and the
    extra task before the last one when the key words ask for it. *)
Definition plan_of (start : datetime) (days : Z) (augment : bool)
  : list Task :=
  let chosen := choose_phases days in
  let p := width days chosen in
  let tasks := timeline start chosen p 1 chosen in
  if augment
  then firstn (List.length tasks - 1) tasks
       ++ marketing_prep start chosen p
       :: skipn (List.length tasks - 1) tasks
  else tasks.

(** The dependencies of a list of tasks name tasks that come earlier;
    [seen] holds the titles of the tasks before this list. *)
Fixpoint deps_in_order (seen : list string) (tasks : list Task) : bool :=
  match tasks with
  | [] => true
  | t :: tasks' =>
      (String.eqb (depends_on t) ""
       || existsb (String.eqb (depends_on t)) seen)
      && deps_in_order (title t :: seen) tasks'
  end.

End Spec.

(** ** Part V. Definitions for the proofs *)

Import Py PyNotations TaskLogic Spec.

(** The end of [_ord2ymd]: the month and the day of the day [n] (from 0)
    of a year. *)
Definition month_day (leapyear : bool) (n : Z) : Z * Z :=
  let month := Z.shiftr (n + 50) 5 in
  let preceding :=
    nth (Z.to_nat month) DAYS_BEFORE_MONTH 0
    + (if (2 <? month) && leapyear then 1 else 0) in
  let '(month, preceding) :=
    if n <? preceding
    then (month - 1,
          preceding
          - (nth (Z.to_nat (month - 1)) DAYS_IN_MONTH 0
             + (if (month - 1 =? 2) && leapyear then 1 else 0)))
    else (month, preceding) in
  (month, n - preceding + 1).

(** The month and the day are a date of the year, the one that [n] days
    precede. *)
Definition month_day_ok (leapyear : bool) (n : Z) : bool :=
  let '(m, d) := month_day leapyear n in
  (1 <=? m) && (m <=? 12) && (1 <=? d)
  && (d <=? (if (m =? 2) && leapyear then 29
             else nth (Z.to_nat m) DAYS_IN_MONTH 0))
  && (nth (Z.to_nat m) DAYS_BEFORE_MONTH 0
      + (if (2 <? m) && leapyear then 1 else 0) + d =? n + 1).

(** The alternatives of the second group of the pattern. *)
Definition unit_re : Re.regex :=
  Re.Alt (Re.lit "day")
    (Re.Alt (Re.lit "days")
       (Re.Alt (Re.lit "week")
          (Re.Alt (Re.lit "weeks")
             (Re.Alt (Re.lit "month") (Re.lit "months"))))).

(** The groups of the match of a duration that the scan finds. *)
Definition captures_of (d : string * (string * Z)) : Re.captures :=
  [(2%nat, fst (snd d)); (1%nat, fst d)].

(** Lines 37 and 38, and line 41: the deadline of a number of days. *)
Definition with_deadline (now : datetime) (days : Z) : result (Z * datetime) :=
  delta <- timedelta days ;;
  deadline <- datetime_add now delta ;;
  Ok (days, deadline).

(** A task of a phase, not the extra task. *)
Definition is_phase_task (t : Task) : bool :=
  negb (String.eqb (title t) "Marketing prep").

(** The order of the calendar on dates (year, month, day). *)
Definition ymd_le (a b : Z * Z * Z) : Prop :=
  let '(y, m, d) := a in
  let '(y', m', d') := b in
  y < y' \/ (y = y' /\ (m < m' \/ (m = m' /\ d <= d'))).

(** The dates of a task are dates of the calendar, and the task does not
    end before it starts. *)
Definition dated (t : Task) : Prop :=
  exists s e,
    fromisoformat (start_date t) = Some s
    /\ fromisoformat (end_date t) = Some e
    /\ ymd2ord s <= ymd2ord e
    /\ str_le (start_date t) (end_date t) = true.

(** Two instants of 2024-01-15, at noon and at 22:00. *)
Definition jan_15_2024 : datetime :=
  {| ordinal := 738900; usec_of_day := 43200000000 |}.

Definition jan_15_2024_evening : datetime :=
  {| ordinal := 738900; usec_of_day := 79200000000 |}.

(** Noon of the next day, 2024-01-16. *)
Definition jan_16_2024 : datetime :=
  {| ordinal := 738901; usec_of_day := 43200000000 |}.

(** ["0" * n] *)
Fixpoint zeros (n : nat) : string :=
  match n with
  | O => EmptyString
  | S n' => String "0" (zeros n')
  end.

(** The plan of scenario D of the specification on that day. *)
Definition scenario_d : list Task :=
  Eval vm_compute in
    match mock_llm_reasoning 4300 jan_15_2024 jan_15_2024
            "Launch a product and marketing campaign in 2 weeks" with
    | Ok tasks => tasks
    | Raise _ => []
    end.

(** Case analysis on a month, given as a disjunction of its twelve
    values, and the evaluation of the tables of the months. *)
Ltac each_month H :=
  repeat (destruct H as [H | H]; [subst|]); [.. | subst].

Ltac month_tables :=
  cbv [nth Z.to_nat Pos.to_nat Pos.iter_op Nat.add DAYS_IN_MONTH
       DAYS_BEFORE_MONTH Z.eqb Z.ltb Z.compare Pos.compare Pos.compare_cont
       Pos.eqb andb] in *.

(** [date.fromisoformat(s).toordinal()] *)
Definition date_ord (s : string) : option Z :=
  option_map ymd2ord (fromisoformat s).

(** A word without white space: white space around a text does not make
    it start with the word, nor contain it. *)
Definition solid (w : string) : bool :=
  all_chars (fun c => negb (isspace c)) w.

(** [call_openai(prompt)], lines 98 to 115: the test of the key, and the
    exchange with the service of lines 100 to 115, whose outcome is
    [post prompt]. *)
Definition call_openai (OPENAI_KEY : option string)
  (post : string -> call_outcome) (prompt : string) : call_outcome :=
  if negb (key_configured OPENAI_KEY) then CallRaised else post prompt.

(** ** Part VI. The runtime: calendar, dates, strings and the pattern *)

(** *** The calendar *)

Lemma month_day_table (leapyear : bool) :
  forallb (fun k => month_day_ok leapyear (Z.of_nat k))
    (seq 0 (if leapyear then 366 else 365)) = true.
Proof. destruct leapyear; vm_compute; reflexivity. Qed.

Lemma month_day_spec (leapyear : bool) (n : Z) :
  0 <= n < 365 + (if leapyear then 1 else 0) ->
  month_day_ok leapyear n = true.
Proof.
  intros Hn.
  pose proof (month_day_table leapyear) as H.
  rewrite forallb_forall in H.
  specialize (H (Z.to_nat n)).
  rewrite Z2Nat.id in H by lia.
  apply H, in_seq. destruct leapyear; lia.
Qed.

Lemma ord2ymd_eq (n : Z) :
  ord2ymd n =
  let n0 := n - 1 in
  let n400 := n0 / DI400Y in
  let r400 := n0 mod DI400Y in
  let n100 := r400 / DI100Y in
  let r100 := r400 mod DI100Y in
  let n4 := r100 / DI4Y in
  let r4 := r100 mod DI4Y in
  let n1 := r4 / 365 in
  let r1 := r4 mod 365 in
  let year := n400 * 400 + 1 + n100 * 100 + n4 * 4 + n1 in
  if (n1 =? 4) || (n100 =? 4) then (year - 1, 12, 31)
  else
    let leapyear := (n1 =? 3) && (negb (n4 =? 24) || (n100 =? 3)) in
    let '(m, d) := month_day leapyear r1 in (year, m, d).
Proof.
  unfold ord2ymd, month_day. cbv zeta.
  destruct (_ || _); [reflexivity|].
  destruct (_ <? _); reflexivity.
Qed.

(** The year and the day of the year, by arithmetic on the cycles of 400,
    100 and 4 years. *)
Lemma year_cycles (q a b c : Z) :
  0 <= q -> 0 <= a <= 3 -> 0 <= b <= 24 -> 0 <= c <= 3 ->
  let year := q * 400 + 1 + a * 100 + b * 4 + c in
  days_before_year year = q * DI400Y + a * DI100Y + b * DI4Y + c * 365
  /\ is_leap year = (c =? 3) && (negb (b =? 24) || (a =? 3)).
Proof.
  intros Hq Ha Hb Hc year.
  unfold days_before_year, is_leap, DI400Y, DI100Y, DI4Y.
  assert (E4 : (year - 1) / 4 = q * 100 + a * 25 + b).
  { subst year. symmetry. apply Z.div_unique with (r := c); lia. }
  assert (E100 : (year - 1) / 100 = q * 4 + a).
  { subst year. symmetry. apply Z.div_unique with (r := b * 4 + c); lia. }
  assert (E400 : (year - 1) / 400 = q).
  { subst year. symmetry.
    apply Z.div_unique with (r := a * 100 + b * 4 + c); lia. }
  assert (M4 : year mod 4 = (c + 1) mod 4).
  { subst year.
    replace (q * 400 + 1 + a * 100 + b * 4 + c)
      with ((c + 1) + (q * 100 + a * 25 + b) * 4) by lia.
    apply Z.mod_add; lia. }
  assert (M100 : year mod 100 = (b * 4 + c + 1) mod 100).
  { subst year.
    replace (q * 400 + 1 + a * 100 + b * 4 + c)
      with ((b * 4 + c + 1) + (q * 4 + a) * 100) by lia.
    apply Z.mod_add; lia. }
  assert (M400 : year mod 400 = (a * 100 + b * 4 + c + 1) mod 400).
  { subst year.
    replace (q * 400 + 1 + a * 100 + b * 4 + c)
      with ((a * 100 + b * 4 + c + 1) + q * 400) by lia.
    apply Z.mod_add; lia. }
  split.
  - rewrite E4, E100, E400. subst year. lia.
  - rewrite M4, M100, M400.
    assert (Hc' : c = 0 \/ c = 1 \/ c = 2 \/ c = 3) by lia.
    destruct Hc' as [-> | [-> | [-> | ->]]]; try reflexivity.
    cbn [Z.eqb Pos.eqb andb].
    change ((3 + 1) mod 4) with 0. cbn [Z.eqb andb].
    destruct (Z.eqb_spec b 24) as [-> | Hb24].
    + assert (Ha' : a = 0 \/ a = 1 \/ a = 2 \/ a = 3) by lia.
      destruct Ha' as [-> | [-> | [-> | ->]]]; reflexivity.
    + cbn [negb orb].
      assert (Hm : (b * 4 + 3 + 1) mod 100 <> 0).
      { rewrite Z.mod_small by lia. lia. }
      apply Z.eqb_neq in Hm. rewrite Hm. reflexivity.
Qed.

Lemma december_31 (year : Z) :
  1 <= year <= 9999 -> is_leap year = true ->
  valid_ymd (year, 12, 31) = true
  /\ ymd2ord (year, 12, 31) = days_before_year year + 366.
Proof.
  intros Hy Hl. unfold valid_ymd, ymd2ord, days_in_month, days_before_month.
  rewrite Hl. change (nth (Z.to_nat 12) DAYS_IN_MONTH 0) with 31.
  change (nth (Z.to_nat 12) DAYS_BEFORE_MONTH 0) with 334.
  cbn [Z.eqb Z.ltb Z.leb Z.compare Pos.compare Pos.compare_cont andb].
  split; [|lia].
  rewrite !andb_true_r. apply andb_true_intro; split; apply Z.leb_le; lia.
Qed.

Lemma ord2ymd_spec (n : Z) :
  1 <= n <= MAXORDINAL ->
  valid_ymd (ord2ymd n) = true /\ ymd2ord (ord2ymd n) = n.
Proof.
  intros Hn. rewrite ord2ymd_eq. cbv zeta.
  unfold MAXORDINAL in Hn.
  set (n0 := n - 1).
  assert (Hn0 : 0 <= n0 <= 3652058) by (subst n0; lia).
  pose proof (Z.div_mod n0 DI400Y ltac:(discriminate)) as D400.
  pose proof (Z.mod_pos_bound n0 DI400Y ltac:(reflexivity)) as B400.
  set (q := n0 / DI400Y) in *. set (r400 := n0 mod DI400Y) in *.
  pose proof (Z.div_mod r400 DI100Y ltac:(discriminate)) as D100.
  pose proof (Z.mod_pos_bound r400 DI100Y ltac:(reflexivity)) as B100.
  set (a := r400 / DI100Y) in *. set (r100 := r400 mod DI100Y) in *.
  pose proof (Z.div_mod r100 DI4Y ltac:(discriminate)) as D4.
  pose proof (Z.mod_pos_bound r100 DI4Y ltac:(reflexivity)) as B4.
  set (b := r100 / DI4Y) in *. set (r4 := r100 mod DI4Y) in *.
  pose proof (Z.div_mod r4 365 ltac:(discriminate)) as D1.
  pose proof (Z.mod_pos_bound r4 365 ltac:(reflexivity)) as B1.
  set (c := r4 / 365) in *. set (r1 := r4 mod 365) in *.
  unfold DI400Y, DI100Y, DI4Y in *.
  assert (Hq : 0 <= q <= 24) by lia.
  assert (Ha : 0 <= a <= 4) by lia.
  assert (Hb : 0 <= b <= 24) by lia.
  assert (Hc : 0 <= c <= 4) by lia.
  destruct (Z.eqb_spec c 4) as [Hc4 | Hc4]; cbn [orb].
  - (* the last day of a cycle of four years *)
    assert (Hr1 : r1 = 0) by lia.
    assert (Ha3 : a <= 3) by lia.
    destruct (year_cycles q a b 3 ltac:(lia) ltac:(lia) ltac:(lia) ltac:(lia))
      as [Hdby Hleap].
    cbv zeta in Hdby, Hleap.
    replace (q * 400 + 1 + a * 100 + b * 4 + c - 1)
      with (q * 400 + 1 + a * 100 + b * 4 + 3) by lia.
    assert (Hl : is_leap (q * 400 + 1 + a * 100 + b * 4 + 3) = true).
    { rewrite Hleap. cbn [Z.eqb Pos.eqb andb].
      destruct (Z.eqb_spec b 24) as [-> | _]; [|reflexivity].
      cbn [negb orb]. apply Z.eqb_eq. lia. }
    destruct (december_31 (q * 400 + 1 + a * 100 + b * 4 + 3) ltac:(lia) Hl)
      as [Hv Ho].
    rewrite Hv, Ho, Hdby. unfold DI400Y, DI100Y, DI4Y. split; [reflexivity | lia].
  - destruct (Z.eqb_spec a 4) as [Ha4 | Ha4].
    + (* the last day of a cycle of 400 years *)
      assert (Hz : b = 0 /\ c = 0 /\ r1 = 0) by lia.
      destruct Hz as (Hb0 & Hc0 & Hr1).
      destruct (year_cycles q 3 24 3 ltac:(lia) ltac:(lia) ltac:(lia) ltac:(lia))
        as [Hdby Hleap].
      cbv zeta in Hdby, Hleap.
      replace (q * 400 + 1 + a * 100 + b * 4 + c - 1)
        with (q * 400 + 1 + 3 * 100 + 24 * 4 + 3) by lia.
      destruct (december_31 (q * 400 + 1 + 3 * 100 + 24 * 4 + 3) ltac:(lia) Hleap)
        as [Hv Ho].
      rewrite Hv, Ho, Hdby. unfold DI400Y, DI100Y, DI4Y. split; [reflexivity | lia].
    + cbn [orb].
      assert (Ha3 : 0 <= a <= 3) by lia.
      assert (Hc3 : 0 <= c <= 3) by lia.
      destruct (year_cycles q a b c ltac:(lia) Ha3 Hb Hc3) as [Hdby Hleap].
      cbv zeta in Hdby, Hleap.
      set (year := q * 400 + 1 + a * 100 + b * 4 + c) in *.
      set (leapyear := (c =? 3) && (negb (b =? 24) || (a =? 3))) in *.
      assert (Hr1 : 0 <= r1 < 365 + (if leapyear then 1 else 0)).
      { destruct leapyear; lia. }
      pose proof (month_day_spec leapyear r1 Hr1) as Hmd.
      unfold month_day_ok in Hmd.
      destruct (month_day leapyear r1) as [m d].
      repeat (apply andb_prop in Hmd; destruct Hmd as [Hmd ?]).
      unfold valid_ymd, ymd2ord, days_in_month, days_before_month.
      rewrite Hleap, Hdby. unfold DI400Y, DI100Y, DI4Y.
      split.
      * repeat (apply andb_true_intro; split); try assumption;
          apply Z.leb_le; subst year; lia.
      * apply Z.eqb_eq in H. lia.
Qed.

(** The ordinal of a date grows with the date. *)

Lemma days_before_year_succ (y : Z) :
  1 <= y ->
  days_before_year (y + 1)
  = days_before_year y + 365 + (if is_leap y then 1 else 0).
Proof.
  intros Hy. unfold days_before_year, is_leap.
  replace (y + 1 - 1) with y by lia.
  destruct (Z.eqb_spec (y mod 4) 0) as [H4 | H4];
    destruct (Z.eqb_spec (y mod 100) 0) as [H100 | H100];
    destruct (Z.eqb_spec (y mod 400) 0) as [H400 | H400];
    cbn [andb orb negb];
    revert H4 H100 H400;
    Z.div_mod_to_equations; lia.
Qed.

Lemma days_before_year_mono (y y' : Z) :
  1 <= y <= y' -> days_before_year y <= days_before_year y'.
Proof.
  intros H. unfold days_before_year.
  Z.div_mod_to_equations. lia.
Qed.

Lemma month_small (m : Z) :
  1 <= m <= 12 ->
  m = 1 \/ m = 2 \/ m = 3 \/ m = 4 \/ m = 5 \/ m = 6 \/ m = 7 \/ m = 8
  \/ m = 9 \/ m = 10 \/ m = 11 \/ m = 12.
Proof. lia. Qed.

Lemma day_of_year_bound (y m d : Z) :
  valid_ymd (y, m, d) = true ->
  1 <= days_before_month y m + d <= 365 + (if is_leap y then 1 else 0).
Proof.
  unfold valid_ymd. intros H.
  repeat (apply andb_prop in H; destruct H as [H ?]).
  assert (Hm : 1 <= m <= 12) by lia.
  assert (Hd : 1 <= d <= days_in_month y m) by lia.
  clear - Hm Hd. apply month_small in Hm.
  unfold days_in_month, days_before_month in *.
  destruct (is_leap y); each_month Hm; month_tables; lia.
Qed.

Lemma months_in_order (y m d m' : Z) :
  valid_ymd (y, m, d) = true -> m < m' <= 12 ->
  days_before_month y m + d <= days_before_month y m'.
Proof.
  unfold valid_ymd. intros H Hm'.
  repeat (apply andb_prop in H; destruct H as [H ?]).
  assert (Hm : 1 <= m <= 12) by lia.
  assert (Hd : 1 <= d <= days_in_month y m) by lia.
  assert (Hm2 : 1 <= m' <= 12) by lia.
  clear - Hm Hd Hm' Hm2. apply month_small in Hm, Hm2.
  unfold days_in_month, days_before_month in *.
  destruct (is_leap y); each_month Hm; each_month Hm2;
    try lia; month_tables; lia.
Qed.

Lemma ymd2ord_lt (y m d y' m' d' : Z) :
  valid_ymd (y, m, d) = true -> valid_ymd (y', m', d') = true ->
  y < y' \/ (y = y' /\ (m < m' \/ (m = m' /\ d < d'))) ->
  ymd2ord (y, m, d) < ymd2ord (y', m', d').
Proof.
  intros Hv Hv' Hlt.
  pose proof (day_of_year_bound _ _ _ Hv) as Hb.
  pose proof (day_of_year_bound _ _ _ Hv') as Hb'.
  assert (Hy : 1 <= y /\ 1 <= y' /\ m' <= 12 /\ 1 <= d').
  { unfold valid_ymd in Hv, Hv'.
    repeat (apply andb_prop in Hv; destruct Hv as [Hv ?]).
    repeat (apply andb_prop in Hv'; destruct Hv' as [Hv' ?]). lia. }
  unfold ymd2ord.
  destruct Hlt as [Hlt | [-> [Hlt | [-> Hlt]]]].
  - pose proof (days_before_year_succ y ltac:(lia)).
    pose proof (days_before_year_mono (y + 1) y' ltac:(lia)). lia.
  - pose proof (months_in_order _ _ _ m' Hv ltac:(lia)). lia.
  - lia.
Qed.

Lemma ymd2ord_le_inv (a b : Z * Z * Z) :
  valid_ymd a = true -> valid_ymd b = true ->
  ymd2ord a <= ymd2ord b -> ymd_le a b.
Proof.
  destruct a as [[y m] d], b as [[y' m'] d']. intros Hv Hv' Hle.
  unfold ymd_le.
  assert (Hnot : ~ (y' < y \/ (y' = y /\ (m' < m \/ (m' = m /\ d' < d))))).
  { intros Hlt. pose proof (ymd2ord_lt _ _ _ _ _ _ Hv' Hv Hlt). lia. }
  lia.
Qed.

(** Some days, as [date.fromordinal(n).isoformat()] gives them. *)
Example ord2ymd_known_days :
  map (fun n => isoformat_ymd (ord2ymd n))
    [1; 59; 60; 365; 366; 1461; 36524; 36525; 146097; 146098; 738900;
     3652059]
  = ["0001-01-01"; "0001-02-28"; "0001-03-01"; "0001-12-31"; "0002-01-01";
     "0004-12-31"; "0100-12-31"; "0101-01-01"; "0400-12-31"; "0401-01-01";
     "2024-01-15"; "9999-12-31"].
Proof. vm_compute. reflexivity. Qed.

(** *** Dates in ISO form *)

Lemma digit_char_spec (d : Z) :
  0 <= d <= 9 ->
  isdigit (digit_char d) = true /\ digit_value (digit_char d) = d.
Proof.
  intros Hd.
  assert (H : d = 0 \/ d = 1 \/ d = 2 \/ d = 3 \/ d = 4 \/ d = 5 \/ d = 6
              \/ d = 7 \/ d = 8 \/ d = 9) by lia.
  repeat (destruct H as [H | H]; [subst d; split; reflexivity |]).
  subst d. split; reflexivity.
Qed.

Lemma days_in_month_le_31 (y m : Z) : days_in_month y m <= 31.
Proof.
  unfold days_in_month. destruct (_ && _); [lia|].
  destruct (Z.to_nat m) as [|k]; [cbn; lia|].
  do 12 (destruct k as [|k]; [cbn; lia|]).
  cbn. destruct k; lia.
Qed.

Lemma fromisoformat_isoformat (ymd : Z * Z * Z) :
  valid_ymd ymd = true -> fromisoformat (isoformat_ymd ymd) = Some ymd.
Proof.
  destruct ymd as [[y m] d]. intros Hv.
  assert (Hv' := Hv). unfold valid_ymd in Hv'.
  repeat (apply andb_prop in Hv'; destruct Hv' as [Hv' ?]).
  pose proof (days_in_month_le_31 y m) as H31.
  assert (Hy : 1 <= y <= 9999) by lia.
  assert (Hm : 1 <= m <= 12) by lia.
  assert (Hd : 1 <= d <= 31) by lia.
  unfold isoformat_ymd, fmt04, fmt02. cbn [append].
  set (y1 := y / 1000 mod 10). set (y2 := y / 100 mod 10).
  set (y3 := y / 10 mod 10). set (y4 := y mod 10).
  set (m1 := m / 10 mod 10). set (m2 := m mod 10).
  set (d1 := d / 10 mod 10). set (d2 := d mod 10).
  assert (By1 : 0 <= y1 <= 9) by (subst y1; pose proof (Z.mod_pos_bound (y / 1000) 10); lia).
  assert (By2 : 0 <= y2 <= 9) by (subst y2; pose proof (Z.mod_pos_bound (y / 100) 10); lia).
  assert (By3 : 0 <= y3 <= 9) by (subst y3; pose proof (Z.mod_pos_bound (y / 10) 10); lia).
  assert (By4 : 0 <= y4 <= 9) by (subst y4; pose proof (Z.mod_pos_bound y 10); lia).
  assert (Bm1 : 0 <= m1 <= 9) by (subst m1; pose proof (Z.mod_pos_bound (m / 10) 10); lia).
  assert (Bm2 : 0 <= m2 <= 9) by (subst m2; pose proof (Z.mod_pos_bound m 10); lia).
  assert (Bd1 : 0 <= d1 <= 9) by (subst d1; pose proof (Z.mod_pos_bound (d / 10) 10); lia).
  assert (Bd2 : 0 <= d2 <= 9) by (subst d2; pose proof (Z.mod_pos_bound d 10); lia).
  destruct (digit_char_spec y1 By1) as [Py1 Vy1].
  destruct (digit_char_spec y2 By2) as [Py2 Vy2].
  destruct (digit_char_spec y3 By3) as [Py3 Vy3].
  destruct (digit_char_spec y4 By4) as [Py4 Vy4].
  destruct (digit_char_spec m1 Bm1) as [Pm1 Vm1].
  destruct (digit_char_spec m2 Bm2) as [Pm2 Vm2].
  destruct (digit_char_spec d1 Bd1) as [Pd1 Vd1].
  destruct (digit_char_spec d2 Bd2) as [Pd2 Vd2].
  unfold fromisoformat.
  cbn [all_chars int_digits].
  rewrite Py1, Py2, Py3, Py4, Pm1, Pm2, Pd1, Pd2.
  rewrite Vy1, Vy2, Vy3, Vy4, Vm1, Vm2, Vd1, Vd2.
  cbn [andb].
  assert (Ey : 10 * (10 * (10 * (10 * 0 + y1) + y2) + y3) + y4 = y).
  { subst y1 y2 y3 y4. 
    pose proof (Z.div_mod y 10 ltac:(lia)).
    pose proof (Z.div_mod (y / 10) 10 ltac:(lia)).
    pose proof (Z.div_mod (y / 10 / 10) 10 ltac:(lia)).
    pose proof (Z.div_mod (y / 10 / 10 / 10) 10 ltac:(lia)).
    rewrite !Z.div_div in * by lia.
    change (10 * 10) with 100 in *. change (100 * 10) with 1000 in *.
    assert (y / 1000 < 10) by (apply Z.div_lt_upper_bound; lia).
    assert (0 <= y / 1000) by (apply Z.div_pos; lia).
    rewrite (Z.mod_small (y / 1000) 10) in * by lia. lia. }
  assert (Em : 10 * (10 * 0 + m1) + m2 = m).
  { subst m1 m2. pose proof (Z.div_mod m 10 ltac:(lia)).
    assert (m / 10 < 10) by (apply Z.div_lt_upper_bound; lia).
    assert (0 <= m / 10) by (apply Z.div_pos; lia).
    rewrite (Z.mod_small (m / 10) 10) by lia. lia. }
  assert (Ed : 10 * (10 * 0 + d1) + d2 = d).
  { subst d1 d2. pose proof (Z.div_mod d 10 ltac:(lia)).
    assert (d / 10 < 10) by (apply Z.div_lt_upper_bound; lia).
    assert (0 <= d / 10) by (apply Z.div_pos; lia).
    rewrite (Z.mod_small (d / 10) 10) by lia. lia. }
  rewrite Ey, Em, Ed, Hv. reflexivity.
Qed.

(** *** ISO dates as strings *)

Lemma code_digit_char (k : Z) :
  0 <= k <= 9 -> code (digit_char k) = Z.to_N (48 + k).
Proof.
  intros Hk. unfold code, digit_char. apply N_ascii_embedding. lia.
Qed.

Lemma decimal2 (n : Z) :
  0 <= n <= 99 ->
  0 <= n / 10 mod 10 <= 9 /\ 0 <= n mod 10 <= 9
  /\ n = 10 * (n / 10 mod 10) + n mod 10.
Proof.
  intros Hn.
  assert (0 <= n / 10 < 10)
    by (split; [apply Z.div_pos | apply Z.div_lt_upper_bound]; lia).
  rewrite (Z.mod_small (n / 10) 10) by lia.
  pose proof (Z.div_mod n 10 ltac:(lia)).
  pose proof (Z.mod_pos_bound n 10 ltac:(lia)). lia.
Qed.

Lemma decimal4 (n : Z) :
  0 <= n <= 9999 ->
  0 <= n / 1000 mod 10 <= 9 /\ 0 <= n / 100 mod 10 <= 9
  /\ 0 <= n / 10 mod 10 <= 9 /\ 0 <= n mod 10 <= 9
  /\ n = 1000 * (n / 1000 mod 10) + 100 * (n / 100 mod 10)
         + 10 * (n / 10 mod 10) + n mod 10.
Proof.
  intros Hn.
  assert (0 <= n / 1000 < 10)
    by (split; [apply Z.div_pos | apply Z.div_lt_upper_bound]; lia).
  rewrite (Z.mod_small (n / 1000) 10) by lia.
  pose proof (Z.mod_pos_bound (n / 100) 10 ltac:(lia)).
  pose proof (Z.mod_pos_bound (n / 10) 10 ltac:(lia)).
  pose proof (Z.mod_pos_bound n 10 ltac:(lia)).
  pose proof (Z.div_mod n 10 ltac:(lia)).
  pose proof (Z.div_mod (n / 10) 10 ltac:(lia)).
  pose proof (Z.div_mod (n / 10 / 10) 10 ltac:(lia)).
  rewrite !Z.div_div in * by lia.
  change (10 * 10) with 100 in *. change (100 * 10) with 1000 in *.
  lia.
Qed.

Lemma valid_ymd_bounds (y m d : Z) :
  valid_ymd (y, m, d) = true -> 1 <= y <= 9999 /\ 1 <= m <= 12 /\ 1 <= d <= 31.
Proof.
  unfold valid_ymd. intros H.
  repeat (apply andb_prop in H; destruct H as [H ?]).
  pose proof (days_in_month_le_31 y m). lia.
Qed.

(** ISO dates compare as strings the way their days compare. *)
Lemma isoformat_le (a b : Z * Z * Z) :
  valid_ymd a = true -> valid_ymd b = true -> ymd_le a b ->
  str_le (isoformat_ymd a) (isoformat_ymd b) = true.
Proof.
  destruct a as [[y m] d], b as [[y' m'] d']. intros Hv Hv' Hle.
  apply valid_ymd_bounds in Hv, Hv'.
  destruct Hv as (Hy & Hm & Hd), Hv' as (Hy' & Hm' & Hd').
  unfold ymd_le in Hle.
  destruct (decimal4 y ltac:(lia)) as (By1 & By2 & By3 & By4 & Ey).
  destruct (decimal4 y' ltac:(lia)) as (By1' & By2' & By3' & By4' & Ey').
  destruct (decimal2 m ltac:(lia)) as (Bm1 & Bm2 & Em).
  destruct (decimal2 m' ltac:(lia)) as (Bm1' & Bm2' & Em').
  destruct (decimal2 d ltac:(lia)) as (Bd1 & Bd2 & Ed).
  destruct (decimal2 d' ltac:(lia)) as (Bd1' & Bd2' & Ed').
  unfold isoformat_ymd, fmt04, fmt02. cbn [append str_le].
  rewrite !code_digit_char by assumption.
  change (code "-") with 45%N.
  cbn [N.ltb N.eqb N.compare Pos.compare Pos.compare_cont Pos.eqb].
  repeat match goal with
  | |- context [(Z.to_N ?p <? Z.to_N ?q)%N] =>
      destruct (N.ltb_spec (Z.to_N p) (Z.to_N q)); [reflexivity|]
  | |- context [(Z.to_N ?p =? Z.to_N ?q)%N] =>
      destruct (N.eqb_spec (Z.to_N p) (Z.to_N q)); [|exfalso; lia]
  end.
  reflexivity.
Qed.

(** *** The pattern of the duration *)

Lemma class_disjoint (c : ascii) :
  (isdigit c = true ->
   isspace c = false /\ Ascii.eqb c "_" = false
   /\ Ascii.eqb "d" c = false /\ Ascii.eqb "w" c = false
   /\ Ascii.eqb "m" c = false /\ c <> "+"%char /\ c <> "-"%char)
  /\ (isspace c = true ->
      Ascii.eqb "d" c = false /\ Ascii.eqb "w" c = false
      /\ Ascii.eqb "m" c = false).
Proof.
  destruct c as [[] [] [] [] [] [] [] []];
    (split; [ intros H; try discriminate H; repeat split; discriminate
            | intros H; try discriminate H; repeat split; reflexivity ]).
Qed.

Lemma star_greedy {R : Type} (p : ascii -> bool) (k : string -> option R) :
  (forall c t, p c = true -> k (String c t) = None) ->
  forall s, Re.star p s k = k (drop_while p s).
Proof.
  intros Hk s. induction s as [|c s IH]; [reflexivity|].
  cbn [Re.star drop_while]. destruct (p c) eqn:Hc; [|reflexivity].
  rewrite IH. destruct (k (drop_while p s)); [reflexivity|].
  apply Hk, Hc.
Qed.

Lemma run_lit {R : Type} (w s : string) (caps : Re.captures)
  (k : string -> Re.captures -> option R) :
  Re.run (Re.lit w) s caps k
  = if startswith s w then k (slice_from (String.length w) s) caps else None.
Proof.
  revert s k. induction w as [|a w IH]; intros s k.
  - destruct s; reflexivity.
  - destruct w as [|b w].
    + destruct s as [|c s]; [reflexivity|].
      cbn [Re.lit Re.run startswith String.length slice_from].
      destruct (Ascii.eqb a c); [|reflexivity].
      destruct s; reflexivity.
    + change (Re.lit (String a (String b w)))
        with (Re.Cat (Re.Chr a) (Re.lit (String b w))).
      cbn [Re.run]. destruct s as [|c s]; [reflexivity|].
      change (startswith (String c s) (String a (String b w)))
        with (Ascii.eqb a c && startswith s (String b w)).
      destruct (Ascii.eqb a c); [|reflexivity].
      rewrite IH. reflexivity.
Qed.

Lemma startswith_append (s w : string) :
  startswith s w = true -> s = w ++ slice_from (String.length w) s.
Proof.
  revert s. induction w as [|a w IH]; intros s H.
  - destruct s; reflexivity.
  - destruct s as [|c s]; [discriminate H|].
    cbn [startswith] in H. apply andb_prop in H. destruct H as [Hac Hs].
    apply Ascii.eqb_eq in Hac. subst c.
    cbn [String.length slice_from append]. f_equal. apply IH, Hs.
Qed.

Lemma consumed_append (a b : string) : Re.consumed (a ++ b) b = a.
Proof.
  unfold Re.consumed.
  replace (String.length (a ++ b) - String.length b)%nat with (String.length a).
  - induction a as [|c a IH]; cbn [append String.length substring].
    + destruct b; reflexivity.
    + f_equal. exact IH.
  - induction a as [|c a IH]; cbn [append String.length]; [lia|].
    rewrite Nat.sub_succ_l; [f_equal; exact IH|].
    clear. induction a; cbn [append String.length]; lia.
Qed.

Lemma take_drop_while (p : ascii -> bool) (s : string) :
  s = take_while p s ++ drop_while p s.
Proof.
  induction s as [|c s IH]; [reflexivity|].
  cbn [take_while drop_while]. destruct (p c); [|reflexivity].
  cbn [append]. f_equal. exact IH.
Qed.

Lemma consumed_drop_while (p : ascii -> bool) (s : string) :
  Re.consumed s (drop_while p s) = take_while p s.
Proof.
  rewrite (take_drop_while p s) at 1. apply consumed_append.
Qed.

Lemma run_unit (s : string) (caps : Re.captures) :
  Re.run (Re.Group 2 unit_re) s caps (fun _ m => Some m)
  = match unit_at s with
    | Some (w, _) => Some ((2%nat, w) :: caps)
    | None => None
    end.
Proof.
  unfold unit_re, unit_at, units. cbn [Re.run find fst].
  rewrite !run_lit.
  repeat match goal with
  | |- context [startswith s ?w] =>
      lazymatch goal with
      | H : startswith s w = _ |- _ => fail
      | _ => destruct (startswith s w) eqn:?
      end
  end;
  try reflexivity;
  match goal with
  | H : startswith s ?w = true |- Some ((_, Re.consumed s ?r) :: _) = Some ((_, ?w') :: _) =>
      let E := fresh in
      pose proof (startswith_append s w H) as E;
      rewrite E at 1; rewrite consumed_append; reflexivity
  end.
Qed.

Lemma run_unit_none (c : ascii) (t : string) (caps : Re.captures) :
  Ascii.eqb "d" c = false -> Ascii.eqb "w" c = false ->
  Ascii.eqb "m" c = false ->
  Re.run (Re.Group 2 unit_re) (String c t) caps (fun _ m => Some m) = None.
Proof.
  intros Hd Hw Hm. rewrite run_unit. unfold unit_at, units.
  cbn [find fst startswith]. rewrite Hd, Hw, Hm. reflexivity.
Qed.

Lemma match_here_duration (s : string) :
  Re.match_here duration_re s = option_map captures_of (duration_at s).
Proof.
  unfold Re.match_here, duration_re, Re.plus, duration_at.
  fold unit_re. cbn [Re.run].
  destruct s as [|c s]; [reflexivity|].
  cbn [take_while drop_while]. destruct (isdigit c) eqn:Hc; [|reflexivity].
  rewrite star_greedy.
  - rewrite star_greedy.
    + pose proof (run_unit (drop_while isspace (drop_while isdigit s))
                    [(1%nat, Re.consumed (String c s) (drop_while isdigit s))]) as H.
      cbn [Re.run] in H. rewrite H. clear H.
      replace (Re.consumed (String c s) (drop_while isdigit s))
        with (String c (take_while isdigit s)).
      * destruct (unit_at _) as [[w f]|]; reflexivity.
      * pose proof (consumed_drop_while isdigit (String c s)) as H.
        cbn [take_while drop_while] in H. rewrite Hc in H. symmetry. exact H.
    + intros c' t Hc'. destruct (class_disjoint c') as [_ Hs].
      destruct (Hs Hc') as (Hd & Hw & Hm).
      exact (run_unit_none c' t _ Hd Hw Hm).
  - intros c' t Hc'. destruct (class_disjoint c') as [Hdg _].
    destruct (Hdg Hc') as (Hsp & _ & Hd & Hw & Hm & _).
    cbn [Re.star]. rewrite Hsp.
    exact (run_unit_none c' t _ Hd Hw Hm).
Qed.

(** [re.search] with the pattern of the code finds what the scan of the
    specification finds. *)
Lemma search_duration (s : string) :
  Re.search duration_re s = option_map captures_of (first_duration s).
Proof.
  induction s as [|c s IH]; cbn [Re.search first_duration];
    rewrite match_here_duration; destruct (duration_at _); try reflexivity.
  exact IH.
Qed.

(** The first match wins, the integer is the whole run of digits, and
    "days" is matched as "day". *)
Example search_known_matches :
  map (fun s => option_map (fun m => (Re.group m 1, Re.group m 2))
                  (Re.search duration_re s))
    ["in 2 weeks"; "12   days"; "3months and 4 days"; "a1b 22 x 5 day";
     "no duration"]
  = [Some (Some "2", Some "week"); Some (Some "12", Some "day");
     Some (Some "3", Some "month"); Some (Some "5", Some "day"); None].
Proof. vm_compute. reflexivity. Qed.

(** *** [int] on a run of digits *)

Lemma rstrip_none (p : ascii -> bool) (s : string) :
  all_chars (fun c => negb (p c)) s = true -> rstrip p s = s.
Proof.
  induction s as [|c s IH]; [reflexivity|].
  cbn [all_chars rstrip]. intros H. apply andb_prop in H. destruct H as [Hc Hs].
  rewrite (IH Hs). destruct s; [|reflexivity].
  apply negb_true_iff in Hc. rewrite Hc. reflexivity.
Qed.

Lemma all_chars_impl (p q : ascii -> bool) (s : string) :
  (forall c, p c = true -> q c = true) ->
  all_chars p s = true -> all_chars q s = true.
Proof.
  intros Hpq. induction s as [|c s IH]; [reflexivity|].
  cbn [all_chars]. intros H. apply andb_prop in H. destruct H as [Hc Hs].
  rewrite (Hpq c Hc), (IH Hs). reflexivity.
Qed.

Lemma digit_not_int_space (c : ascii) :
  isdigit c = true -> int_space c = false.
Proof.
  intros Hc. destruct (class_disjoint c) as [Hd _]. destruct (Hd Hc) as [Hsp _].
  unfold int_space. rewrite Hsp. reflexivity.
Qed.

Lemma strip_digits (s : string) :
  all_chars isdigit s = true -> rstrip int_space (lstrip int_space s) = s.
Proof.
  intros H.
  assert (Hl : lstrip int_space s = s).
  { destruct s as [|c s]; [reflexivity|]. cbn [all_chars] in H.
    apply andb_prop in H. destruct H as [Hc _].
    cbn [lstrip]. rewrite (digit_not_int_space c Hc). reflexivity. }
  rewrite Hl. apply rstrip_none.
  apply (all_chars_impl isdigit); [|exact H].
  intros c Hc. rewrite (digit_not_int_space c Hc). reflexivity.
Qed.

Lemma int_body_digits (s : string) :
  all_chars isdigit s = true ->
  forall sep acc n,
    s <> "" ->
    int_body sep acc n s = Some (int_digits acc s, (n + String.length s)%nat).
Proof.
  induction s as [|c s IH]; intros H sep acc n Hne; [congruence|].
  cbn [all_chars] in H. apply andb_prop in H. destruct H as [Hc Hs].
  cbn [int_body int_digits String.length]. rewrite Hc.
  destruct s as [|c' s].
  - cbn [int_body int_digits String.length]. do 2 f_equal. lia.
  - rewrite (IH Hs) by discriminate. do 2 f_equal. lia.
Qed.

Lemma int_digits_string (max_str_digits : nat) (s : string) :
  all_chars isdigit s = true -> s <> "" ->
  int max_str_digits s
  = if exceeds_max_str_digits max_str_digits (String.length s)
    then Raise ValueError else Ok (int_digits 0 s).
Proof.
  intros H Hne. unfold int. rewrite (strip_digits s H).
  assert (Hsign : match s with
                  | String "+" b => (1, b)
                  | String "-" b => (-1, b)
                  | _ => (1, s)
                  end = (1, s)).
  { destruct s as [|c s]; [reflexivity|]. cbn [all_chars] in H.
    apply andb_prop in H. destruct H as [Hc _].
    destruct (class_disjoint c) as [Hd _].
    destruct (Hd Hc) as (_ & _ & _ & _ & _ & Hplus & Hminus).
    destruct c as [[] [] [] [] [] [] [] []]; try reflexivity; congruence. }
  rewrite Hsign. rewrite (int_body_digits s H) by exact Hne.
  cbn [Nat.add]. destruct (exceeds_max_str_digits _ _); [reflexivity|].
  f_equal. destruct (int_digits 0 s); reflexivity.
Qed.

Lemma take_while_all (p : ascii -> bool) (s : string) :
  all_chars p (take_while p s) = true.
Proof.
  induction s as [|c s IH]; [reflexivity|].
  cbn [take_while]. destruct (p c) eqn:Hc; [|reflexivity].
  cbn [all_chars]. rewrite Hc, IH. reflexivity.
Qed.

Lemma int_digits_nonneg (s : string) :
  all_chars isdigit s = true -> forall acc, 0 <= acc -> 0 <= int_digits acc s.
Proof.
  induction s as [|c s IH]; intros H acc Hacc; [exact Hacc|].
  cbn [all_chars] in H. apply andb_prop in H. destruct H as [Hc Hs].
  cbn [int_digits]. apply (IH Hs).
  unfold isdigit in Hc. apply andb_prop in Hc. destruct Hc as [Hlo _].
  apply N.leb_le in Hlo. unfold digit_value. lia.
Qed.

(** What the scan returns: a run of digits that is not empty, and a unit
    of the table. *)
Lemma duration_at_some (s digits : string) (u : string * Z) :
  duration_at s = Some (digits, u) ->
  all_chars isdigit digits = true /\ digits <> "" /\ In u units.
Proof.
  unfold duration_at. intros H.
  pose proof (take_while_all isdigit s) as Hall.
  destruct (take_while isdigit s) as [|c t] eqn:Ht; [discriminate H|].
  destruct (unit_at _) as [u'|] eqn:Hu; [|discriminate H].
  injection H as <- <-. repeat split; [exact Hall | discriminate |].
  unfold unit_at in Hu. apply find_some in Hu. exact (proj1 Hu).
Qed.

Lemma first_duration_some (s digits : string) (u : string * Z) :
  first_duration s = Some (digits, u) ->
  all_chars isdigit digits = true /\ digits <> "" /\ In u units.
Proof.
  induction s as [|c s IH]; cbn [first_duration]; intros H.
  - destruct (duration_at "") eqn:E; [|discriminate H].
    injection H as ->. exact (duration_at_some _ _ _ E).
  - destruct (duration_at (String c s)) eqn:E.
    + injection H as ->. exact (duration_at_some _ _ _ E).
    + exact (IH H).
Qed.

(** The days of a unit, as lines 31 to 36 compute them. *)
Lemma unit_days (u : string * Z) (num : Z) :
  In u units ->
  (if contains "week" (fst u) then num * 7
   else if contains "month" (fst u) then num * 30
   else num) = num * snd u
  /\ 1 <= snd u.
Proof.
  unfold units. cbn [In]. intros H.
  repeat (destruct H as [<- | H]; [cbn; split; lia|]). contradiction.
Qed.

Lemma take_while_app (p : ascii -> bool) (a b : string) :
  all_chars p a = true ->
  match b with String c _ => p c = false | EmptyString => True end ->
  take_while p (a ++ b) = a /\ drop_while p (a ++ b) = b.
Proof.
  intros Ha Hb. induction a as [|c a IH]; cbn [append take_while drop_while].
  - destruct b as [|c b]; [split; reflexivity|].
    cbn [take_while drop_while]. rewrite Hb. split; reflexivity.
  - cbn [all_chars] in Ha. apply andb_prop in Ha. destruct Ha as [Hc Ha].
    rewrite Hc. destruct (IH Ha) as [-> ->]. split; reflexivity.
Qed.

(** A goal that reads: text without digits, an integer, white space, a
    unit.  The scan finds this integer and the days of this unit. *)
Lemma first_duration_pattern (pre digits ws unit post : string) (factor : Z) :
  all_chars (fun c => negb (isdigit c)) pre = true ->
  all_chars isdigit digits = true -> digits <> "" ->
  all_chars isspace ws = true ->
  In (unit, factor) units ->
  exists w,
    first_duration (pre ++ digits ++ ws ++ unit ++ post)
    = Some (digits, (w, factor)).
Proof.
  intros Hpre Hdig Hne Hws Hunit.
  assert (Hu : exists w,
             unit_at (unit ++ post) = Some (w, factor)
             /\ match unit ++ post with
                | String c _ => isspace c = false /\ isdigit c = false
                | EmptyString => False
                end).
  { unfold units in Hunit. cbn [In] in Hunit.
    repeat (destruct Hunit as [[= <- <-] | Hunit];
            [eexists; split; [reflexivity | split; reflexivity]|]).
    contradiction. }
  destruct Hu as (w & Hw & Hc).
  assert (Hhere : duration_at (digits ++ ws ++ unit ++ post)
                  = Some (digits, (w, factor))).
  { unfold duration_at.
    assert (Hnext : match ws ++ unit ++ post with
                    | String c _ => isdigit c = false
                    | EmptyString => True
                    end).
    { destruct ws as [|c ws]; cbn [append].
      - destruct (unit ++ post); [exact I | exact (proj2 Hc)].
      - cbn [all_chars] in Hws. apply andb_prop in Hws.
        destruct Hws as [Hsp _]. destruct (isdigit c) eqn:E; [|reflexivity].
        destruct (class_disjoint c) as [Hd _]. destruct (Hd E) as [Hn _].
        congruence. }
    destruct (take_while_app isdigit digits _ Hdig Hnext) as [-> ->].
    assert (Hnext' : match unit ++ post with
                     | String c _ => isspace c = false
                     | EmptyString => True
                     end).
    { destruct (unit ++ post); [exact I | exact (proj1 Hc)]. }
    destruct (take_while_app isspace ws _ Hws Hnext') as [_ ->].
    rewrite Hw. destruct digits; [congruence | reflexivity]. }
  exists w. induction pre as [|c pre IH]; cbn [append first_duration].
  - destruct (digits ++ ws ++ unit ++ post);
      cbn [first_duration]; rewrite Hhere; reflexivity.
  - cbn [all_chars] in Hpre. apply andb_prop in Hpre.
    destruct Hpre as [Hc' Hpre]. apply negb_true_iff in Hc'.
    unfold duration_at at 1. cbn [take_while]. rewrite Hc'.
    exact (IH Hpre).
Qed.

(** The days of a goal with ["<N> day(s)"], ["<N> week(s)"] or
    ["<N> month(s)"] after text without digits: [N], [N * 7], [N * 30]. *)
Lemma duration_days_pattern (goal pre digits ws unit post : string)
  (factor : Z) :
  lower goal = pre ++ digits ++ ws ++ unit ++ post ->
  all_chars (fun c => negb (isdigit c)) pre = true ->
  all_chars isdigit digits = true -> digits <> "" ->
  all_chars isspace ws = true ->
  In (unit, factor) units ->
  duration_days goal = int_digits 0 digits * factor.
Proof.
  intros Hgoal Hpre Hdig Hne Hws Hunit.
  destruct (first_duration_pattern pre digits ws unit post factor
              Hpre Hdig Hne Hws Hunit) as [w Hw].
  unfold duration_days. rewrite Hgoal, Hw. reflexivity.
Qed.

Example in_2_weeks : duration_days "Launch a product in 2 weeks" = 2 * 7.
Proof.
  exact (duration_days_pattern "Launch a product in 2 weeks"
           "launch a product in " "2" " " "weeks" "" 7
           eq_refl eq_refl eq_refl ltac:(discriminate) eq_refl
           ltac:(cbn; tauto)).
Qed.

(** ** Part VII. The engine *)

(** *** The duration of a goal *)

Lemma with_deadline_eq (now : datetime) (days : Z) :
  with_deadline now days
  = if date_ok now days
    then Ok (days, {| ordinal := ordinal now + days;
                      usec_of_day := usec_of_day now |})
    else Raise OverflowError.
Proof.
  unfold with_deadline, date_ok, timedelta, datetime_add.
  destruct (Z.abs days <=? 999999999); cbn [bind andb]; [|reflexivity].
  destruct (valid_ordinal _); reflexivity.
Qed.

Lemma parse_goal_duration_eq (max_str_digits : nat) (now : datetime)
  (goal : string) :
  parse_goal_duration max_str_digits now goal
  = if exceeds_max_str_digits max_str_digits (duration_digits goal)
    then Raise ValueError
    else with_deadline now (duration_days goal).
Proof.
  unfold parse_goal_duration, duration_days, duration_digits.
  rewrite search_duration.
  destruct (first_duration (lower goal)) as [[digits [w f]]|] eqn:E.
  - destruct (first_duration_some _ _ _ E) as (Hall & Hne & Hin).
    cbn [option_map captures_of fst snd group_str Re.group Nat.eqb bind].
    rewrite (int_digits_string _ _ Hall Hne).
    destruct (exceeds_max_str_digits _ _); [reflexivity|].
    cbn [bind].
    destruct (unit_days (w, f) (int_digits 0 digits) Hin) as [Hu _].
    cbn [fst snd] in Hu. rewrite Hu. reflexivity.
  - cbn [option_map].
    assert (Hx : exceeds_max_str_digits max_str_digits 0 = false) by reflexivity.
    rewrite Hx. reflexivity.
Qed.

Lemma duration_days_nonneg (goal : string) : 0 <= duration_days goal.
Proof.
  unfold duration_days.
  destruct (first_duration (lower goal)) as [[digits [w f]]|] eqn:E.
  - destruct (first_duration_some _ _ _ E) as (Hall & _ & Hin).
    destruct (unit_days (w, f) 0 Hin) as [_ Hf]. cbn [snd] in Hf.
    pose proof (int_digits_nonneg digits Hall 0 ltac:(lia)). nia.
  - unfold fallback_days. destruct (_ || _); lia.
Qed.

(** *** The timeline *)

Lemma date_after_eq (start : datetime) (d : Z) :
  date_after start d
  = if date_ok start d then Ok (iso_date start d) else Raise OverflowError.
Proof.
  unfold date_after, date_ok, timedelta, datetime_add, iso_date, date_isoformat.
  destruct (Z.abs d <=? 999999999); cbn [bind andb]; [|reflexivity].
  destruct (valid_ordinal _); reflexivity.
Qed.

Lemma getitem_nth {A : Type} (l : list A) (k : Z) (d : A) :
  0 <= k < Z.of_nat (List.length l) ->
  getitem l k = Ok (nth (Z.to_nat k) l d).
Proof.
  intros Hk. unfold getitem.
  destruct (Z.ltb_spec k 0); [lia|].
  destruct (Z.leb_spec 0 k); [|lia].
  destruct (Z.ltb_spec k (Z.of_nat (List.length l))); [|lia].
  cbn [andb].
  destruct (nth_error l (Z.to_nat k)) eqn:E.
  - f_equal. symmetry. apply nth_error_nth. exact E.
  - apply nth_error_None in E. lia.
Qed.

Lemma phase_loop_eq (start : datetime) (chosen : list (string * string))
  (p : Z) (todo : list (string * string)) :
  forall (i : Z) (tasks : list Task),
    1 <= i ->
    i - 1 + Z.of_nat (List.length todo) <= Z.of_nat (List.length chosen) ->
    phase_loop start chosen p i todo tasks
    = if timeline_ok start p i todo
      then Ok (tasks ++ timeline start chosen p i todo)%list
      else Raise OverflowError.
Proof.
  induction todo as [|[t desc] todo IH]; intros i tasks Hi Hlen.
  - cbn [phase_loop timeline_ok timeline]. rewrite app_nil_r. reflexivity.
  - cbn [phase_loop timeline_ok timeline]. cbn [List.length] in Hlen.
    rewrite !date_after_eq.
    destruct (date_ok start ((i - 1) * p)); cbn [bind andb]; [|reflexivity].
    destruct (date_ok start (i * p - 1)); cbn [bind andb]; [|reflexivity].
    assert (Hdep : (if i =? 1 then Ok ""
                    else ph <- getitem chosen (i - 2) ;; Ok (fst ph))
                   = Ok (if i =? 1 then ""
                         else fst (nth (Z.to_nat (i - 2)) chosen ("", "")))).
    { destruct (Z.eqb_spec i 1); [reflexivity|].
      rewrite (getitem_nth chosen (i - 2) ("", "")) by lia. reflexivity. }
    rewrite Hdep. cbn [bind].
    rewrite IH by lia.
    destruct (timeline_ok start p (i + 1) todo); [|reflexivity].
    rewrite <- app_assoc. reflexivity.
Qed.

Lemma allocate_eq (start : datetime) (days : Z)
  (chosen : list (string * string)) :
  chosen <> [] ->
  allocate start days chosen
  = if timeline_ok start (width days chosen) 1 chosen
    then Ok (width days chosen, timeline start chosen (width days chosen) 1 chosen)
    else Raise OverflowError.
Proof.
  intros Hne. unfold allocate, per_task_days_of.
  destruct (Z.eqb_spec (Z.of_nat (List.length chosen)) 0) as [E | _].
  - destruct chosen; [congruence | discriminate E].
  - cbn [bind]. fold (width days chosen).
    rewrite phase_loop_eq by lia.
    destruct (timeline_ok _ _ _ _); reflexivity.
Qed.

Lemma choose_phases_cases (days : Z) :
  (10 <= days /\ choose_phases days = phases)
  \/ (days < 10 /\ choose_phases days = firstn 4 phases).
Proof.
  unfold choose_phases. destruct (Z.leb_spec 10 days); [left | right]; auto.
Qed.

Lemma timeline_length start chosen p todo :
  forall i, List.length (timeline start chosen p i todo) = List.length todo.
Proof.
  induction todo as [|ph todo IH]; intros i; [reflexivity|].
  cbn [timeline List.length]. rewrite IH. reflexivity.
Qed.

Lemma width_pos (days : Z) (chosen : list (string * string)) :
  1 <= width days chosen.
Proof. unfold width. lia. Qed.

(** With phases that are in the calendar, so are the dates of the extra
    task: they are the first days of the second and of the third phase. *)
Lemma timeline_ok_marketing (start : datetime) (p : Z)
  (a b c : string * string) (rest : list (string * string)) :
  timeline_ok start p 1 (a :: b :: c :: rest) = true ->
  date_ok start p = true /\ date_ok start (p * 2) = true.
Proof.
  cbn [timeline_ok]. intros H.
  repeat (apply andb_prop in H; destruct H as [? H]).
  repeat match goal with
  | H : _ && _ = true |- _ => apply andb_prop in H; destruct H
  end.
  replace p with ((1 + 1 - 1) * p) at 1 by lia.
  replace (p * 2) with ((1 + 1 + 1 - 1) * p) by lia.
  split; assumption.
Qed.

Lemma insert_before_last {A : Type} (l : list A) (x : A) :
  l <> [] ->
  insert l (Z.of_nat (List.length l) - 1) x
  = (firstn (List.length l - 1) l ++ x :: skipn (List.length l - 1) l)%list.
Proof.
  intros Hne. unfold insert.
  assert (0 < Z.of_nat (List.length l)) by (destruct l; [congruence | cbn; lia]).
  destruct (Z.ltb_spec (Z.of_nat (List.length l) - 1) 0); [lia|].
  replace (Z.to_nat (Z.min (Z.of_nat (List.length l) - 1) (Z.of_nat (List.length l))))
    with (List.length l - 1)%nat by lia.
  reflexivity.
Qed.

Lemma mock_llm_reasoning_eq (max_str_digits : nat) (now start : datetime)
  (goal_text : string) :
  mock_llm_reasoning max_str_digits now start goal_text
  = '(days, _) <- parse_goal_duration max_str_digits now goal_text ;;
    if timeline_ok start (width days (choose_phases days)) 1 (choose_phases days)
    then Ok (plan_of start days (marketing_trigger goal_text))
    else Raise OverflowError.
Proof.
  unfold mock_llm_reasoning.
  destruct (parse_goal_duration _ _ _) as [[days deadline]|e]; [|reflexivity].
  cbn [bind].
  assert (Hne : choose_phases days <> []).
  { destruct (choose_phases_cases days) as [[_ ->] | [_ ->]]; discriminate. }
  rewrite (allocate_eq start days _ Hne).
  destruct (timeline_ok _ _ _ _) eqn:Hok; [|reflexivity].
  cbn [bind]. unfold plan_of.
  destruct (marketing_trigger goal_text); [|reflexivity].
  set (p := width days (choose_phases days)) in *.
  assert (Hm : date_ok start p = true /\ date_ok start (p * 2) = true).
  { destruct (choose_phases_cases days) as [[_ E] | [_ E]]; rewrite E in Hok;
      exact (timeline_ok_marketing _ _ _ _ _ _ Hok). }
  destruct Hm as [Hm1 Hm2].
  unfold marketing_task. rewrite !date_after_eq, Hm1, Hm2. cbn [bind].
  rewrite (getitem_nth _ 0 ("", "")).
  - cbn [bind]. rewrite insert_before_last.
    + reflexivity.
    + intros E. apply (f_equal (@List.length Task)) in E.
      rewrite timeline_length in E. destruct (choose_phases days); [congruence | discriminate E].
  - destruct (choose_phases days); [congruence | cbn [List.length]; lia].
Qed.

Lemma startswith_app (s a b : string) :
  startswith s (a ++ b) = true -> startswith s a = true.
Proof.
  revert s. induction a as [|c a IH]; intros s H.
  - destruct s; reflexivity.
  - destruct s as [|c' s]; [discriminate H|].
    cbn [append startswith] in *. apply andb_prop in H. destruct H as [-> H].
    exact (IH s H).
Qed.

Lemma unit_at_cases (s : string) (u : string * Z) :
  unit_at s = Some u ->
  u = ("day", 1) \/ u = ("week", 7) \/ u = ("month", 30).
Proof.
  unfold unit_at, units. cbn [find fst].
  destruct (startswith s "day") eqn:Ed; [intros [= <-]; auto|].
  destruct (startswith s "days") eqn:Eds.
  { apply (startswith_app s "day" "s") in Eds. congruence. }
  destruct (startswith s "week") eqn:Ew; [intros [= <-]; auto|].
  destruct (startswith s "weeks") eqn:Ews.
  { apply (startswith_app s "week" "s") in Ews. congruence. }
  destruct (startswith s "month") eqn:Em; [intros [= <-]; auto|].
  destruct (startswith s "months") eqn:Ems.
  { apply (startswith_app s "month" "s") in Ems. congruence. }
  discriminate.
Qed.

Lemma first_duration_unit (s digits : string) (u : string * Z) :
  first_duration s = Some (digits, u) ->
  u = ("day", 1) \/ u = ("week", 7) \/ u = ("month", 30).
Proof.
  induction s as [|c s IH]; cbn [first_duration]; unfold duration_at.
  - cbn. discriminate.
  - destruct (take_while isdigit (String c s)).
    + exact IH.
    + destruct (unit_at _) as [u'|] eqn:E.
      * intros [= _ <-]. exact (unit_at_cases _ _ E).
      * exact IH.
Qed.

(** The days of a goal, read off the match of the pattern. *)
Lemma duration_days_search (goal : string) :
  match Re.search duration_re (lower goal) with
  | Some m =>
      exists digits unit,
        Re.group m 1 = Some digits /\ Re.group m 2 = Some unit
        /\ duration_digits goal = String.length digits
        /\ ((unit = "day" /\ duration_days goal = int_digits 0 digits)
            \/ (unit = "week" /\ duration_days goal = int_digits 0 digits * 7)
            \/ (unit = "month"
                /\ duration_days goal = int_digits 0 digits * 30))
  | None =>
      duration_digits goal = 0%nat
      /\ duration_days goal
         = if contains "launch" (lower goal) || contains "ship" (lower goal)
              || contains "release" (lower goal)
           then 14 else 30
  end.
Proof.
  rewrite search_duration. unfold duration_days, duration_digits.
  destruct (first_duration (lower goal)) as [[digits u]|] eqn:E;
    cbn [option_map].
  - exists digits, (fst u). unfold captures_of. cbn [fst snd Re.group Nat.eqb].
    repeat split.
    destruct (first_duration_unit _ _ _ E) as [-> | [-> | ->]]; cbn [fst];
      [left | right; left | right; right]; split; try reflexivity; lia.
  - split; reflexivity.
Qed.

(** Within the calendar the deadline exists, and the days are returned. *)
Lemma parse_goal_duration_returns (max_str_digits : nat) (now : datetime)
  (goal : string) :
  exceeds_max_str_digits max_str_digits (duration_digits goal) = false ->
  1 <= ordinal now ->
  ordinal now + duration_days goal <= MAXORDINAL ->
  parse_goal_duration max_str_digits now goal
  = Ok (duration_days goal,
        {| ordinal := ordinal now + duration_days goal;
           usec_of_day := usec_of_day now |}).
Proof.
  intros Hdig Hnow Hmax.
  rewrite parse_goal_duration_eq, Hdig, with_deadline_eq.
  pose proof (duration_days_nonneg goal) as Hd.
  unfold date_ok, valid_ordinal, MAXORDINAL in *.
  destruct (Z.leb_spec (Z.abs (duration_days goal)) 999999999); [|lia].
  destruct (Z.leb_spec 1 (ordinal now + duration_days goal)); [|lia].
  destruct (Z.leb_spec (ordinal now + duration_days goal) 3652059); [|lia].
  reflexivity.
Qed.

(** An integer of 4301 digits, 4300 zeros and a one: with the limit of
    4300 digits [int] refuses it, without a limit the goal has one day. *)
Example parse_goal_duration_long_integer :
  parse_goal_duration 4300 jan_15_2024 (zeros 4300 ++ "1 days")
  = Raise ValueError
  /\ parse_goal_duration 0 jan_15_2024 (zeros 4300 ++ "1 days")
     = Ok (1, {| ordinal := 738901; usec_of_day := 43200000000 |}).
Proof. split; vm_compute; reflexivity. Qed.

(** C2, the behaviour of the code.  On 2024-01-15 the goal "finish the
    report in 9999999 days" has a pattern, and [parse_goal_duration] does
    not return 9999999 days: the sum of line 37 raises [OverflowError],
    which nothing in the function guards or catches. *)
Lemma parse_goal_duration_overflow :
  parse_goal_duration 4300 jan_15_2024 "finish the report in 9999999 days"
  = Raise OverflowError.
Proof. vm_compute. reflexivity. Qed.

(** Where the function returns.  For every goal whose deadline ([now]
    plus the days) is no later than 9999-12-31 and whose integer has no
    more digits than [int] converts, [parse_goal_duration] returns the
    days of the goal and the deadline [now] plus these days; and the
    days of a goal are, when [re.search] finds the pattern in the
    lower-cased text, the integer of its first group times 7 for "week",
    times 30 for "month" and as it is for "day", and otherwise 14 if the
    lower-cased text contains "launch", "ship" or "release" and 30 if it
    does not. *)
Theorem parse_goal_duration_in_range (max_str_digits : nat) (now : datetime)
  (goal : string) :
  exceeds_max_str_digits max_str_digits (duration_digits goal) = false ->
  1 <= ordinal now ->
  ordinal now + duration_days goal <= MAXORDINAL ->
  parse_goal_duration max_str_digits now goal
  = Ok (duration_days goal,
        {| ordinal := ordinal now + duration_days goal;
           usec_of_day := usec_of_day now |})
  /\ match Re.search duration_re (lower goal) with
     | Some m =>
         exists digits unit,
           Re.group m 1 = Some digits /\ Re.group m 2 = Some unit
           /\ duration_digits goal = String.length digits
           /\ ((unit = "day" /\ duration_days goal = int_digits 0 digits)
               \/ (unit = "week"
                   /\ duration_days goal = int_digits 0 digits * 7)
               \/ (unit = "month"
                   /\ duration_days goal = int_digits 0 digits * 30))
     | None =>
         duration_digits goal = 0%nat
         /\ duration_days goal
            = if contains "launch" (lower goal)
                 || contains "ship" (lower goal)
                 || contains "release" (lower goal)
              then 14 else 30
     end.
Proof.
  intros Hdig Hnow Hmax. split.
  - exact (parse_goal_duration_returns _ _ _ Hdig Hnow Hmax).
  - apply duration_days_search.
Qed.

Lemma parse_goal_duration_in_range_witness :
  exceeds_max_str_digits 4300 (duration_digits "Launch a product in 2 weeks")
  = false
  /\ 1 <= ordinal jan_15_2024
  /\ ordinal jan_15_2024 + duration_days "Launch a product in 2 weeks"
     <= MAXORDINAL
  /\ duration_days "Launch a product in 2 weeks" = 14
  /\ parse_goal_duration 4300 jan_15_2024 "Launch a product in 2 weeks"
     = Ok (duration_days "Launch a product in 2 weeks",
           {| ordinal :=
                ordinal jan_15_2024
                + duration_days "Launch a product in 2 weeks";
              usec_of_day := usec_of_day jan_15_2024 |}).
Proof.
  assert (H1 : exceeds_max_str_digits 4300
                 (duration_digits "Launch a product in 2 weeks") = false)
    by reflexivity.
  assert (H2 : 1 <= ordinal jan_15_2024) by (vm_compute; discriminate).
  assert (H3 : ordinal jan_15_2024
               + duration_days "Launch a product in 2 weeks" <= MAXORDINAL)
    by (vm_compute; discriminate).
  split; [exact H1|]. split; [exact H2|]. split; [exact H3|].
  split; [reflexivity|].
  exact (proj1 (parse_goal_duration_in_range 4300 jan_15_2024
                  "Launch a product in 2 weeks" H1 H2 H3)).
Defined.

(** C6, counter-example.  The goal "finish the report in 0 days" has the
    duration 0. *)
Lemma parse_goal_duration_zero :
  parse_goal_duration 4300 jan_15_2024 "finish the report in 0 days"
  = Ok (0, jan_15_2024).
Proof. vm_compute. reflexivity. Qed.

Lemma parse_goal_duration_ok (max_str_digits : nat) (now : datetime)
  (goal : string) (days : Z) (deadline : datetime) :
  parse_goal_duration max_str_digits now goal = Ok (days, deadline) ->
  exceeds_max_str_digits max_str_digits (duration_digits goal) = false
  /\ date_ok now days = true
  /\ days = duration_days goal
  /\ deadline = {| ordinal := ordinal now + days;
                   usec_of_day := usec_of_day now |}.
Proof.
  rewrite parse_goal_duration_eq, with_deadline_eq.
  destruct (exceeds_max_str_digits _ _); [discriminate|].
  destruct (date_ok now (duration_days goal)) eqn:E; [|discriminate].
  intros [= <- <-]. auto.
Qed.

(** C6, amended.  The duration that [parse_goal_duration] returns is at
    least 0, and it is 0 exactly when the integer of the first match of
    the pattern is 0; in every other case it is at least 1. *)
Theorem parse_goal_duration_nonneg (max_str_digits : nat) (now : datetime)
  (goal : string) (days : Z) (deadline : datetime) :
  parse_goal_duration max_str_digits now goal = Ok (days, deadline) ->
  0 <= days
  /\ (days = 0 <->
      exists m digits,
        Re.search duration_re (lower goal) = Some m
        /\ Re.group m 1 = Some digits /\ int_digits 0 digits = 0).
Proof.
  intros H. apply parse_goal_duration_ok in H.
  destruct H as (_ & _ & -> & _).
  split; [apply duration_days_nonneg|].
  pose proof (duration_days_search goal) as Hs.
  rewrite search_duration in *.
  destruct (first_duration (lower goal)) as [[digits u]|] eqn:E;
    cbn [option_map] in *.
  - destruct Hs as (digits' & unit & Hg1 & _ & _ & Hcases).
    destruct (first_duration_some _ _ _ E) as (Hall & _ & _).
    pose proof (int_digits_nonneg digits Hall 0 ltac:(lia)) as Hn.
    cbn in Hg1. injection Hg1 as <-.
    split.
    + intros Hz. exists (captures_of (digits, u)), digits.
      repeat split. lia.
    + intros (m & d & Hm & Hg & Hz). injection Hm as <-.
      cbn in Hg. injection Hg as <-. lia.
  - destruct Hs as [_ Hs]. split.
    + intros Hz. rewrite Hz in Hs. destruct (_ || _); discriminate.
    + intros (m & d & Hm & _). discriminate.
Qed.

Lemma parse_goal_duration_nonneg_witness :
  parse_goal_duration 4300 jan_15_2024 "Launch a product in 2 weeks"
  = Ok (14, {| ordinal := 738914; usec_of_day := 43200000000 |})
  /\ 0 <= 14
  /\ (14 = 0 <->
      exists m digits,
        Re.search duration_re (lower "Launch a product in 2 weeks") = Some m
        /\ Re.group m 1 = Some digits /\ int_digits 0 digits = 0).
Proof.
  assert (H : parse_goal_duration 4300 jan_15_2024
                "Launch a product in 2 weeks"
              = Ok (14, {| ordinal := 738914; usec_of_day := 43200000000 |}))
    by (vm_compute; reflexivity).
  split; [exact H|].
  exact (parse_goal_duration_nonneg 4300 jan_15_2024
           "Launch a product in 2 weeks" 14
           {| ordinal := 738914; usec_of_day := 43200000000 |} H).
Defined.

(** *** When the pipeline returns *)

Lemma date_ok_in_range (start : datetime) (d : Z) :
  1 <= ordinal start -> 0 <= d -> ordinal start + d <= MAXORDINAL ->
  date_ok start d = true.
Proof.
  unfold date_ok, valid_ordinal, MAXORDINAL. intros.
  repeat (apply andb_true_intro; split); apply Z.leb_le; lia.
Qed.

Lemma timeline_ok_in_range (start : datetime) (p : Z)
  (todo : list (string * string)) :
  1 <= ordinal start -> 1 <= p ->
  forall i,
    1 <= i ->
    ordinal start + (i - 1 + Z.of_nat (List.length todo)) * p - 1
    <= MAXORDINAL ->
    timeline_ok start p i todo = true.
Proof.
  intros Hs Hp. induction todo as [|ph todo IH]; intros i Hi Hmax;
    [reflexivity|].
  cbn [timeline_ok]. cbn [List.length] in Hmax.
  rewrite !date_ok_in_range, IH; try reflexivity; try assumption; nia.
Qed.

Lemma timeline_span (days : Z) :
  Z.of_nat (List.length (choose_phases days))
  * width days (choose_phases days) <= Z.max days 4.
Proof.
  unfold width.
  destruct (choose_phases_cases days) as [[H ->] | [H ->]];
    cbn [List.length firstn phases].
  - pose proof (Z.mul_div_le days 6 ltac:(lia)).
    assert (1 <= days / 6) by (apply Z.div_le_lower_bound; lia).
    change (Z.of_nat 6) with 6. lia.
  - change (Z.of_nat 4) with 4.
    pose proof (Z.mul_div_le days 4 ltac:(lia)). lia.
Qed.

Lemma pipeline_timeline_ok (start : datetime) (days : Z) :
  1 <= ordinal start ->
  ordinal start + Z.max days 4 - 1 <= MAXORDINAL ->
  timeline_ok start (width days (choose_phases days)) 1 (choose_phases days)
  = true.
Proof.
  intros Hs Hmax. apply timeline_ok_in_range; try lia.
  - apply width_pos.
  - pose proof (timeline_span days). lia.
Qed.

Lemma plan_of_length (start : datetime) (days : Z) (augment : bool) :
  List.length (plan_of start days augment)
  = ((if (10 <=? days)%Z then 6 else 4) + (if augment then 1 else 0))%nat.
Proof.
  unfold plan_of.
  destruct (choose_phases_cases days) as [[H E] | [H E]]; rewrite E;
    [destruct (Z.leb_spec 10 days); [|lia] | destruct (Z.leb_spec 10 days); [lia|]];
    destruct augment; reflexivity.
Qed.

(** C1, the behaviour of the code.  On 2024-01-15 the goal "Launch a
    product in 9999999 days" makes the pipeline raise [OverflowError]
    instead of returning tasks: the deadline of line 37 is after
    9999-12-31, and nothing guards or catches the sum. *)
Lemma mock_llm_reasoning_overflow :
  mock_llm_reasoning 4300 jan_15_2024 jan_15_2024
    "Launch a product in 9999999 days"
  = Raise OverflowError.
Proof. vm_compute. reflexivity. Qed.

(** Where the pipeline returns.  For every goal whose duration keeps the
    deadline ([now] plus the days) and the last date of the timeline
    ([start] plus the larger of the days and 4, minus 1) within the
    calendar, that is no later than 9999-12-31, and whose integer has no
    more digits than [int] converts, the pipeline returns a list of
    tasks that is not empty (4 to 7 tasks) and does not raise.  The
    empty string and every text without a duration pattern have a
    duration of 14 or 30 days. *)
Theorem mock_llm_reasoning_in_range (max_str_digits : nat)
  (now start : datetime) (goal : string) :
  exceeds_max_str_digits max_str_digits (duration_digits goal) = false ->
  1 <= ordinal now ->
  ordinal now + duration_days goal <= MAXORDINAL ->
  1 <= ordinal start ->
  ordinal start + Z.max (duration_days goal) 4 - 1 <= MAXORDINAL ->
  exists tasks,
    mock_llm_reasoning max_str_digits now start goal = Ok tasks
    /\ tasks <> []
    /\ (4 <= List.length tasks <= 7)%nat.
Proof.
  intros Hdig Hnow Hdl Hstart Hmax.
  rewrite mock_llm_reasoning_eq.
  rewrite (parse_goal_duration_returns _ _ _ Hdig Hnow Hdl). cbn [bind].
  rewrite (pipeline_timeline_ok start _ Hstart Hmax).
  eexists. split; [reflexivity|].
  pose proof (plan_of_length start (duration_days goal)
                (marketing_trigger goal)) as Hlen.
  split.
  - intros E. rewrite E in Hlen. cbn [List.length] in Hlen.
    destruct (10 <=? _); discriminate.
  - destruct (10 <=? _), (marketing_trigger goal); lia.
Qed.

Lemma mock_llm_reasoning_in_range_witness :
  exceeds_max_str_digits 4300 (duration_digits "") = false
  /\ 1 <= ordinal jan_15_2024
  /\ ordinal jan_15_2024 + duration_days "" <= MAXORDINAL
  /\ ordinal jan_15_2024 + Z.max (duration_days "") 4 - 1 <= MAXORDINAL
  /\ exists tasks,
       mock_llm_reasoning 4300 jan_15_2024 jan_15_2024 "" = Ok tasks
       /\ tasks <> []
       /\ (4 <= List.length tasks <= 7)%nat.
Proof.
  assert (H1 : exceeds_max_str_digits 4300 (duration_digits "") = false)
    by reflexivity.
  assert (H2 : 1 <= ordinal jan_15_2024) by (vm_compute; discriminate).
  assert (H3 : ordinal jan_15_2024 + duration_days "" <= MAXORDINAL)
    by (vm_compute; discriminate).
  assert (H4 : ordinal jan_15_2024 + Z.max (duration_days "") 4 - 1
               <= MAXORDINAL)
    by (vm_compute; discriminate).
  repeat (split; [assumption|]).
  exact (mock_llm_reasoning_in_range 4300 jan_15_2024 jan_15_2024 ""
           H1 H2 H3 H2 H4).
Defined.

Lemma mock_llm_reasoning_ok (max_str_digits : nat) (now start : datetime)
  (goal : string) (tasks : list Task) :
  mock_llm_reasoning max_str_digits now start goal = Ok tasks ->
  exists days deadline,
    parse_goal_duration max_str_digits now goal = Ok (days, deadline)
    /\ timeline_ok start (width days (choose_phases days)) 1
         (choose_phases days) = true
    /\ tasks = plan_of start days (marketing_trigger goal).
Proof.
  rewrite mock_llm_reasoning_eq.
  destruct (parse_goal_duration _ _ _) as [[days deadline]|e];
    [|discriminate].
  cbn [bind]. destruct (timeline_ok _ _ _ _) eqn:E; [|discriminate].
  intros [= <-]. exists days, deadline. auto.
Qed.

(** *** The tasks of the timeline *)

Lemma timeline_nth (start : datetime) (chosen : list (string * string))
  (p : Z) (todo : list (string * string)) :
  forall (i : Z) (k : nat),
    nth_error (timeline start chosen p i todo) k
    = option_map (phase_task start chosen p (i + Z.of_nat k))
        (nth_error todo k).
Proof.
  induction todo as [|ph todo IH]; intros i k.
  - destruct k; reflexivity.
  - destruct k as [|k]; cbn [timeline nth_error option_map].
    + rewrite Z.add_0_r. reflexivity.
    + rewrite IH. replace (i + 1 + Z.of_nat k) with (i + Z.of_nat (S k)) by lia.
      reflexivity.
Qed.

Lemma timeline_ok_nth (start : datetime) (p : Z)
  (todo : list (string * string)) :
  forall (i : Z) (k : nat),
    timeline_ok start p i todo = true ->
    (k < List.length todo)%nat ->
    date_ok start ((i + Z.of_nat k - 1) * p) = true
    /\ date_ok start ((i + Z.of_nat k) * p - 1) = true.
Proof.
  induction todo as [|ph todo IH]; intros i k Hok Hk.
  - cbn [List.length] in Hk. lia.
  - cbn [timeline_ok] in Hok.
    apply andb_prop in Hok. destruct Hok as [Hok Hrest].
    apply andb_prop in Hok. destruct Hok as [Hs He].
    destruct k as [|k].
    + rewrite Z.add_0_r. auto.
    + cbn [List.length] in Hk.
      destruct (IH (i + 1) k Hrest ltac:(lia)) as [H1 H2].
      replace (i + Z.of_nat (S k)) with (i + 1 + Z.of_nat k) by lia. auto.
Qed.

Lemma date_ok_add (start : datetime) (d : Z) :
  date_ok start d = true ->
  exists dt,
    datetime_add start d = Ok dt /\ ordinal dt = ordinal start + d
    /\ iso_date start d = date_isoformat dt.
Proof.
  unfold date_ok, datetime_add, iso_date, date_isoformat. intros H.
  apply andb_prop in H. destruct H as [_ H]. rewrite H.
  eexists. repeat split.
Qed.

Lemma allocate_ok (start : datetime) (days : Z)
  (chosen : list (string * string)) (p : Z) (tasks : list Task) :
  allocate start days chosen = Ok (p, tasks) ->
  chosen <> [] /\ p = width days chosen
  /\ timeline_ok start p 1 chosen = true
  /\ tasks = timeline start chosen p 1 chosen.
Proof.
  intros H.
  assert (Hne : chosen <> []).
  { intros ->. discriminate H. }
  rewrite (allocate_eq _ _ _ Hne) in H.
  destruct (timeline_ok _ _ _ _) eqn:E; [|discriminate H].
  injection H as <- <-. auto.
Qed.

(** C4.  The allocator sets [per_task_days = max(1, days // len(chosen))];
    the task of the [i]-th phase (from 1) starts on the date of
    [start + (i-1)*per_task_days] and ends on that of
    [start + i*per_task_days - 1], and it depends on nothing for [i = 1]
    and on the title of phase [i-1] of the chosen list for [i > 1]. *)
Theorem allocate_timeline (start : datetime) (days : Z)
  (chosen : list (string * string)) (per_task_days : Z)
  (tasks : list Task) :
  allocate start days chosen = Ok (per_task_days, tasks) ->
  per_task_days = Z.max 1 (days / Z.of_nat (List.length chosen))
  /\ List.length tasks = List.length chosen
  /\ forall i : Z,
       1 <= i <= Z.of_nat (List.length chosen) ->
       exists phase t s e,
         nth_error chosen (Z.to_nat (i - 1)) = Some phase
         /\ nth_error tasks (Z.to_nat (i - 1)) = Some t
         /\ title t = fst phase /\ description t = snd phase
         /\ datetime_add start ((i - 1) * per_task_days) = Ok s
         /\ start_date t = date_isoformat s
         /\ datetime_add start (i * per_task_days - 1) = Ok e
         /\ end_date t = date_isoformat e
         /\ (i = 1 -> depends_on t = "")
         /\ (1 < i ->
             exists previous,
               nth_error chosen (Z.to_nat (i - 2)) = Some previous
               /\ depends_on t = fst previous).
Proof.
  intros H. apply allocate_ok in H. destruct H as (Hne & Hp & Hok & ->).
  split; [exact Hp|]. split; [apply timeline_length|].
  intros i Hi.
  set (k := Z.to_nat (i - 1)).
  assert (Hk : (k < List.length chosen)%nat) by lia.
  destruct (nth_error chosen k) as [phase|] eqn:Hph;
    [|apply nth_error_None in Hph; lia].
  destruct (timeline_ok_nth start per_task_days chosen 1 k Hok Hk)
    as [Hs He].
  replace (1 + Z.of_nat k - 1) with (i - 1) in Hs by lia.
  replace (1 + Z.of_nat k) with i in He by lia.
  destruct (date_ok_add _ _ Hs) as (s & Hadd_s & _ & Hiso_s).
  destruct (date_ok_add _ _ He) as (e & Hadd_e & _ & Hiso_e).
  exists phase, (phase_task start chosen per_task_days i phase), s, e.
  split; [reflexivity|]. split.
  { rewrite timeline_nth, Hph. cbn [option_map]. do 2 f_equal. lia. }
  cbn [phase_task title description start_date end_date depends_on].
  repeat split; try assumption.
  - intros ->. reflexivity.
  - intros Hi1. destruct (Z.eqb_spec i 1); [lia|].
    destruct (nth_error chosen (Z.to_nat (i - 2))) as [previous|] eqn:Hprev;
      [|apply nth_error_None in Hprev; lia].
    exists previous. split; [reflexivity|].
    f_equal. apply nth_error_nth. exact Hprev.
Qed.

Lemma allocate_timeline_witness :
  allocate jan_15_2024 14 phases
  = Ok (2, timeline jan_15_2024 phases 2 1 phases)
  /\ 2 = Z.max 1 (14 / Z.of_nat (List.length phases))
  /\ List.length (timeline jan_15_2024 phases 2 1 phases)
     = List.length phases.
Proof.
  assert (H : allocate jan_15_2024 14 phases
              = Ok (2, timeline jan_15_2024 phases 2 1 phases))
    by (vm_compute; reflexivity).
  split; [exact H|].
  destruct (allocate_timeline jan_15_2024 14 phases 2
              (timeline jan_15_2024 phases 2 1 phases) H) as (Hp & Hlen & _).
  split; assumption.
Defined.

(** *** The selection of the phases *)

Lemma timeline_phases (start : datetime) (chosen : list (string * string))
  (p : Z) (todo : list (string * string)) :
  forall i,
    map (fun t => (title t, description t)) (timeline start chosen p i todo)
    = todo.
Proof.
  induction todo as [|[t d] todo IH]; intros i; [reflexivity|].
  cbn [timeline map phase_task title description fst snd]. rewrite IH.
  reflexivity.
Qed.

Lemma filter_all {A : Type} (f : A -> bool) (l : list A) :
  forallb f l = true -> filter f l = l.
Proof.
  induction l as [|x l IH]; [reflexivity|].
  cbn [forallb filter]. intros H. apply andb_prop in H. destruct H as [-> H].
  rewrite (IH H). reflexivity.
Qed.

Lemma timeline_is_phase (start : datetime) (chosen : list (string * string))
  (p : Z) (todo : list (string * string)) :
  forallb (fun ph => negb (String.eqb (fst ph) "Marketing prep")) todo = true ->
  forall i, forallb is_phase_task (timeline start chosen p i todo) = true.
Proof.
  induction todo as [|ph todo IH]; intros H i; [reflexivity|].
  cbn [forallb] in H. apply andb_prop in H. destruct H as [H1 H2].
  cbn [timeline forallb]. rewrite (IH H2).
  unfold is_phase_task at 1. cbn [phase_task title]. rewrite H1. reflexivity.
Qed.

Lemma plan_of_phase_tasks (start : datetime) (days : Z) (augment : bool) :
  filter is_phase_task (plan_of start days augment)
  = timeline start (choose_phases days) (width days (choose_phases days)) 1
      (choose_phases days).
Proof.
  assert (Hall : forallb is_phase_task
                   (timeline start (choose_phases days)
                      (width days (choose_phases days)) 1 (choose_phases days))
                 = true).
  { apply timeline_is_phase.
    destruct (choose_phases_cases days) as [[_ ->] | [_ ->]]; reflexivity. }
  unfold plan_of. destruct augment; [|apply filter_all, Hall].
  set (tl := timeline _ _ _ _ _) in *.
  rewrite filter_app. cbn [filter].
  change (is_phase_task (marketing_prep _ _ _)) with false. cbv iota.
  rewrite <- filter_app, firstn_skipn. apply filter_all, Hall.
Qed.

(** C3.  The tasks of the pipeline, the extra task left out, are those of
    all 6 phases of the template when [days >= 10] and of its first 4
    phases otherwise, in the order of the template; the pipeline returns
    one task more when the key words are present. *)
Theorem phases_selected (max_str_digits : nat) (now start : datetime)
  (goal : string) (days : Z) (deadline : datetime) (tasks : list Task) :
  parse_goal_duration max_str_digits now goal = Ok (days, deadline) ->
  mock_llm_reasoning max_str_digits now start goal = Ok tasks ->
  let selected :=
    map (fun t => (title t, description t))
      (filter (fun t => negb (String.eqb (title t) "Marketing prep")) tasks) in
  (10 <= days -> selected = phases /\ List.length selected = 6%nat)
  /\ (days < 10 ->
      selected = firstn 4 phases /\ List.length selected = 4%nat)
  /\ List.length tasks
     = (List.length selected
        + (if contains "product" (lower goal)
              && contains "marketing" (lower goal)
           then 1 else 0))%nat.
Proof.
  intros Hparse Hmock selected.
  destruct (mock_llm_reasoning_ok _ _ _ _ _ Hmock)
    as (days' & deadline' & Hparse' & _ & Htasks).
  rewrite Hparse in Hparse'. injection Hparse' as <- <-.
  assert (Hsel : selected = choose_phases days).
  { subst selected tasks.
    change (filter _ (plan_of start days (marketing_trigger goal)))
      with (filter is_phase_task (plan_of start days (marketing_trigger goal))).
    rewrite plan_of_phase_tasks. apply timeline_phases. }
  rewrite Hsel.
  split; [|split].
  - intros H. destruct (choose_phases_cases days) as [[_ ->] | [? _]];
      [split; reflexivity | lia].
  - intros H. destruct (choose_phases_cases days) as [[? _] | [_ ->]];
      [lia | split; reflexivity].
  - rewrite Htasks, plan_of_length. fold (marketing_trigger goal).
    destruct (choose_phases_cases days) as [[H ->] | [H ->]];
      [destruct (Z.leb_spec 10 days); [|lia]
      | destruct (Z.leb_spec 10 days); [lia|]]; reflexivity.
Qed.

Lemma phases_selected_witness :
  exists tasks,
    parse_goal_duration 4300 jan_15_2024 "ship mvp in 3 days"
    = Ok (3, {| ordinal := 738903; usec_of_day := 43200000000 |})
    /\ mock_llm_reasoning 4300 jan_15_2024 jan_15_2024 "ship mvp in 3 days"
       = Ok tasks
    /\ map (fun t => (title t, description t))
         (filter (fun t => negb (String.eqb (title t) "Marketing prep"))
            tasks)
       = firstn 4 phases
    /\ List.length tasks = 4%nat.
Proof.
  eexists. split; [vm_compute; reflexivity|].
  split; [vm_compute; reflexivity|].
  destruct (phases_selected 4300 jan_15_2024 jan_15_2024
              "ship mvp in 3 days" 3
              {| ordinal := 738903; usec_of_day := 43200000000 |} _
              ltac:(vm_compute; reflexivity) ltac:(vm_compute; reflexivity))
    as (_ & Hfour & Hlen).
  split; [exact (proj1 (Hfour ltac:(lia))) | exact Hlen].
Defined.

(** *** The extra task *)

Lemma split_last {A : Type} (l : list A) :
  l <> [] ->
  exists front last,
    l = (front ++ [last])%list
    /\ firstn (List.length l - 1) l = front
    /\ skipn (List.length l - 1) l = [last].
Proof.
  intros Hne. destruct (exists_last Hne) as (front & last & ->).
  exists front, last. split; [reflexivity|].
  rewrite length_app. cbn [List.length].
  replace (List.length front + 1 - 1)%nat with (List.length front) by lia.
  split.
  - rewrite firstn_app, Nat.sub_diag, firstn_all. cbn [firstn].
    apply app_nil_r.
  - rewrite skipn_app, Nat.sub_diag, skipn_all. reflexivity.
Qed.

Lemma choose_phases_nonempty (days : Z) :
  exists a b c rest, choose_phases days = a :: b :: c :: rest.
Proof.
  destruct (choose_phases_cases days) as [[_ ->] | [_ ->]];
    cbn [phases firstn]; do 4 eexists; reflexivity.
Qed.

(** C5.  After the phases are allocated, the pipeline returns their tasks
    with one more task exactly when the lower-cased goal contains both
    "product" and "marketing": the task is titled "Marketing prep", stands
    at position [len(tasks) - 1], just before the last task, starts on the
    date of [start + per_task_days], ends on that of
    [start + 2*per_task_days] and depends on the title of the first chosen
    phase.  Otherwise the pipeline returns the tasks of the phases as they
    are. *)
Theorem marketing_prep_inserted (max_str_digits : nat) (now start : datetime)
  (goal : string) (days : Z) (deadline : datetime) (per_task_days : Z)
  (base : list Task) :
  parse_goal_duration max_str_digits now goal = Ok (days, deadline) ->
  allocate start days (choose_phases days) = Ok (per_task_days, base) ->
  exists tasks,
    mock_llm_reasoning max_str_digits now start goal = Ok tasks
    /\ if contains "product" (lower goal) && contains "marketing" (lower goal)
       then
         exists front last extra s e first,
           base = (front ++ [last])%list
           /\ tasks = (front ++ [extra; last])%list
           /\ nth_error tasks (List.length base - 1) = Some extra
           /\ title extra = "Marketing prep"
           /\ description extra
              = "Prepare assets, landing page, email sequences and socials."
           /\ datetime_add start per_task_days = Ok s
           /\ start_date extra = date_isoformat s
           /\ datetime_add start (2 * per_task_days) = Ok e
           /\ end_date extra = date_isoformat e
           /\ nth_error (choose_phases days) 0 = Some first
           /\ depends_on extra = fst first
       else tasks = base.
Proof.
  intros Hparse Halloc.
  destruct (allocate_ok _ _ _ _ _ Halloc) as (_ & Hp & Hok & Hbase).
  destruct (choose_phases_nonempty days) as (a & b & c & rest & Hch).
  rewrite mock_llm_reasoning_eq, Hparse. cbn [bind].
  rewrite <- Hp, Hok. eexists. split; [reflexivity|].
  fold (marketing_trigger goal). unfold plan_of. rewrite <- Hp, <- Hbase.
  destruct (marketing_trigger goal); [|reflexivity].
  assert (Hne : base <> []).
  { rewrite Hbase, Hch. discriminate. }
  destruct (split_last base Hne) as (front & last & Hfl & Hfirst & Hskip).
  rewrite Hfirst, Hskip.
  assert (Hm : date_ok start per_task_days = true
               /\ date_ok start (per_task_days * 2) = true).
  { rewrite Hch in Hok. exact (timeline_ok_marketing _ _ _ _ _ _ Hok). }
  destruct Hm as [Hm1 Hm2]. rewrite Z.mul_comm in Hm2.
  destruct (date_ok_add _ _ Hm1) as (s & Hadd_s & _ & Hiso_s).
  destruct (date_ok_add _ _ Hm2) as (e & Hadd_e & _ & Hiso_e).
  exists front, last, (marketing_prep start (choose_phases days) per_task_days),
    s, e, a.
  repeat split; try assumption.
  - rewrite Hfl, length_app. cbn [List.length].
    replace (List.length front + 1 - 1)%nat with (List.length front) by lia.
    rewrite nth_error_app2, Nat.sub_diag by lia. reflexivity.
  - cbn [marketing_prep end_date]. rewrite Z.mul_comm. exact Hiso_e.
  - rewrite Hch. reflexivity.
  - cbn [marketing_prep depends_on]. rewrite Hch. reflexivity.
Qed.

Lemma marketing_prep_inserted_witness :
  parse_goal_duration 4300 jan_15_2024
    "Launch a product and marketing campaign in 2 weeks"
  = Ok (14, {| ordinal := 738914; usec_of_day := 43200000000 |})
  /\ allocate jan_15_2024 14 (choose_phases 14)
     = Ok (2, timeline jan_15_2024 phases 2 1 phases)
  /\ exists tasks,
       mock_llm_reasoning 4300 jan_15_2024 jan_15_2024
         "Launch a product and marketing campaign in 2 weeks" = Ok tasks
       /\ List.length tasks = 7%nat.
Proof.
  assert (Hp : parse_goal_duration 4300 jan_15_2024
                 "Launch a product and marketing campaign in 2 weeks"
               = Ok (14, {| ordinal := 738914;
                            usec_of_day := 43200000000 |}))
    by (vm_compute; reflexivity).
  assert (Ha : allocate jan_15_2024 14 (choose_phases 14)
               = Ok (2, timeline jan_15_2024 phases 2 1 phases))
    by (vm_compute; reflexivity).
  split; [exact Hp|]. split; [exact Ha|].
  destruct (marketing_prep_inserted 4300 jan_15_2024 jan_15_2024
              "Launch a product and marketing campaign in 2 weeks" 14
              {| ordinal := 738914; usec_of_day := 43200000000 |} 2
              (timeline jan_15_2024 phases 2 1 phases) Hp Ha)
    as (tasks & Hmock & Hshape).
  exists tasks. split; [exact Hmock|].
  assert (Ht : contains "product"
                 (lower "Launch a product and marketing campaign in 2 weeks")
               && contains "marketing"
                    (lower "Launch a product and marketing campaign in 2 weeks")
               = true) by reflexivity.
  rewrite Ht in Hshape.
  destruct Hshape as (front & last & extra & _ & _ & _ & Hbase & -> & _).
  apply (f_equal (@List.length Task)) in Hbase.
  rewrite timeline_length, length_app in Hbase.
  rewrite length_app. cbn [List.length phases] in *. lia.
Defined.

(** *** The dates of the tasks *)

Lemma iso_date_parse (start : datetime) (d : Z) :
  date_ok start d = true ->
  fromisoformat (iso_date start d) = Some (ord2ymd (ordinal start + d))
  /\ valid_ymd (ord2ymd (ordinal start + d)) = true
  /\ ymd2ord (ord2ymd (ordinal start + d)) = ordinal start + d.
Proof.
  unfold date_ok, valid_ordinal, iso_date. intros H.
  apply andb_prop in H. destruct H as [_ H].
  apply andb_prop in H. destruct H as [Hlo Hhi].
  apply Z.leb_le in Hlo, Hhi.
  destruct (ord2ymd_spec (ordinal start + d) (conj Hlo Hhi)) as [Hv Ho].
  split; [apply fromisoformat_isoformat, Hv | split; [exact Hv | exact Ho]].
Qed.

Lemma dated_intro (t : Task) (start : datetime) (ds de : Z) :
  start_date t = iso_date start ds -> end_date t = iso_date start de ->
  date_ok start ds = true -> date_ok start de = true -> ds <= de ->
  dated t.
Proof.
  intros Hs He Hds Hde Hle.
  destruct (iso_date_parse _ _ Hds) as (Ps & Vs & Os).
  destruct (iso_date_parse _ _ Hde) as (Pe & Ve & Oe).
  exists (ord2ymd (ordinal start + ds)), (ord2ymd (ordinal start + de)).
  rewrite Hs, He, Ps, Pe, Os, Oe. repeat split; [lia|].
  apply isoformat_le; [exact Vs | exact Ve |].
  apply ymd2ord_le_inv; [exact Vs | exact Ve |]. lia.
Qed.

Lemma timeline_dated (start : datetime) (chosen : list (string * string))
  (p : Z) (todo : list (string * string)) :
  1 <= p ->
  forall i,
    timeline_ok start p i todo = true ->
    Forall dated (timeline start chosen p i todo).
Proof.
  intros Hp. induction todo as [|ph todo IH]; intros i Hok;
    cbn [timeline]; constructor.
  - cbn [timeline_ok] in Hok.
    apply andb_prop in Hok. destruct Hok as [Hok _].
    apply andb_prop in Hok. destruct Hok as [Hs He].
    apply (dated_intro _ start ((i - 1) * p) (i * p - 1));
      try reflexivity; try assumption. lia.
  - apply IH. cbn [timeline_ok] in Hok.
    apply andb_prop in Hok. exact (proj2 Hok).
Qed.

Lemma Forall_insert {A : Type} (P : A -> Prop) (l : list A) (k : nat)
  (x : A) :
  Forall P l -> P x -> Forall P (firstn k l ++ x :: skipn k l)%list.
Proof.
  intros Hl Hx. rewrite <- (firstn_skipn k l) in Hl.
  apply Forall_app in Hl. destruct Hl as [H1 H2].
  apply Forall_app. split; [exact H1|]. constructor; assumption.
Qed.

(** C7.  For every task that the pipeline returns, the extra task too,
    [start_date] and [end_date] are ISO dates (YYYY-MM-DD) of the calendar,
    and [end_date >= start_date]: as days of the calendar, and as
    strings. *)
Theorem task_dates_valid (max_str_digits : nat) (now start : datetime)
  (goal : string) (tasks : list Task) :
  mock_llm_reasoning max_str_digits now start goal = Ok tasks ->
  Forall
    (fun t =>
       exists s e,
         fromisoformat (start_date t) = Some s
         /\ fromisoformat (end_date t) = Some e
         /\ ymd2ord s <= ymd2ord e
         /\ str_le (start_date t) (end_date t) = true)
    tasks.
Proof.
  intros Hmock.
  destruct (mock_llm_reasoning_ok _ _ _ _ _ Hmock)
    as (days & deadline & _ & Hok & ->).
  change (Forall dated (plan_of start days (marketing_trigger goal))).
  pose proof (width_pos days (choose_phases days)) as Hp.
  pose proof (timeline_dated start (choose_phases days) _ _ Hp 1 Hok) as Htl.
  unfold plan_of. destruct (marketing_trigger goal); [|exact Htl].
  apply Forall_insert; [exact Htl|].
  destruct (choose_phases_nonempty days) as (a & b & c & rest & Hch).
  assert (Hm : date_ok start (width days (choose_phases days)) = true
               /\ date_ok start (width days (choose_phases days) * 2) = true).
  { rewrite Hch in Hok at 2. exact (timeline_ok_marketing _ _ _ _ _ _ Hok). }
  destruct Hm as [Hm1 Hm2].
  apply (dated_intro _ start (width days (choose_phases days))
           (width days (choose_phases days) * 2));
    try reflexivity; try assumption. lia.
Qed.

Lemma task_dates_valid_witness :
  exists tasks,
    mock_llm_reasoning 4300 jan_15_2024 jan_15_2024
      "Launch a product and marketing campaign in 2 weeks" = Ok tasks
    /\ Forall
         (fun t =>
            exists s e,
              fromisoformat (start_date t) = Some s
              /\ fromisoformat (end_date t) = Some e
              /\ ymd2ord s <= ymd2ord e
              /\ str_le (start_date t) (end_date t) = true)
         tasks.
Proof.
  eexists. split; [vm_compute; reflexivity|].
  apply (task_dates_valid 4300 jan_15_2024 jan_15_2024
           "Launch a product and marketing campaign in 2 weeks").
  vm_compute. reflexivity.
Defined.

(** *** The scenarios of the specification, on 2024-01-15 *)

Example scenario_a :
  exists t1 t2 rest,
    mock_llm_reasoning 4300 jan_15_2024 jan_15_2024
      "Launch a product in 2 weeks" = Ok (t1 :: t2 :: rest)
    /\ List.length rest = 4%nat
    /\ start_date t1 = "2024-01-15" /\ end_date t1 = "2024-01-16"
    /\ depends_on t1 = "" /\ depends_on t2 = title t1.
Proof. do 3 eexists. vm_compute. repeat split. Qed.

Example scenario_b :
  exists tasks,
    parse_goal_duration 4300 jan_15_2024 "Write a book"
    = Ok (30, {| ordinal := 738930; usec_of_day := 43200000000 |})
    /\ allocate jan_15_2024 30 (choose_phases 30) = Ok (5, tasks)
    /\ List.length tasks = 6%nat.
Proof. eexists. vm_compute. repeat split. Qed.

Example scenario_c :
  exists tasks,
    parse_goal_duration 4300 jan_15_2024 "ship mvp in 3 days"
    = Ok (3, {| ordinal := 738903; usec_of_day := 43200000000 |})
    /\ allocate jan_15_2024 3 (choose_phases 3) = Ok (1, tasks)
    /\ List.length tasks = 4%nat.
Proof. eexists. vm_compute. repeat split. Qed.

Example scenario_d_plan :
  mock_llm_reasoning 4300 jan_15_2024 jan_15_2024
    "Launch a product and marketing campaign in 2 weeks" = Ok scenario_d
  /\ map title scenario_d
     = ["Define scope & success metrics"; "Design & plan"; "Implementation";
        "Testing & QA"; "Deployment & Launch"; "Marketing prep";
        "Post-launch monitoring"]
  /\ option_map depends_on (nth_error scenario_d 5)
     = Some "Define scope & success metrics".
Proof. vm_compute. repeat split. Qed.

(** *** Only the calendar day of an instant matters *)

Section SameDay.

Variables a b : datetime.
Hypothesis same_day : ordinal a = ordinal b.

Lemma date_ok_same_day (d : Z) : date_ok a d = date_ok b d.
Proof. unfold date_ok. rewrite same_day. reflexivity. Qed.

Lemma iso_date_same_day (d : Z) : iso_date a d = iso_date b d.
Proof. unfold iso_date. rewrite same_day. reflexivity. Qed.

Lemma timeline_ok_same_day (p : Z) (todo : list (string * string)) :
  forall i, timeline_ok a p i todo = timeline_ok b p i todo.
Proof.
  induction todo as [|ph todo IH]; intros i; [reflexivity|].
  cbn [timeline_ok]. rewrite !date_ok_same_day, IH. reflexivity.
Qed.

Lemma timeline_same_day (chosen : list (string * string)) (p : Z)
  (todo : list (string * string)) :
  forall i, timeline a chosen p i todo = timeline b chosen p i todo.
Proof.
  induction todo as [|ph todo IH]; intros i; [reflexivity|].
  cbn [timeline]. rewrite IH. unfold phase_task.
  rewrite !iso_date_same_day. reflexivity.
Qed.

Lemma plan_of_same_day (days : Z) (augment : bool) :
  plan_of a days augment = plan_of b days augment.
Proof.
  unfold plan_of, marketing_prep.
  rewrite timeline_same_day, !iso_date_same_day. reflexivity.
Qed.

End SameDay.

(** C9.  Two runs of the pipeline on the same goal text, with reference
    instants of the same calendar day (the same instant in particular),
    have the same outcome: the same tasks in the same order, or the same
    exception. *)
Theorem mock_llm_reasoning_deterministic (max_str_digits : nat)
  (now start now' start' : datetime) (goal goal' : string) :
  goal = goal' ->
  ordinal now = ordinal now' -> ordinal start = ordinal start' ->
  mock_llm_reasoning max_str_digits now start goal
  = mock_llm_reasoning max_str_digits now' start' goal'.
Proof.
  intros <- Hnow Hstart.
  rewrite !mock_llm_reasoning_eq, !parse_goal_duration_eq, !with_deadline_eq.
  rewrite (date_ok_same_day now now' Hnow).
  destruct (exceeds_max_str_digits _ _); [reflexivity|].
  destruct (date_ok now' _); [|reflexivity].
  cbn [bind].
  rewrite (timeline_ok_same_day start start' Hstart).
  rewrite (plan_of_same_day start start' Hstart). reflexivity.
Qed.

Lemma mock_llm_reasoning_deterministic_witness :
  ordinal jan_15_2024 = ordinal jan_15_2024_evening
  /\ mock_llm_reasoning 4300 jan_15_2024 jan_15_2024
       "Launch a product in 2 weeks"
     = mock_llm_reasoning 4300 jan_15_2024 jan_15_2024_evening
         "Launch a product in 2 weeks".
Proof.
  split; [reflexivity|].
  exact (mock_llm_reasoning_deterministic 4300 jan_15_2024 jan_15_2024
           jan_15_2024 jan_15_2024_evening _ _ eq_refl eq_refl eq_refl).
Defined.

(** *** The order of the dependencies *)

Lemma deps_in_order_spec (tasks : list Task) :
  forall seen,
    deps_in_order seen tasks = true ->
    forall (i : nat) (t : Task),
      nth_error tasks i = Some t -> depends_on t <> "" ->
      In (depends_on t) seen
      \/ exists (j : nat) (t' : Task),
           (j < i)%nat /\ nth_error tasks j = Some t'
           /\ title t' = depends_on t.
Proof.
  induction tasks as [|t0 tasks IH]; intros seen H i t Hi Hdep.
  - destruct i; discriminate Hi.
  - cbn [deps_in_order] in H. apply andb_prop in H. destruct H as [H0 Hrest].
    destruct i as [|i].
    + injection Hi as <-. left.
      apply orb_prop in H0. destruct H0 as [H0 | H0].
      * apply String.eqb_eq in H0. contradiction.
      * apply existsb_exists in H0. destruct H0 as (x & Hin & Hx).
        apply String.eqb_eq in Hx. subst x. exact Hin.
    + cbn [nth_error] in Hi.
      destruct (IH _ Hrest i t Hi Hdep) as [Hin | (j & t' & Hj & Hnth & Ht)].
      * destruct Hin as [Heq | Hin]; [|left; exact Hin].
        right. exists 0%nat, t0. repeat split; [lia | exact Heq].
      * right. exists (S j), t'. repeat split; [lia | exact Hnth | exact Ht].
Qed.

Lemma plan_of_deps_in_order (start : datetime) (days : Z) (augment : bool) :
  deps_in_order [] (plan_of start days augment) = true.
Proof.
  unfold plan_of.
  destruct (choose_phases_cases days) as [[_ ->] | [_ ->]];
    destruct augment; reflexivity.
Qed.

(** C10.  In the list that the pipeline returns, a task whose
    [depends_on] is not empty names the title of a task at a position
    strictly before its own, also when "Marketing prep" is inserted. *)
Theorem depends_on_earlier_task (max_str_digits : nat) (now start : datetime)
  (goal : string) (tasks : list Task) :
  mock_llm_reasoning max_str_digits now start goal = Ok tasks ->
  forall (i : nat) (t : Task),
    nth_error tasks i = Some t -> depends_on t <> "" ->
    exists (j : nat) (t' : Task),
      (j < i)%nat /\ nth_error tasks j = Some t' /\ title t' = depends_on t.
Proof.
  intros Hmock i t Hi Hdep.
  destruct (mock_llm_reasoning_ok _ _ _ _ _ Hmock)
    as (days & deadline & _ & _ & ->).
  destruct (deps_in_order_spec _ [] (plan_of_deps_in_order _ _ _) i t Hi Hdep)
    as [[] | H].
  exact H.
Qed.

Lemma depends_on_earlier_task_witness :
  mock_llm_reasoning 4300 jan_15_2024 jan_15_2024
    "Launch a product and marketing campaign in 2 weeks" = Ok scenario_d
  /\ forall (i : nat) (t : Task),
       nth_error scenario_d i = Some t -> depends_on t <> "" ->
       exists (j : nat) (t' : Task),
         (j < i)%nat /\ nth_error scenario_d j = Some t'
         /\ title t' = depends_on t.
Proof.
  split; [vm_compute; reflexivity|].
  apply (depends_on_earlier_task 4300 jan_15_2024 jan_15_2024
           "Launch a product and marketing campaign in 2 weeks").
  vm_compute. reflexivity.
Defined.

(** *** The external service *)

(** C8, the behaviour of the code.  With the service engaged, a reply
    that [json.loads] decodes is returned as the plan whatever its form:
    also when it is not an array of objects with the five keys of a
    task. *)
Theorem generate_plan_returns_any_json
  (json_loads : string -> option json) (key : option string)
  (call_openai : string -> call_outcome) (max_str_digits : nat)
  (now start now' start' : datetime) (goal reply : string) (parsed : json) :
  key_configured key = true ->
  call_openai (build_prompt (strip goal)) = CallReturned reply ->
  json_loads reply = Some parsed ->
  is_task_array parsed = false ->
  generate_plan json_loads key call_openai max_str_digits now start now' start'
    goal true
  = Ok (ParsedReply parsed).
Proof.
  intros Hkey Hcall Hloads _. unfold generate_plan.
  rewrite Hkey, Hcall, Hloads. reflexivity.
Qed.

Lemma generate_plan_returns_any_json_witness :
  is_task_array (JInt 42) = false
  /\ generate_plan
       (fun s => if String.eqb s "42" then Some (JInt 42) else None)
       (Some "key") (fun _ => CallReturned "42") 4300
       jan_15_2024 jan_15_2024 jan_15_2024 jan_15_2024
       "Launch a product in 2 weeks" true
     = Ok (ParsedReply (JInt 42)).
Proof.
  split; [reflexivity|].
  exact (generate_plan_returns_any_json
           (fun s => if String.eqb s "42" then Some (JInt 42) else None)
           (Some "key") (fun _ => CallReturned "42") 4300
           jan_15_2024 jan_15_2024 jan_15_2024 jan_15_2024
           "Launch a product in 2 weeks" "42" (JInt 42)
           eq_refl eq_refl eq_refl eq_refl).
Defined.

Lemma generate_plan_unparseable
  (json_loads : string -> option json) (key : option string)
  (call_openai : string -> call_outcome) (max_str_digits : nat)
  (now start now' start' : datetime) (goal reply : string)
  (tasks : list Task) :
  key_configured key = true ->
  call_openai (build_prompt (strip goal)) = CallReturned reply ->
  json_loads reply = None ->
  mock_llm_reasoning max_str_digits now start (strip goal) = Ok tasks ->
  generate_plan json_loads key call_openai max_str_digits now start now' start'
    goal true
  = Ok (TaskList
          (map (setdefault_llm_note (JString (slice_to 400 reply))) tasks)).
Proof.
  intros Hkey Hcall Hloads Hmock. unfold generate_plan.
  rewrite Hkey, Hcall, Hloads, Hmock. reflexivity.
Qed.

(** A call of the service that fails: the plan of the pipeline, without
    notes. *)
Lemma generate_plan_call_failed
  (json_loads : string -> option json) (key : option string)
  (call_openai : string -> call_outcome) (max_str_digits : nat)
  (now start now' start' : datetime) (goal : string) (tasks : list Task) :
  call_openai (build_prompt (strip goal)) = CallRaised ->
  mock_llm_reasoning max_str_digits now start (strip goal) = Ok tasks ->
  generate_plan json_loads key call_openai max_str_digits now start now' start'
    goal true
  = Ok (TaskList tasks)
  /\ Forall (fun t => llm_note t = None) tasks.
Proof.
  intros Hcall Hmock. split.
  - unfold generate_plan. cbn [andb].
    destruct (key_configured key); rewrite ?Hcall, Hmock; reflexivity.
  - destruct (mock_llm_reasoning_ok _ _ _ _ _ Hmock)
      as (days & deadline & _ & _ & ->).
    unfold plan_of.
    assert (Htl : forall chosen p todo i,
               Forall (fun t => llm_note t = None)
                 (timeline start chosen p i todo)).
    { intros chosen p todo. induction todo as [|ph todo IH]; intros i;
        cbn [timeline]; constructor; [reflexivity | apply IH]. }
    destruct (marketing_trigger (strip goal)); [|apply Htl].
    apply Forall_insert; [apply Htl | reflexivity].
Qed.

(** ** Part VIII. Further properties of the engine *)

(** *** The days of the tasks *)

Lemma date_ord_iso (start : datetime) (d : Z) :
  date_ok start d = true ->
  date_ord (iso_date start d) = Some (ordinal start + d).
Proof.
  intros H. destruct (iso_date_parse _ _ H) as (Hp & _ & Ho).
  unfold date_ord. rewrite Hp. cbn [option_map]. rewrite Ho. reflexivity.
Qed.

(** The days of the task of phase [i]. *)
Lemma phase_task_days (start : datetime) (chosen : list (string * string))
  (p i : Z) (ph : string * string) :
  date_ok start ((i - 1) * p) = true -> date_ok start (i * p - 1) = true ->
  date_ord (start_date (phase_task start chosen p i ph))
  = Some (ordinal start + (i - 1) * p)
  /\ date_ord (end_date (phase_task start chosen p i ph))
     = Some (ordinal start + i * p - 1).
Proof.
  intros Hs He. cbn [phase_task start_date end_date].
  rewrite (date_ord_iso _ _ Hs), (date_ord_iso _ _ He).
  split; f_equal; lia.
Qed.

(** The task at position [k] of a timeline that is in the calendar. *)
Lemma timeline_task (start : datetime) (chosen : list (string * string))
  (p : Z) (k : nat) (t : Task) :
  timeline_ok start p 1 chosen = true ->
  nth_error (timeline start chosen p 1 chosen) k = Some t ->
  exists ph,
    nth_error chosen k = Some ph
    /\ t = phase_task start chosen p (1 + Z.of_nat k) ph
    /\ date_ord (start_date t) = Some (ordinal start + Z.of_nat k * p)
    /\ date_ord (end_date t) = Some (ordinal start + (Z.of_nat k + 1) * p - 1).
Proof.
  intros Hok Hk. rewrite timeline_nth in Hk.
  destruct (nth_error chosen k) as [ph|] eqn:Hph; [|discriminate Hk].
  assert (Ht : t = phase_task start chosen p (1 + Z.of_nat k) ph)
    by (unfold option_map in Hk; congruence).
  clear Hk. subst t.
  assert (Hlt : (k < List.length chosen)%nat).
  { apply nth_error_Some. congruence. }
  destruct (timeline_ok_nth start p chosen 1 k Hok Hlt) as [Hs He].
  destruct (phase_task_days start chosen p (1 + Z.of_nat k) ph Hs He)
    as [Ds De].
  exists ph. split; [reflexivity|]. split; [reflexivity|].
  rewrite Ds, De. split; f_equal; lia.
Qed.

(** X1.  Every task of a phase covers [per_task_days] days, at least one. *)
Theorem allocate_task_span (start : datetime) (days : Z)
  (chosen : list (string * string)) (per_task_days : Z) (tasks : list Task) :
  allocate start days chosen = Ok (per_task_days, tasks) ->
  1 <= per_task_days
  /\ Forall
       (fun t =>
          exists s e,
            date_ord (start_date t) = Some s /\ date_ord (end_date t) = Some e
            /\ e - s + 1 = per_task_days)
       tasks.
Proof.
  intros H. destruct (allocate_ok _ _ _ _ _ H) as (_ & Hp & Hok & ->).
  split; [rewrite Hp; apply width_pos|].
  apply Forall_forall. intros t Hin.
  apply In_nth_error in Hin. destruct Hin as [k Hk].
  destruct (timeline_task _ _ _ _ _ Hok Hk) as (ph & _ & _ & Hs & He).
  eexists _, _. split; [exact Hs|]. split; [exact He|]. lia.
Qed.

Lemma allocate_task_span_witness :
  exists tasks,
    allocate jan_15_2024 14 phases = Ok (2, tasks)
    /\ 1 <= 2
    /\ Forall
         (fun t =>
            exists s e,
              date_ord (start_date t) = Some s
              /\ date_ord (end_date t) = Some e
              /\ e - s + 1 = 2)
         tasks.
Proof.
  eexists. split; [vm_compute; reflexivity|].
  apply (allocate_task_span jan_15_2024 14 phases).
  vm_compute. reflexivity.
Defined.

(** X2.  The timeline starts on the day of [start] and has no gap and no
    overlap: a phase starts on the day after the end of the one before. *)
Theorem allocate_contiguous (start : datetime) (days : Z)
  (chosen : list (string * string)) (per_task_days : Z) (tasks : list Task) :
  allocate start days chosen = Ok (per_task_days, tasks) ->
  (exists first,
      nth_error tasks 0 = Some first
      /\ date_ord (start_date first) = Some (ordinal start))
  /\ forall (i : nat) (a b : Task),
       nth_error tasks i = Some a -> nth_error tasks (S i) = Some b ->
       exists e,
         date_ord (end_date a) = Some e
         /\ date_ord (start_date b) = Some (e + 1).
Proof.
  intros H. destruct (allocate_ok _ _ _ _ _ H) as (Hne & Hp & Hok & ->).
  split.
  - destruct chosen as [|ph chosen]; [congruence|].
    eexists. split; [reflexivity|].
    destruct (timeline_task start (ph :: chosen) per_task_days 0 _ Hok eq_refl)
      as (_ & _ & _ & Hs & _).
    rewrite Hs. f_equal. lia.
  - intros i a b Ha Hb.
    destruct (timeline_task _ _ _ _ _ Hok Ha) as (_ & _ & _ & _ & He).
    destruct (timeline_task _ _ _ _ _ Hok Hb) as (_ & _ & _ & Hs & _).
    eexists. split; [exact He|]. rewrite Hs. f_equal. lia.
Qed.

Lemma allocate_contiguous_witness :
  exists tasks,
    allocate jan_15_2024 14 phases = Ok (2, tasks)
    /\ (exists first,
           nth_error tasks 0 = Some first
           /\ date_ord (start_date first) = Some (ordinal jan_15_2024))
    /\ forall (i : nat) (a b : Task),
         nth_error tasks i = Some a -> nth_error tasks (S i) = Some b ->
         exists e,
           date_ord (end_date a) = Some e
           /\ date_ord (start_date b) = Some (e + 1).
Proof.
  eexists. split; [vm_compute; reflexivity|].
  apply (allocate_contiguous jan_15_2024 14 phases 2).
  vm_compute. reflexivity.
Defined.

Lemma In_insert {A : Type} (l : list A) (k : nat) (x y : A) :
  In y (firstn k l ++ x :: skipn k l)%list -> y = x \/ In y l.
Proof.
  intros H. apply in_app_or in H. destruct H as [H | [H | H]].
  - right. rewrite <- (firstn_skipn k l). apply in_or_app. left. exact H.
  - left. symmetry. exact H.
  - right. rewrite <- (firstn_skipn k l). apply in_or_app. right. exact H.
Qed.

Lemma In_plan_of (start : datetime) (days : Z) (augment : bool) (t : Task) :
  In t (plan_of start days augment) ->
  (augment = true
   /\ t = marketing_prep start (choose_phases days)
            (width days (choose_phases days)))
  \/ In t (timeline start (choose_phases days)
             (width days (choose_phases days)) 1 (choose_phases days)).
Proof.
  unfold plan_of. destruct augment; [|right; assumption].
  intros H. apply In_insert in H. destruct H as [-> | H]; [left | right]; auto.
Qed.

Lemma marketing_prep_days (start : datetime) (days : Z) :
  timeline_ok start (width days (choose_phases days)) 1 (choose_phases days)
  = true ->
  let p := width days (choose_phases days) in
  date_ord (start_date (marketing_prep start (choose_phases days) p))
  = Some (ordinal start + p)
  /\ date_ord (end_date (marketing_prep start (choose_phases days) p))
     = Some (ordinal start + 2 * p).
Proof.
  intros Hok p.
  destruct (choose_phases_nonempty days) as (a & b & c & rest & Hch).
  assert (Hm : date_ok start p = true /\ date_ok start (p * 2) = true).
  { subst p. rewrite Hch in Hok at 2.
    exact (timeline_ok_marketing _ _ _ _ _ _ Hok). }
  destruct Hm as [Hm1 Hm2]. cbn [marketing_prep start_date end_date].
  rewrite (date_ord_iso _ _ Hm1), (date_ord_iso _ _ Hm2).
  split; f_equal; lia.
Qed.

(** X3.  With four days or more, every task lies within the days of the
    goal: from the day of [start] to [days - 1] days later. *)
Theorem plan_within_duration (max_str_digits : nat) (now start : datetime)
  (goal : string) (days : Z) (deadline : datetime) (tasks : list Task) :
  parse_goal_duration max_str_digits now goal = Ok (days, deadline) ->
  mock_llm_reasoning max_str_digits now start goal = Ok tasks ->
  4 <= days ->
  Forall
    (fun t =>
       exists s e,
         date_ord (start_date t) = Some s /\ date_ord (end_date t) = Some e
         /\ ordinal start <= s /\ e <= ordinal start + days - 1)
    tasks.
Proof.
  intros Hparse Hmock Hdays.
  destruct (mock_llm_reasoning_ok _ _ _ _ _ Hmock)
    as (days' & deadline' & Hparse' & Hok & ->).
  rewrite Hparse in Hparse'. injection Hparse' as <- <-.
  pose proof (timeline_span days) as Hspan.
  pose proof (width_pos days (choose_phases days)) as Hp.
  set (p := width days (choose_phases days)) in *.
  assert (Hn : 4 <= Z.of_nat (List.length (choose_phases days))).
  { destruct (choose_phases_cases days) as [[_ ->] | [_ ->]]; cbn; lia. }
  apply Forall_forall. intros t Hin.
  destruct (In_plan_of _ _ _ _ Hin) as [[_ ->] | Hin'].
  - destruct (marketing_prep_days start days Hok) as [Hs He].
    eexists _, _. split; [exact Hs|]. split; [exact He|]. fold p. nia.
  - apply In_nth_error in Hin'. destruct Hin' as [k Hk].
    destruct (timeline_task _ _ _ _ _ Hok Hk) as (ph & Hph & _ & Hs & He).
    assert (Hlt : (k < List.length (choose_phases days))%nat).
    { apply nth_error_Some. congruence. }
    eexists _, _. split; [exact Hs|]. split; [exact He|]. fold p. nia.
Qed.

Lemma plan_within_duration_witness :
  exists tasks,
    mock_llm_reasoning 4300 jan_15_2024 jan_15_2024
      "Launch a product and marketing campaign in 2 weeks" = Ok tasks
    /\ 4 <= 14
    /\ Forall
         (fun t =>
            exists s e,
              date_ord (start_date t) = Some s
              /\ date_ord (end_date t) = Some e
              /\ ordinal jan_15_2024 <= s
              /\ e <= ordinal jan_15_2024 + 14 - 1)
         tasks.
Proof.
  eexists. split; [vm_compute; reflexivity|]. split; [lia|].
  apply (plan_within_duration 4300 jan_15_2024 jan_15_2024
           "Launch a product and marketing campaign in 2 weeks" 14
           {| ordinal := 738914; usec_of_day := 43200000000 |});
    [vm_compute; reflexivity | vm_compute; reflexivity | lia].
Defined.

Lemma timeline_ok_cons (start : datetime) (p i : Z) (ph : string * string)
  (todo : list (string * string)) :
  timeline_ok start p i (ph :: todo) = true ->
  date_ok start ((i - 1) * p) = true /\ date_ok start (i * p - 1) = true
  /\ timeline_ok start p (i + 1) todo = true.
Proof.
  cbn [timeline_ok]. intros H.
  apply andb_prop in H. destruct H as [H H3].
  apply andb_prop in H. destruct H as [H1 H2]. auto.
Qed.

(** X4.  With fewer than four days the plan still has four phases of one
    day each, on the day of [start] and the three days after it. *)
Theorem short_goal_overruns (max_str_digits : nat) (now start : datetime)
  (goal : string) (days : Z) (deadline : datetime) (tasks : list Task) :
  parse_goal_duration max_str_digits now goal = Ok (days, deadline) ->
  mock_llm_reasoning max_str_digits now start goal = Ok tasks ->
  days < 4 ->
  map (fun t => (date_ord (start_date t), date_ord (end_date t)))
    (filter (fun t => negb (String.eqb (title t) "Marketing prep")) tasks)
  = [ (Some (ordinal start), Some (ordinal start));
      (Some (ordinal start + 1), Some (ordinal start + 1));
      (Some (ordinal start + 2), Some (ordinal start + 2));
      (Some (ordinal start + 3), Some (ordinal start + 3)) ].
Proof.
  intros Hparse Hmock Hdays.
  destruct (mock_llm_reasoning_ok _ _ _ _ _ Hmock)
    as (days' & deadline' & Hparse' & Hok & ->).
  rewrite Hparse in Hparse'. injection Hparse' as <- <-.
  destruct (parse_goal_duration_ok _ _ _ _ _ Hparse) as (_ & _ & Hd & _).
  pose proof (duration_days_nonneg goal) as Hnn. rewrite <- Hd in Hnn.
  change (filter _ (plan_of start days (marketing_trigger goal)))
    with (filter is_phase_task (plan_of start days (marketing_trigger goal))).
  rewrite plan_of_phase_tasks.
  assert (Hch : choose_phases days = firstn 4 phases).
  { destruct (choose_phases_cases days) as [[? _] | [_ E]]; [lia | exact E]. }
  assert (Hp : width days (choose_phases days) = 1).
  { unfold width. rewrite Hch. change (Z.of_nat _) with 4.
    rewrite Z.div_small by lia. reflexivity. }
  rewrite Hp in *. rewrite Hch in *.
  cbn [firstn phases timeline map] in *.
  do 4 (apply timeline_ok_cons in Hok; destruct Hok as (? & ? & Hok)).
  repeat match goal with
  | |- context [phase_task ?s ?c ?p ?i ?ph] =>
      let Hs := fresh in let He := fresh in
      destruct (phase_task_days s c p i ph ltac:(assumption) ltac:(assumption))
        as [Hs He];
      rewrite Hs, He; clear Hs He
  end.
  repeat (apply (f_equal2 (@cons _));
          [apply (f_equal2 (@pair _ _)); apply (f_equal (@Some _)); lia|]).
  reflexivity.
Qed.

Lemma short_goal_overruns_witness :
  exists tasks,
    parse_goal_duration 4300 jan_15_2024 "ship mvp in 2 days"
    = Ok (2, {| ordinal := 738902; usec_of_day := 43200000000 |})
    /\ mock_llm_reasoning 4300 jan_15_2024 jan_15_2024 "ship mvp in 2 days"
       = Ok tasks
    /\ map (fun t => (date_ord (start_date t), date_ord (end_date t)))
         (filter (fun t => negb (String.eqb (title t) "Marketing prep"))
            tasks)
       = [ (Some (ordinal jan_15_2024), Some (ordinal jan_15_2024));
           (Some (ordinal jan_15_2024 + 1), Some (ordinal jan_15_2024 + 1));
           (Some (ordinal jan_15_2024 + 2), Some (ordinal jan_15_2024 + 2));
           (Some (ordinal jan_15_2024 + 3), Some (ordinal jan_15_2024 + 3)) ].
Proof.
  eexists. split; [vm_compute; reflexivity|].
  split; [vm_compute; reflexivity|].
  apply (short_goal_overruns 4300 jan_15_2024 jan_15_2024
           "ship mvp in 2 days" 2
           {| ordinal := 738902; usec_of_day := 43200000000 |});
    [vm_compute; reflexivity | vm_compute; reflexivity | lia].
Defined.

(** X5.  With four days or more, the last task ends [days mod n] days
    before the last day of the goal, [n] being the number of phases. *)
Theorem plan_last_day (max_str_digits : nat) (now start : datetime)
  (goal : string) (days : Z) (deadline : datetime) (tasks : list Task) :
  parse_goal_duration max_str_digits now goal = Ok (days, deadline) ->
  mock_llm_reasoning max_str_digits now start goal = Ok tasks ->
  4 <= days ->
  let n := if 10 <=? days then 6 else 4 in
  exists t,
    nth_error tasks (List.length tasks - 1) = Some t
    /\ date_ord (end_date t)
       = Some (ordinal start + days - 1 - days mod n).
Proof.
  intros Hparse Hmock Hdays n.
  destruct (mock_llm_reasoning_ok _ _ _ _ _ Hmock)
    as (days' & deadline' & Hparse' & Hok & ->).
  rewrite Hparse in Hparse'. injection Hparse' as <- <-.
  assert (Hw : width days (choose_phases days) = days / n
               /\ Z.of_nat (List.length (choose_phases days)) = n).
  { unfold width, n.
    destruct (choose_phases_cases days) as [[H ->] | [H ->]];
      [destruct (Z.leb_spec 10 days); [|lia]
      | destruct (Z.leb_spec 10 days); [lia|]];
      (split; [|reflexivity]); cbn [List.length firstn phases].
    - change (Z.of_nat 6) with 6.
      assert (1 <= days / 6) by (apply Z.div_le_lower_bound; lia). lia.
    - change (Z.of_nat 4) with 4.
      assert (1 <= days / 4) by (apply Z.div_le_lower_bound; lia). lia. }
  destruct Hw as [Hw Hlen].
  assert (Hn : 4 <= n) by (unfold n; destruct (10 <=? days); lia).
  set (chosen := choose_phases days) in *.
  set (p := width days chosen) in *.
  assert (Hlast : exists t,
             nth_error (plan_of start days (marketing_trigger goal))
               (List.length (plan_of start days (marketing_trigger goal)) - 1)
             = Some t
             /\ nth_error (timeline start chosen p 1 chosen)
                  (List.length chosen - 1) = Some t).
  { unfold plan_of. fold chosen. fold p. clearbody p.
    destruct (choose_phases_cases days) as [[_ E] | [_ E]];
      fold chosen in E; rewrite E;
      destruct (marketing_trigger goal); eexists; split; reflexivity. }
  destruct Hlast as (t & Ht & Hk). exists t. split; [exact Ht|].
  destruct (timeline_task _ _ _ _ _ Hok Hk) as (_ & _ & _ & _ & He).
  rewrite He. f_equal.
  replace (Z.of_nat (List.length chosen - 1) + 1) with n by lia.
  rewrite Hw. pose proof (Z.div_mod days n ltac:(lia)). lia.
Qed.

Lemma plan_last_day_witness :
  exists tasks t,
    mock_llm_reasoning 4300 jan_15_2024 jan_15_2024
      "Launch a product in 2 weeks" = Ok tasks
    /\ nth_error tasks (List.length tasks - 1) = Some t
    /\ date_ord (end_date t) = Some (ordinal jan_15_2024 + 14 - 1 - 14 mod 6).
Proof.
  eexists.
  destruct (plan_last_day 4300 jan_15_2024 jan_15_2024
              "Launch a product in 2 weeks" 14
              {| ordinal := 738914; usec_of_day := 43200000000 |} _
              ltac:(vm_compute; reflexivity) ltac:(vm_compute; reflexivity)
              ltac:(lia))
    as (t & Ht & He).
  exists t. split; [reflexivity|]. split; [exact Ht | exact He].
Defined.

(** *** The shape of a plan *)

(** X6.  The extra task starts on the day the second phase starts, ends on
    the day the third phase starts, and depends on what the second phase
    depends on. *)
Theorem marketing_prep_overlaps (max_str_digits : nat) (now start : datetime)
  (goal : string) (tasks : list Task) :
  mock_llm_reasoning max_str_digits now start goal = Ok tasks ->
  contains "product" (lower goal) && contains "marketing" (lower goal) = true ->
  exists second third extra,
    nth_error tasks 1 = Some second /\ nth_error tasks 2 = Some third
    /\ nth_error tasks (List.length tasks - 2) = Some extra
    /\ title extra = "Marketing prep"
    /\ start_date extra = start_date second
    /\ end_date extra = start_date third
    /\ depends_on extra = depends_on second.
Proof.
  intros Hmock Htrig.
  destruct (mock_llm_reasoning_ok _ _ _ _ _ Hmock)
    as (days & deadline & _ & _ & ->).
  fold (marketing_trigger goal) in Htrig. rewrite Htrig.
  unfold plan_of.
  set (p := width days (choose_phases days)).
  assert (E1 : (1 + 1 - 1) * p = p) by lia.
  assert (E2 : (1 + 1 + 1 - 1) * p = p * 2) by lia.
  destruct (choose_phases_cases days) as [[_ E] | [_ E]]; rewrite E in *;
    cbn [firstn phases timeline List.length Nat.sub skipn app nth_error];
    do 3 eexists;
    (split; [reflexivity|]); (split; [reflexivity|]);
    (split; [reflexivity|]); (split; [reflexivity|]);
    cbn [marketing_prep phase_task start_date end_date depends_on];
    rewrite E1, E2; repeat split.
Qed.

Lemma marketing_prep_overlaps_witness :
  exists tasks second third extra,
    mock_llm_reasoning 4300 jan_15_2024 jan_15_2024
      "Launch a product and marketing campaign in 2 weeks" = Ok tasks
    /\ nth_error tasks 1 = Some second /\ nth_error tasks 2 = Some third
    /\ nth_error tasks (List.length tasks - 2) = Some extra
    /\ title extra = "Marketing prep"
    /\ start_date extra = start_date second
    /\ end_date extra = start_date third
    /\ depends_on extra = depends_on second.
Proof.
  eexists.
  destruct (marketing_prep_overlaps 4300 jan_15_2024 jan_15_2024
              "Launch a product and marketing campaign in 2 weeks" _
              ltac:(vm_compute; reflexivity) ltac:(vm_compute; reflexivity))
    as (second & third & extra & H).
  exists second, third, extra. split; [reflexivity | exact H].
Defined.

Lemma plan_of_titles (start : datetime) (days : Z) (augment : bool) :
  map title (plan_of start days augment)
  = let titles := map fst (choose_phases days) in
    if augment
    then (removelast titles ++ ["Marketing prep"; last titles ""])%list
    else titles.
Proof.
  unfold plan_of.
  destruct (choose_phases_cases days) as [[_ ->] | [_ ->]];
    destruct augment; reflexivity.
Qed.

(** X7.  The titles of the tasks of a plan are all different. *)
Theorem plan_titles_distinct (max_str_digits : nat) (now start : datetime)
  (goal : string) (tasks : list Task) :
  mock_llm_reasoning max_str_digits now start goal = Ok tasks ->
  NoDup (map title tasks).
Proof.
  intros Hmock.
  destruct (mock_llm_reasoning_ok _ _ _ _ _ Hmock)
    as (days & deadline & _ & _ & ->).
  rewrite plan_of_titles.
  destruct (choose_phases_cases days) as [[_ ->] | [_ ->]];
    destruct (marketing_trigger goal); cbn;
    repeat (constructor; [cbn; intuition discriminate|]); constructor.
Qed.

Lemma plan_titles_distinct_witness :
  exists tasks,
    mock_llm_reasoning 4300 jan_15_2024 jan_15_2024
      "Launch a product and marketing campaign in 2 weeks" = Ok tasks
    /\ NoDup (map title tasks).
Proof.
  eexists. split; [vm_compute; reflexivity|].
  apply (plan_titles_distinct 4300 jan_15_2024 jan_15_2024
           "Launch a product and marketing campaign in 2 weeks").
  vm_compute. reflexivity.
Defined.

Lemma plan_of_depends_on (start : datetime) (days : Z) (augment : bool) :
  map depends_on (plan_of start days augment)
  = let titles := map fst (choose_phases days) in
    if augment
    then ("" :: firstn (List.length titles - 2) titles
          ++ [hd "" titles; last (removelast titles) ""])%list
    else "" :: removelast titles.
Proof.
  unfold plan_of.
  destruct (choose_phases_cases days) as [[_ ->] | [_ ->]];
    destruct augment; reflexivity.
Qed.

(** X8.  The first task of a plan is the only one that depends on nothing,
    and no task depends on the extra task. *)
Theorem plan_dependency_roots (max_str_digits : nat) (now start : datetime)
  (goal : string) (tasks : list Task) :
  mock_llm_reasoning max_str_digits now start goal = Ok tasks ->
  (forall (i : nat) (t : Task),
      nth_error tasks i = Some t -> (depends_on t = "" <-> i = 0%nat))
  /\ Forall (fun t => depends_on t <> "Marketing prep") tasks.
Proof.
  intros Hmock.
  destruct (mock_llm_reasoning_ok _ _ _ _ _ Hmock)
    as (days & deadline & _ & _ & ->).
  pose proof (plan_of_depends_on start days (marketing_trigger goal)) as Hd.
  set (tasks := plan_of start days (marketing_trigger goal)) in *.
  split.
  - intros i t Hi. apply (map_nth_error depends_on) in Hi.
    rewrite Hd in Hi. clear Hd.
    destruct (choose_phases_cases days) as [[_ E] | [_ E]]; rewrite E in Hi;
      destruct (marketing_trigger goal); cbn in Hi;
      repeat (destruct i as [|i];
              [injection Hi as <-; split; [reflexivity || discriminate
                                          | reflexivity || discriminate]|]);
      destruct i; discriminate Hi.
  - apply Forall_forall. intros t Hin.
    apply (in_map depends_on) in Hin. rewrite Hd in Hin. clear Hd.
    destruct (choose_phases_cases days) as [[_ E] | [_ E]]; rewrite E in Hin;
      destruct (marketing_trigger goal); cbn in Hin;
      intuition congruence.
Qed.

Lemma plan_dependency_roots_witness :
  exists tasks,
    mock_llm_reasoning 4300 jan_15_2024 jan_15_2024
      "Launch a product and marketing campaign in 2 weeks" = Ok tasks
    /\ (forall (i : nat) (t : Task),
           nth_error tasks i = Some t -> (depends_on t = "" <-> i = 0%nat))
    /\ Forall (fun t => depends_on t <> "Marketing prep") tasks.
Proof.
  eexists. split; [vm_compute; reflexivity|].
  apply (plan_dependency_roots 4300 jan_15_2024 jan_15_2024
           "Launch a product and marketing campaign in 2 weeks").
  vm_compute. reflexivity.
Defined.

(** X9.  The tasks are a function of the number of days, of the key words
    and of the day of [start]: the deadline that [parse_goal_duration]
    computes is not used, and two goals of the same duration get the
    same tasks. *)
Theorem plan_of_days_and_keywords (max_str_digits : nat)
  (now now' start : datetime) (goal goal' : string) (days : Z)
  (deadline deadline' : datetime) (tasks tasks' : list Task) :
  parse_goal_duration max_str_digits now goal = Ok (days, deadline) ->
  parse_goal_duration max_str_digits now' goal' = Ok (days, deadline') ->
  marketing_trigger goal = marketing_trigger goal' ->
  mock_llm_reasoning max_str_digits now start goal = Ok tasks ->
  mock_llm_reasoning max_str_digits now' start goal' = Ok tasks' ->
  tasks = tasks'.
Proof.
  intros Hp Hp' Ht Hm Hm'.
  destruct (mock_llm_reasoning_ok _ _ _ _ _ Hm) as (d & dl & Hd & _ & ->).
  destruct (mock_llm_reasoning_ok _ _ _ _ _ Hm') as (d' & dl' & Hd' & _ & ->).
  rewrite Hp in Hd. rewrite Hp' in Hd'.
  injection Hd as <- _. injection Hd' as <- _.
  rewrite Ht. reflexivity.
Qed.

Lemma plan_of_days_and_keywords_witness :
  exists tasks,
    mock_llm_reasoning 4300 jan_15_2024 jan_15_2024
      "Launch a product in 2 weeks" = Ok tasks
    /\ mock_llm_reasoning 4300 jan_15_2024_evening jan_15_2024
         "release the product within 14 days" = Ok tasks.
Proof.
  eexists. split; [vm_compute; reflexivity|].
  destruct (mock_llm_reasoning 4300 jan_15_2024_evening jan_15_2024
              "release the product within 14 days") as [tasks'|e] eqn:E;
    [|vm_compute in E; discriminate E].
  f_equal. symmetry.
  exact (plan_of_days_and_keywords 4300 jan_15_2024 jan_15_2024_evening
           jan_15_2024 "Launch a product in 2 weeks"
           "release the product within 14 days" 14
           {| ordinal := 738914; usec_of_day := 43200000000 |}
           {| ordinal := 738914; usec_of_day := 79200000000 |} _ tasks'
           ltac:(vm_compute; reflexivity) ltac:(vm_compute; reflexivity)
           ltac:(vm_compute; reflexivity) ltac:(vm_compute; reflexivity) E).
Defined.

(** *** The pattern, white space and the case of letters *)

(** X10.  The groups of a match of the pattern: the first is a run of
    digits that is not empty and the second is "day", "week" or "month",
    never a plural, as the alternation tries the singular first.  No
    group is [None]. *)
Theorem duration_re_groups (s : string) (m : Re.captures) :
  Re.search duration_re s = Some m ->
  exists digits unit,
    Re.group m 1 = Some digits /\ Re.group m 2 = Some unit
    /\ digits <> "" /\ all_chars isdigit digits = true
    /\ (unit = "day" \/ unit = "week" \/ unit = "month").
Proof.
  rewrite search_duration.
  destruct (first_duration s) as [[digits u]|] eqn:E; [|discriminate].
  intros [= <-].
  destruct (first_duration_some _ _ _ E) as (Hall & Hne & _).
  exists digits, (fst u). unfold captures_of.
  cbn [fst snd Re.group Nat.eqb].
  repeat split; try assumption.
  destruct (first_duration_unit _ _ _ E) as [-> | [-> | ->]]; cbn [fst]; auto.
Qed.

Lemma duration_re_groups_witness :
  exists m digits unit,
    Re.search duration_re "ship it in 12 weeks" = Some m
    /\ Re.group m 1 = Some digits /\ Re.group m 2 = Some unit
    /\ digits <> "" /\ all_chars isdigit digits = true
    /\ (unit = "day" \/ unit = "week" \/ unit = "month").
Proof.
  exists [(2%nat, "week"); (1%nat, "12")].
  destruct (duration_re_groups "ship it in 12 weeks"
              [(2%nat, "week"); (1%nat, "12")]
              ltac:(vm_compute; reflexivity))
    as (digits & unit & H).
  exists digits, unit. split; [vm_compute; reflexivity | exact H].
Defined.

Lemma all_chars_app (p : ascii -> bool) (a b : string) :
  all_chars p (a ++ b) = all_chars p a && all_chars p b.
Proof.
  induction a as [|c a IH]; [reflexivity|].
  cbn [append all_chars]. rewrite IH. apply andb_assoc.
Qed.

Lemma lstrip_split (p : ascii -> bool) (s : string) :
  exists w, all_chars p w = true /\ s = w ++ lstrip p s.
Proof.
  induction s as [|c s (w & Hw & IH)]; [exists ""; split; reflexivity|].
  cbn [lstrip]. destruct (p c) eqn:Hc.
  - exists (String c w). cbn [all_chars append]. rewrite Hc, Hw.
    split; [reflexivity | f_equal; exact IH].
  - exists "". split; reflexivity.
Qed.

Lemma rstrip_split (p : ascii -> bool) (s : string) :
  exists w, all_chars p w = true /\ s = rstrip p s ++ w.
Proof.
  induction s as [|c s (w & Hw & IH)]; [exists ""; split; reflexivity|].
  cbn [rstrip]. destruct (rstrip p s) as [|c' r] eqn:Hr.
  - destruct (p c) eqn:Hc.
    + exists (String c w). cbn [all_chars append]. rewrite Hc, Hw.
      split; [reflexivity | f_equal; exact IH].
    + exists w. split; [exact Hw | cbn [append]; f_equal; exact IH].
  - exists w. split; [exact Hw | cbn [append]; f_equal; exact IH].
Qed.

Lemma strip_split (s : string) :
  exists w1 w2,
    all_chars isspace w1 = true /\ all_chars isspace w2 = true
    /\ s = w1 ++ strip s ++ w2.
Proof.
  destruct (lstrip_split isspace s) as (w1 & Hw1 & E1).
  destruct (rstrip_split isspace (lstrip isspace s)) as (w2 & Hw2 & E2).
  exists w1, w2. repeat split; try assumption.
  unfold strip. rewrite <- E2. exact E1.
Qed.

Lemma lower_app (a b : string) : lower (a ++ b) = lower a ++ lower b.
Proof.
  induction a as [|c a IH]; [reflexivity|].
  cbn [append lower]. rewrite IH. reflexivity.
Qed.

Lemma lower_char_space (c : ascii) : isspace (lower_char c) = isspace c.
Proof. destruct c as [[] [] [] [] [] [] [] []]; reflexivity. Qed.

Lemma lower_space (w : string) :
  all_chars isspace (lower w) = all_chars isspace w.
Proof.
  induction w as [|c w IH]; [reflexivity|].
  cbn [lower all_chars]. rewrite lower_char_space, IH. reflexivity.
Qed.

Lemma startswith_space_after (x w u : string) :
  all_chars isspace w = true -> solid u = true ->
  startswith (x ++ w) u = startswith x u.
Proof.
  intros Hw Hu. revert x. induction u as [|a u IH]; intros x.
  - reflexivity.
  - cbn [solid all_chars] in Hu. apply andb_prop in Hu. destruct Hu as [Ha Hu].
    destruct x as [|c x]; cbn [append].
    + destruct w as [|c w]; [reflexivity|].
      cbn [all_chars] in Hw. apply andb_prop in Hw. destruct Hw as [Hc _].
      cbn [startswith].
      destruct (Ascii.eqb_spec a c) as [-> | _]; [|reflexivity].
      rewrite Hc in Ha. discriminate Ha.
    + cbn [startswith]. rewrite (IH Hu). reflexivity.
Qed.

Lemma contains_space_after (x w u : string) :
  all_chars isspace w = true -> solid u = true -> u <> "" ->
  contains u (x ++ w) = contains u x.
Proof.
  intros Hw Hu Hne. induction x as [|c x IH].
  - cbn [append]. clear - Hw Hu Hne. induction w as [|c w IH].
    + reflexivity.
    + cbn [contains]. 
      cbn [all_chars] in Hw. apply andb_prop in Hw. destruct Hw as [Hc Hw].
      rewrite (IH Hw).
      destruct u as [|a u]; [congruence|].
      cbn [solid all_chars] in Hu. apply andb_prop in Hu. destruct Hu as [Ha _].
      cbn [startswith].
      destruct (Ascii.eqb_spec a c) as [-> | _].
      * rewrite Hc in Ha. discriminate Ha.
      * reflexivity.
  - cbn [append contains]. rewrite IH.
    change (String c (x ++ w)) with (String c x ++ w).
    rewrite (startswith_space_after _ _ _ Hw Hu). reflexivity.
Qed.

Lemma contains_space_before (w x u : string) :
  all_chars isspace w = true -> solid u = true -> u <> "" ->
  contains u (w ++ x) = contains u x.
Proof.
  intros Hw Hu Hne. induction w as [|c w IH]; [reflexivity|].
  cbn [all_chars] in Hw. apply andb_prop in Hw. destruct Hw as [Hc Hw].
  cbn [append contains]. rewrite (IH Hw).
  destruct u as [|a u]; [congruence|].
  cbn [solid all_chars] in Hu. apply andb_prop in Hu. destruct Hu as [Ha _].
  cbn [startswith].
  destruct (Ascii.eqb_spec a c) as [-> | _].
  - rewrite Hc in Ha. discriminate Ha.
  - reflexivity.
Qed.

Lemma contains_strip (s u : string) :
  solid u = true -> u <> "" ->
  contains u (lower (strip s)) = contains u (lower s).
Proof.
  intros Hu Hne. destruct (strip_split s) as (w1 & w2 & H1 & H2 & E).
  rewrite E at 2. rewrite !lower_app.
  rewrite contains_space_before by (rewrite ?lower_space; assumption).
  rewrite contains_space_after by (rewrite ?lower_space; assumption).
  reflexivity.
Qed.

Lemma space_not_digit (c : ascii) : isspace c = true -> isdigit c = false.
Proof.
  intros H. destruct (isdigit c) eqn:E; [|reflexivity].
  destruct (class_disjoint c) as [Hd _]. destruct (Hd E) as [Hn _].
  congruence.
Qed.

Lemma first_duration_space_before (w s : string) :
  all_chars isspace w = true -> first_duration (w ++ s) = first_duration s.
Proof.
  intros Hw. induction w as [|c w IH]; [reflexivity|].
  cbn [all_chars] in Hw. apply andb_prop in Hw. destruct Hw as [Hc Hw].
  cbn [append first_duration]. unfold duration_at at 1. cbn [take_while].
  rewrite (space_not_digit c Hc). exact (IH Hw).
Qed.

Lemma unit_at_space_after (x w : string) :
  all_chars isspace w = true -> unit_at (x ++ w) = unit_at x.
Proof.
  intros Hw. unfold unit_at, units. cbn [find fst].
  rewrite !(startswith_space_after x w) by (assumption || reflexivity).
  reflexivity.
Qed.

Lemma drop_while_space_after (p : ascii -> bool) (b w : string) :
  all_chars isspace w = true ->
  exists w',
    all_chars isspace w' = true
    /\ drop_while p (b ++ w) = drop_while p b ++ w'.
Proof.
  intros Hw. induction b as [|c b (w' & Hw' & IH)].
  - cbn [append drop_while]. induction w as [|c w IHw].
    + exists "". split; reflexivity.
    + cbn [all_chars] in Hw. apply andb_prop in Hw. destruct Hw as [Hc Hw].
      cbn [drop_while]. destruct (p c).
      * exact (IHw Hw).
      * exists (String c w). cbn [all_chars]. rewrite Hc, Hw.
        split; reflexivity.
  - cbn [append drop_while]. destruct (p c).
    + exists w'. split; assumption.
    + exists w. split; [assumption | reflexivity].
Qed.

Lemma take_while_digit_space_after (a w : string) :
  all_chars isspace w = true ->
  take_while isdigit (a ++ w) = take_while isdigit a.
Proof.
  intros Hw. induction a as [|c a IH].
  - cbn [append]. destruct w as [|c w]; [reflexivity|].
    cbn [all_chars] in Hw. apply andb_prop in Hw. destruct Hw as [Hc _].
    cbn [take_while]. rewrite (space_not_digit c Hc). reflexivity.
  - cbn [append take_while]. rewrite IH. reflexivity.
Qed.

Lemma duration_at_space_after (a w : string) :
  all_chars isspace w = true -> duration_at (a ++ w) = duration_at a.
Proof.
  intros Hw. unfold duration_at.
  rewrite (take_while_digit_space_after a w Hw).
  destruct (drop_while_space_after isdigit a w Hw) as (w1 & Hw1 & ->).
  destruct (drop_while_space_after isspace (drop_while isdigit a) w1 Hw1)
    as (w2 & Hw2 & ->).
  rewrite (unit_at_space_after _ w2 Hw2). reflexivity.
Qed.

Lemma first_duration_space (w : string) :
  all_chars isspace w = true -> first_duration w = None.
Proof.
  intros Hw. induction w as [|c w IH]; [reflexivity|].
  cbn [all_chars] in Hw. apply andb_prop in Hw. destruct Hw as [Hc Hw].
  cbn [first_duration]. unfold duration_at at 1. cbn [take_while].
  rewrite (space_not_digit c Hc). exact (IH Hw).
Qed.

Lemma first_duration_space_after (a w : string) :
  all_chars isspace w = true -> first_duration (a ++ w) = first_duration a.
Proof.
  intros Hw. induction a as [|c a IH].
  - cbn [append]. exact (first_duration_space w Hw).
  - cbn [append first_duration].
    change (String c (a ++ w)) with (String c a ++ w).
    rewrite (duration_at_space_after _ w Hw), IH. reflexivity.
Qed.

Lemma first_duration_strip (s : string) :
  first_duration (lower (strip s)) = first_duration (lower s).
Proof.
  destruct (strip_split s) as (w1 & w2 & H1 & H2 & E).
  rewrite E at 2. rewrite !lower_app.
  rewrite first_duration_space_before by (rewrite lower_space; exact H1).
  rewrite first_duration_space_after by (rewrite lower_space; exact H2).
  reflexivity.
Qed.

Lemma duration_strip (s : string) :
  duration_days (strip s) = duration_days s
  /\ duration_digits (strip s) = duration_digits s
  /\ marketing_trigger (strip s) = marketing_trigger s.
Proof.
  unfold duration_days, duration_digits, marketing_trigger, fallback_days.
  rewrite first_duration_strip.
  rewrite !contains_strip by (reflexivity || discriminate).
  repeat split.
Qed.

(** White space around the goal changes neither the duration nor the
    plan. *)
Lemma mock_llm_reasoning_strip (max_str_digits : nat)
  (now start : datetime) (goal : string) :
  parse_goal_duration max_str_digits now (strip goal)
  = parse_goal_duration max_str_digits now goal
  /\ mock_llm_reasoning max_str_digits now start (strip goal)
     = mock_llm_reasoning max_str_digits now start goal.
Proof.
  destruct (duration_strip goal) as (Hd & Hg & Ht).
  assert (Hp : parse_goal_duration max_str_digits now (strip goal)
               = parse_goal_duration max_str_digits now goal).
  { rewrite !parse_goal_duration_eq, Hd, Hg. reflexivity. }
  split; [exact Hp|].
  rewrite !mock_llm_reasoning_eq, Hp, Ht. reflexivity.
Qed.

(** X11.  Goals that differ by the case of their letters only get the same
    duration and the same plan. *)
Theorem mock_llm_reasoning_case (max_str_digits : nat)
  (now start : datetime) (goal goal' : string) :
  lower goal = lower goal' ->
  parse_goal_duration max_str_digits now goal
  = parse_goal_duration max_str_digits now goal'
  /\ mock_llm_reasoning max_str_digits now start goal
     = mock_llm_reasoning max_str_digits now start goal'.
Proof.
  intros H.
  assert (Hp : parse_goal_duration max_str_digits now goal
               = parse_goal_duration max_str_digits now goal').
  { unfold parse_goal_duration. rewrite H. reflexivity. }
  split; [exact Hp|].
  unfold mock_llm_reasoning, marketing_trigger. rewrite Hp, H. reflexivity.
Qed.

Lemma mock_llm_reasoning_case_witness :
  lower "LAUNCH the Product in 2 Weeks" = lower "launch the product in 2 weeks"
  /\ mock_llm_reasoning 4300 jan_15_2024 jan_15_2024
       "LAUNCH the Product in 2 Weeks"
     = mock_llm_reasoning 4300 jan_15_2024 jan_15_2024
         "launch the product in 2 weeks".
Proof.
  split; [reflexivity|].
  exact (proj2 (mock_llm_reasoning_case 4300 jan_15_2024 jan_15_2024
                  "LAUNCH the Product in 2 Weeks"
                  "launch the product in 2 weeks" eq_refl)).
Defined.

(** *** What the pipeline raises, and when it returns *)

(** X12.  The pipeline raises [ValueError] when the integer of the goal has
    more digits than [int] converts, and otherwise [OverflowError]; it
    raises nothing else: no division by zero, no index out of range. *)
Theorem mock_llm_reasoning_raises (max_str_digits : nat)
  (now start : datetime) (goal : string) (e : exn) :
  mock_llm_reasoning max_str_digits now start goal = Raise e ->
  (e = ValueError
   /\ exceeds_max_str_digits max_str_digits (duration_digits goal) = true)
  \/ (e = OverflowError
      /\ exceeds_max_str_digits max_str_digits (duration_digits goal) = false).
Proof.
  rewrite mock_llm_reasoning_eq, parse_goal_duration_eq, with_deadline_eq.
  destruct (exceeds_max_str_digits _ _).
  - intros [= <-]. left. auto.
  - destruct (date_ok now _); cbn [bind].
    + destruct (timeline_ok _ _ _ _); [discriminate|].
      intros [= <-]. right. auto.
    + intros [= <-]. right. auto.
Qed.

Lemma mock_llm_reasoning_raises_witness :
  mock_llm_reasoning 4300 jan_15_2024 jan_15_2024
    "Launch a product in 9999999 days" = Raise OverflowError
  /\ ((OverflowError = ValueError
       /\ exceeds_max_str_digits 4300
            (duration_digits "Launch a product in 9999999 days") = true)
      \/ (OverflowError = OverflowError
          /\ exceeds_max_str_digits 4300
               (duration_digits "Launch a product in 9999999 days") = false)).
Proof.
  assert (H : mock_llm_reasoning 4300 jan_15_2024 jan_15_2024
                "Launch a product in 9999999 days" = Raise OverflowError)
    by (vm_compute; reflexivity).
  split; [exact H|].
  exact (mock_llm_reasoning_raises 4300 jan_15_2024 jan_15_2024
           "Launch a product in 9999999 days" OverflowError H).
Defined.

(** X13.  With instants of the calendar, the pipeline returns exactly when
    the integer is within the digits of [int], the deadline is no later
    than 9999-12-31 and so is the last day of the last phase. *)
Theorem mock_llm_reasoning_returns_iff (max_str_digits : nat)
  (now start : datetime) (goal : string) :
  1 <= ordinal now -> 1 <= ordinal start ->
  let days := duration_days goal in
  let n := if 10 <=? days then 6 else 4 in
  (exists tasks, mock_llm_reasoning max_str_digits now start goal = Ok tasks)
  <->
  (exceeds_max_str_digits max_str_digits (duration_digits goal) = false
   /\ ordinal now + days <= MAXORDINAL
   /\ ordinal start + n * Z.max 1 (days / n) - 1 <= MAXORDINAL).
Proof.
  intros Hnow Hstart days n.
  pose proof (duration_days_nonneg goal) as Hnn. fold days in Hnn.
  assert (Hn : width days (choose_phases days) = Z.max 1 (days / n)
               /\ Z.of_nat (List.length (choose_phases days)) = n).
  { unfold width, n.
    destruct (choose_phases_cases days) as [[H ->] | [H ->]];
      [destruct (Z.leb_spec 10 days); [|lia]
      | destruct (Z.leb_spec 10 days); [lia|]]; split; reflexivity. }
  destruct Hn as [Hw Hlen].
  assert (Hn4 : 4 <= n) by (unfold n; destruct (10 <=? days); lia).
  rewrite mock_llm_reasoning_eq, parse_goal_duration_eq, with_deadline_eq.
  fold days. split.
  - intros [tasks H].
    destruct (exceeds_max_str_digits _ _); [discriminate H|].
    destruct (date_ok now days) eqn:Hd; [|discriminate H]. cbn [bind] in H.
    destruct (timeline_ok _ _ _ _) eqn:Hok; [|discriminate H].
    split; [reflexivity|]. split.
    + unfold date_ok, valid_ordinal in Hd.
      apply andb_prop in Hd. destruct Hd as [_ Hd].
      apply andb_prop in Hd. destruct Hd as [_ Hd]. lia.
    + assert (Hpos : (List.length (choose_phases days) - 1
                      < List.length (choose_phases days))%nat) by lia.
      destruct (timeline_ok_nth start _ _ 1 _ Hok Hpos) as [_ He].
      unfold date_ok, valid_ordinal in He.
      apply andb_prop in He. destruct He as [_ He].
      apply andb_prop in He. destruct He as [_ He].
      rewrite Hw in He.
      replace (1 + Z.of_nat (List.length (choose_phases days) - 1)) with n
        in He by lia.
      lia.
  - intros (Hx & Hdl & Hend). rewrite Hx.
    rewrite (date_ok_in_range now days) by lia. cbn [bind].
    rewrite timeline_ok_in_range; [eexists; reflexivity | lia | | lia |].
    + apply width_pos.
    + rewrite Hw, Hlen. lia.
Qed.

Lemma mock_llm_reasoning_returns_iff_witness :
  1 <= ordinal jan_15_2024
  /\ let days := duration_days "ship mvp in 3 days" in
     let n := if 10 <=? days then 6 else 4 in
     (exists tasks,
         mock_llm_reasoning 4300 jan_15_2024 jan_15_2024 "ship mvp in 3 days"
         = Ok tasks)
     <->
     (exceeds_max_str_digits 4300 (duration_digits "ship mvp in 3 days")
      = false
      /\ ordinal jan_15_2024 + days <= MAXORDINAL
      /\ ordinal jan_15_2024 + n * Z.max 1 (days / n) - 1 <= MAXORDINAL).
Proof.
  assert (H : 1 <= ordinal jan_15_2024) by (vm_compute; discriminate).
  split; [exact H|].
  exact (mock_llm_reasoning_returns_iff 4300 jan_15_2024 jan_15_2024
           "ship mvp in 3 days" H H).
Defined.

(** *** [generate_plan] and the service *)

Lemma plan_of_no_note (start : datetime) (days : Z) (augment : bool) :
  Forall (fun t => llm_note t = None) (plan_of start days augment).
Proof.
  unfold plan_of.
  assert (Htl : forall chosen p todo i,
             Forall (fun t => llm_note t = None)
               (timeline start chosen p i todo)).
  { intros chosen p todo. induction todo as [|ph todo IH]; intros i;
      cbn [timeline]; constructor; [reflexivity | apply IH]. }
  destruct augment; [|apply Htl].
  apply Forall_insert; [apply Htl | reflexivity].
Qed.

Lemma mock_llm_reasoning_raise (max_str_digits : nat)
  (now start : datetime) (goal : string) (e : exn) :
  mock_llm_reasoning max_str_digits now start goal = Raise e ->
  e = ValueError \/ e = OverflowError.
Proof.
  rewrite mock_llm_reasoning_eq, parse_goal_duration_eq, with_deadline_eq.
  destruct (exceeds_max_str_digits _ _); [intros [= <-]; auto|].
  destruct (date_ok now _); cbn [bind]; [|intros [= <-]; auto].
  destruct (timeline_ok _ _ _ _); [discriminate | intros [= <-]; auto].
Qed.

Lemma slice_to_prefix (n : nat) (s : string) :
  (String.length (slice_to n s) <= n)%nat
  /\ exists rest, s = slice_to n s ++ rest.
Proof.
  revert s. induction n as [|n IH]; intros s.
  - split; [destruct s; cbn; lia|]. exists s. destruct s; reflexivity.
  - destruct s as [|c s]; cbn [slice_to String.length].
    + split; [lia|]. exists "". reflexivity.
    + destruct (IH s) as [Hl [rest Hr]]. split; [lia|].
      exists rest. cbn [append]. rewrite <- Hr. reflexivity.
Qed.

(** X14.  Without the service (not asked for, or no key) the plan is the
    plan of the pipeline for the text as it came: the stripping of
    line 133 changes nothing, and the service and [json.loads] are not
    consulted. *)
Theorem generate_plan_without_service
  (json_loads : string -> option json) (key : option string)
  (call_openai : string -> call_outcome) (max_str_digits : nat)
  (now start now' start' : datetime) (goal : string) (use_openai : bool) :
  use_openai && key_configured key = false ->
  generate_plan json_loads key call_openai max_str_digits now start now' start'
    goal use_openai
  = (tasks <- mock_llm_reasoning max_str_digits now start goal ;;
     Ok (TaskList tasks)).
Proof.
  intros H. unfold generate_plan. rewrite H.
  rewrite (proj2 (mock_llm_reasoning_strip max_str_digits now start goal)).
  reflexivity.
Qed.

Lemma generate_plan_without_service_witness :
  true && key_configured (Some "") = false
  /\ generate_plan (fun _ => Some JNull) (Some "")
       (fun _ => CallReturned "[]") 4300
       jan_15_2024 jan_15_2024 jan_15_2024 jan_15_2024
       "  ship mvp in 3 days  " true
     = (tasks <- mock_llm_reasoning 4300 jan_15_2024 jan_15_2024
                   "  ship mvp in 3 days  " ;;
        Ok (TaskList tasks)).
Proof.
  split; [reflexivity|].
  exact (generate_plan_without_service (fun _ => Some JNull) (Some "")
           (fun _ => CallReturned "[]") 4300
           jan_15_2024 jan_15_2024 jan_15_2024 jan_15_2024
           "  ship mvp in 3 days  " true eq_refl).
Defined.

(** X15.  An exception that leaves [generate_plan] is [ValueError] or
    [OverflowError], raised by the pipeline: by its first run, or by the
    run of line 152, which is reached after the first run raised or
    after a reply that is neither a text nor an array made [reply[:400]]
    raise.  No error of the service, of [json.loads] or of the slice
    leaves it. *)
Theorem generate_plan_raises
  (json_loads : string -> option json) (key : option string)
  (call_openai : string -> call_outcome) (max_str_digits : nat)
  (now start now' start' : datetime) (goal : string) (use_openai : bool)
  (e : exn) :
  generate_plan json_loads key call_openai max_str_digits now start now' start'
    goal use_openai = Raise e ->
  (e = ValueError \/ e = OverflowError)
  /\ (mock_llm_reasoning max_str_digits now start goal = Raise e
      \/ (mock_llm_reasoning max_str_digits now' start' goal = Raise e
          /\ use_openai = true /\ key_configured key = true
          /\ ((exists e0,
                  mock_llm_reasoning max_str_digits now start goal = Raise e0)
              \/ call_openai (build_prompt (strip goal))
                 = CallReturnedOther))).
Proof.
  unfold generate_plan.
  rewrite !(proj2 (mock_llm_reasoning_strip max_str_digits _ _ goal)).
  intros H.
  assert (Hcases :
            mock_llm_reasoning max_str_digits now start goal = Raise e
            \/ (mock_llm_reasoning max_str_digits now' start' goal = Raise e
                /\ use_openai = true /\ key_configured key = true
                /\ ((exists e0,
                        mock_llm_reasoning max_str_digits now start goal
                        = Raise e0)
                    \/ call_openai (build_prompt (strip goal))
                       = CallReturnedOther))).
  { destruct use_openai; cbn [andb] in H.
    - destruct (key_configured key).
      + destruct (call_openai _) as [|reply|items|] eqn:Hcall.
        * destruct (mock_llm_reasoning max_str_digits now start goal)
            as [?|e0]; [discriminate H|].
          injection H as <-. left. reflexivity.
        * destruct (json_loads reply); [discriminate H|].
          destruct (mock_llm_reasoning max_str_digits now start goal)
            as [?|e0]; [discriminate H|].
          destruct (mock_llm_reasoning max_str_digits now' start' goal);
            [discriminate H|]. injection H as <-.
          right. repeat split. left. eexists. reflexivity.
        * destruct (mock_llm_reasoning max_str_digits now start goal)
            as [?|e0]; [discriminate H|].
          destruct (mock_llm_reasoning max_str_digits now' start' goal);
            [discriminate H|]. injection H as <-.
          right. repeat split. left. eexists. reflexivity.
        * assert (Hre : mock_llm_reasoning max_str_digits now' start' goal
                        = Raise e).
          { destruct (mock_llm_reasoning max_str_digits now start goal)
              as [[|t ts]|e0]; [discriminate H| |];
              (destruct (mock_llm_reasoning max_str_digits now' start' goal);
               [discriminate H | injection H as <-; reflexivity]). }
          right. repeat split; [exact Hre|]. right. reflexivity.
      + destruct (mock_llm_reasoning max_str_digits now start goal)
          as [?|e0]; [discriminate H|].
        injection H as <-. left. reflexivity.
    - destruct (mock_llm_reasoning max_str_digits now start goal) as [?|e0];
        [discriminate H|].
      injection H as <-. left. reflexivity. }
  split; [|exact Hcases].
  destruct Hcases as [H1 | [H1 _]];
    exact (mock_llm_reasoning_raise _ _ _ _ _ H1).
Qed.

Lemma generate_plan_raises_witness :
  exists tasks,
    mock_llm_reasoning 4300 jan_15_2024 jan_15_2024 "in 2913159 days"
    = Ok tasks
    /\ generate_plan (fun _ => None) (Some "key") (fun _ => CallReturnedOther)
         4300 jan_15_2024 jan_15_2024 jan_16_2024 jan_16_2024
         "in 2913159 days" true = Raise OverflowError
    /\ mock_llm_reasoning 4300 jan_16_2024 jan_16_2024 "in 2913159 days"
       = Raise OverflowError.
Proof.
  eexists. split; [vm_compute; reflexivity|].
  assert (H : generate_plan (fun _ => None) (Some "key")
                (fun _ => CallReturnedOther) 4300
                jan_15_2024 jan_15_2024 jan_16_2024 jan_16_2024
                "in 2913159 days" true = Raise OverflowError)
    by (vm_compute; reflexivity).
  split; [exact H|].
  destruct (generate_plan_raises _ _ _ _ _ _ _ _ _ _ _ H)
    as (_ & [H1 | (H1 & _)]); [vm_compute in H1; discriminate H1 | exact H1].
Defined.

(** X16.  When the pipeline serves the goal at both readings of the
    clock, [generate_plan] returns, whatever the service does.  What it
    returns is the decoded reply of the service, or the tasks of the
    first run with their five fields as they were, or, after a reply
    that is neither a text nor an array, the tasks of the second run. *)
Theorem generate_plan_returns
  (json_loads : string -> option json) (key : option string)
  (call_openai : string -> call_outcome) (max_str_digits : nat)
  (now start now' start' : datetime) (goal : string) (use_openai : bool)
  (tasks tasks' : list Task) :
  mock_llm_reasoning max_str_digits now start goal = Ok tasks ->
  mock_llm_reasoning max_str_digits now' start' goal = Ok tasks' ->
  exists p,
    generate_plan json_loads key call_openai max_str_digits
      now start now' start' goal use_openai = Ok p
    /\ match p with
       | ParsedReply parsed =>
           use_openai = true /\ key_configured key = true
           /\ exists reply,
                call_openai (build_prompt (strip goal)) = CallReturned reply
                /\ json_loads reply = Some parsed
       | TaskList tasks'' =>
           map (fun t => (title t, description t, start_date t, end_date t,
                          depends_on t)) tasks''
           = map (fun t => (title t, description t, start_date t, end_date t,
                            depends_on t)) tasks
           \/ (tasks'' = tasks'
               /\ use_openai = true /\ key_configured key = true
               /\ call_openai (build_prompt (strip goal)) = CallReturnedOther)
       end.
Proof.
  intros Hmock Hmock'. unfold generate_plan.
  rewrite !(proj2 (mock_llm_reasoning_strip max_str_digits _ _ goal)).
  rewrite Hmock, Hmock'.
  assert (Hnote : forall v,
             map (fun t => (title t, description t, start_date t, end_date t,
                            depends_on t))
               (map (setdefault_llm_note v) tasks)
             = map (fun t => (title t, description t, start_date t,
                              end_date t, depends_on t)) tasks).
  { intros v. rewrite map_map. apply map_ext.
    intros t. unfold setdefault_llm_note. destruct (llm_note t); reflexivity. }
  destruct use_openai; cbn [andb bind];
    [|eexists; split; [reflexivity | left; reflexivity]].
  destruct (key_configured key);
    [|eexists; split; [reflexivity | left; reflexivity]].
  destruct (call_openai _) as [|reply|items|] eqn:Hcall.
  - eexists. split; [reflexivity | left; reflexivity].
  - destruct (json_loads reply) as [parsed|] eqn:Hl.
    + eexists. split; [reflexivity|]. cbv beta iota.
      repeat split. exists reply. auto.
    + eexists. split; [reflexivity|]. cbv beta iota. left. apply Hnote.
  - eexists. split; [reflexivity|]. cbv beta iota. left. apply Hnote.
  - destruct tasks as [|t ts].
    + eexists. split; [reflexivity | left; reflexivity].
    + eexists. split; [reflexivity|]. cbv beta iota. right. auto.
Qed.

Lemma generate_plan_returns_witness :
  exists tasks tasks' p,
    mock_llm_reasoning 4300 jan_15_2024 jan_15_2024 "ship mvp in 3 days"
    = Ok tasks
    /\ mock_llm_reasoning 4300 jan_16_2024 jan_16_2024 "ship mvp in 3 days"
       = Ok tasks'
    /\ generate_plan (fun _ => None) (Some "key") (fun _ => CallReturnedOther)
         4300 jan_15_2024 jan_15_2024 jan_16_2024 jan_16_2024
         "ship mvp in 3 days" true = Ok p.
Proof.
  eexists. eexists.
  destruct (generate_plan_returns (fun _ => None) (Some "key")
              (fun _ => CallReturnedOther) 4300
              jan_15_2024 jan_15_2024 jan_16_2024 jan_16_2024
              "ship mvp in 3 days" true _ _
              ltac:(vm_compute; reflexivity) ltac:(vm_compute; reflexivity))
    as (p & Hp & _).
  exists p. split; [reflexivity|]. split; [reflexivity | exact Hp].
Defined.

(** X17.  A reply that is a text and that [json.loads] refuses is put on
    every task of the plan as its note, cut to its first 400
    characters. *)
Theorem generate_plan_notes
  (json_loads : string -> option json) (key : option string)
  (call_openai : string -> call_outcome) (max_str_digits : nat)
  (now start now' start' : datetime) (goal reply : string)
  (tasks : list Task) :
  key_configured key = true ->
  call_openai (build_prompt (strip goal)) = CallReturned reply ->
  json_loads reply = None ->
  mock_llm_reasoning max_str_digits now start goal = Ok tasks ->
  exists tasks',
    generate_plan json_loads key call_openai max_str_digits
      now start now' start' goal true = Ok (TaskList tasks')
    /\ List.length tasks' = List.length tasks
    /\ Forall
         (fun t =>
            exists note rest,
              llm_note t = Some (JString note)
              /\ (String.length note <= 400)%nat
              /\ reply = note ++ rest)
         tasks'.
Proof.
  intros Hkey Hcall Hloads Hmock.
  assert (Hmock' : mock_llm_reasoning max_str_digits now start (strip goal)
                   = Ok tasks).
  { rewrite (proj2 (mock_llm_reasoning_strip max_str_digits _ _ goal)).
    exact Hmock. }
  eexists. split.
  { exact (generate_plan_unparseable json_loads key call_openai max_str_digits
             now start now' start' goal reply tasks Hkey Hcall Hloads Hmock'). }
  split; [apply length_map|].
  destruct (mock_llm_reasoning_ok _ _ _ _ _ Hmock)
    as (days & deadline & _ & _ & ->).
  apply Forall_map.
  eapply Forall_impl; [|apply plan_of_no_note].
  intros t Ht. unfold setdefault_llm_note. rewrite Ht. cbn [llm_note].
  destruct (slice_to_prefix 400 reply) as [Hlen [rest Hrest]].
  exists (slice_to 400 reply), rest. auto.
Qed.

Lemma generate_plan_notes_witness :
  exists tasks tasks',
    mock_llm_reasoning 4300 jan_15_2024 jan_15_2024
      "Launch a product in 2 weeks" = Ok tasks
    /\ generate_plan (fun _ => None) (Some "key")
         (fun _ => CallReturned "Sorry, I cannot help with that.") 4300
         jan_15_2024 jan_15_2024 jan_15_2024 jan_15_2024
         "Launch a product in 2 weeks" true = Ok (TaskList tasks')
    /\ List.length tasks' = List.length tasks
    /\ Forall
         (fun t =>
            exists note rest,
              llm_note t = Some (JString note)
              /\ (String.length note <= 400)%nat
              /\ "Sorry, I cannot help with that." = note ++ rest)
         tasks'.
Proof.
  eexists.
  destruct (generate_plan_notes (fun _ => None) (Some "key")
              (fun _ => CallReturned "Sorry, I cannot help with that.") 4300
              jan_15_2024 jan_15_2024 jan_15_2024 jan_15_2024
              "Launch a product in 2 weeks"
              "Sorry, I cannot help with that." _
              eq_refl eq_refl eq_refl ltac:(vm_compute; reflexivity))
    as (tasks' & H).
  exists tasks'. split; [reflexivity | exact H].
Defined.

(** X18.  The test of the key in [call_openai] never fails under
    [generate_plan], which makes the same test before the call: the
    [RuntimeError] of line 99 cannot occur there. *)
Theorem call_openai_key_checked
  (json_loads : string -> option json) (key : option string)
  (post : string -> call_outcome) (max_str_digits : nat)
  (now start now' start' : datetime) (goal : string) (use_openai : bool) :
  generate_plan json_loads key (call_openai key post) max_str_digits
    now start now' start' goal use_openai
  = generate_plan json_loads key post max_str_digits
      now start now' start' goal use_openai.
Proof.
  unfold generate_plan, call_openai.
  destruct use_openai; [|reflexivity]. cbn [andb].
  destruct (key_configured key); reflexivity.
Qed.

(** *** A reply that is not a text *)

Lemma mock_llm_reasoning_nonempty (max_str_digits : nat)
  (now start : datetime) (goal : string) (tasks : list Task) :
  mock_llm_reasoning max_str_digits now start goal = Ok tasks -> tasks <> [].
Proof.
  intros H.
  destruct (mock_llm_reasoning_ok _ _ _ _ _ H) as (days & _ & _ & _ & ->).
  intros E. apply (f_equal (@List.length Task)) in E.
  rewrite plan_of_length in E. cbn [List.length] in E.
  destruct (10 <=? days); discriminate E.
Qed.

(** X20.  After a reply that is neither a text nor an array ([null], a
    number, a boolean, an object), the plan of the first run is dropped:
    [generate_plan] gives what a second run of the pipeline gives, on a
    new reading of the clock, and its tasks carry no note. *)
Theorem generate_plan_reply_unusable
  (json_loads : string -> option json) (key : option string)
  (call_openai : string -> call_outcome) (max_str_digits : nat)
  (now start now' start' : datetime) (goal : string) :
  key_configured key = true ->
  call_openai (build_prompt (strip goal)) = CallReturnedOther ->
  generate_plan json_loads key call_openai max_str_digits
    now start now' start' goal true
  = (tasks <- mock_llm_reasoning max_str_digits now' start' goal ;;
     Ok (TaskList tasks))
  /\ forall tasks,
       mock_llm_reasoning max_str_digits now' start' goal = Ok tasks ->
       Forall (fun t => llm_note t = None) tasks.
Proof.
  intros Hkey Hcall. split.
  - unfold generate_plan. cbn [andb]. rewrite Hkey, Hcall.
    rewrite !(proj2 (mock_llm_reasoning_strip max_str_digits _ _ goal)).
    destruct (mock_llm_reasoning max_str_digits now start goal)
      as [[|t ts]|e0] eqn:Hfirst; try reflexivity.
    exfalso. exact (mock_llm_reasoning_nonempty _ _ _ _ _ Hfirst eq_refl).
  - intros tasks Hmock.
    destruct (mock_llm_reasoning_ok _ _ _ _ _ Hmock)
      as (days & deadline & _ & _ & ->).
    apply plan_of_no_note.
Qed.

Lemma generate_plan_reply_unusable_witness :
  exists first second,
    mock_llm_reasoning 4300 jan_15_2024 jan_15_2024 "ship mvp in 3 days"
    = Ok first
    /\ mock_llm_reasoning 4300 jan_16_2024 jan_16_2024 "ship mvp in 3 days"
       = Ok second
    /\ first <> second
    /\ generate_plan (fun _ => None) (Some "key") (fun _ => CallReturnedOther)
         4300 jan_15_2024 jan_15_2024 jan_16_2024 jan_16_2024
         "ship mvp in 3 days" true = Ok (TaskList second).
Proof.
  eexists. eexists. split; [vm_compute; reflexivity|].
  assert (Hsecond : mock_llm_reasoning 4300 jan_16_2024 jan_16_2024
                      "ship mvp in 3 days" = Ok _)
    by (vm_compute; reflexivity).
  split; [exact Hsecond|]. split; [discriminate|].
  rewrite (proj1 (generate_plan_reply_unusable (fun _ => None) (Some "key")
                    (fun _ => CallReturnedOther) 4300
                    jan_15_2024 jan_15_2024 jan_16_2024 jan_16_2024
                    "ship mvp in 3 days" eq_refl eq_refl)).
  rewrite Hsecond. reflexivity.
Defined.



(** *** [build_prompt] *)

Lemma append_cancel_l (a x y : string) : a ++ x = a ++ y -> x = y.
Proof.
  induction a as [|c a IH]; cbn [append]; [auto|].
  intros [= H]. exact (IH H).
Qed.

Lemma length_append (a b : string) :
  String.length (a ++ b) = (String.length a + String.length b)%nat.
Proof.
  induction a as [|c a IH]; [reflexivity|].
  cbn [append String.length]. rewrite IH. reflexivity.
Qed.

Lemma append_cancel_r (x y b : string) : x ++ b = y ++ b -> x = y.
Proof.
  intros H.
  assert (Hlen : String.length x = String.length y).
  { apply (f_equal String.length) in H. rewrite !length_append in H.
    lia. }
  revert y H Hlen. induction x as [|c x IH]; intros [|c' y] H Hlen;
    try discriminate Hlen; [reflexivity|].
  cbn [append] in H. injection H as -> H.
  f_equal. apply IH; [exact H|]. cbn [String.length] in Hlen. lia.
Qed.

(** X19.  The prompt determines the goal: two goals that differ give two
    prompts that differ. *)
Theorem build_prompt_injective (goal goal' : string) :
  goal <> goal' -> build_prompt goal <> build_prompt goal'.
Proof.
  intros Hne H. apply Hne. unfold build_prompt in H.
  do 4 apply append_cancel_l in H.
  apply append_cancel_r in H. exact H.
Qed.

Lemma build_prompt_injective_witness :
  "ship mvp in 3 days" <> "ship mvp in 4 days"
  /\ build_prompt "ship mvp in 3 days" <> build_prompt "ship mvp in 4 days".
Proof.
  assert (H : "ship mvp in 3 days" <> "ship mvp in 4 days") by discriminate.
  split; [exact H|].
  exact (build_prompt_injective _ _ H).
Defined.
